(** * The outfit and pose history controller of the try-on application

    A shallow embedding of the top-level [App] component: its nine state
    cells, the derived [displayImageUrl], and the handlers
    [handleModelFinalized], [handleStartOver], [handleGarmentSelect],
    [handleRegenerateLayer], [handleRemoveLayer] and [handlePoseSelect].

    The three asynchronous handlers suspend at [await].  A handler is
    therefore a function from the state it was rendered with to an
    [Outcome]: it either returns, or stops at an external call and leaves
    a [Pending] continuation, which holds exactly the variables its
    closure captured.  [resume] runs the continuation on the state found
    when the promise settles, so functional updaters ([prev => ...]) read
    that later state while captured variables keep their old values.

    A render that throws is not caught anywhere in these components: React
    then unmounts the application.  Nothing is left on screen to click;
    the promises still in flight settle and their continuations run, but
    the state updates they make are dropped. *)

From Stdlib Require Import List String Bool Arith Lia.
From Stdlib Require Import Ascii NArith DecimalString DecimalN.
Import ListNotations.
Open Scope string_scope.
Open Scope nat_scope.
Open Scope list_scope.

(** ** Data model *)

(** [WardrobeItem] of [./types]: the fields the controller and the panels
    read ([id], [name], [url]). *)
Record WardrobeItem := mkWardrobeItem {
  id : string;
  name : string;
  url : string
}.

(** A [File] is opaque to the controller; it is only handed on to the
    gateway. *)
Definition File := string.

(** [poseImages] is a plain JS object keyed by pose instruction.  Its own
    string keys are enumerated in insertion order, which is what
    [Object.values(...)[0]] depends on, so it is an association list. *)
Definition PoseImages := list (string * string).

Record OutfitLayer := mkOutfitLayer {
  garment : option WardrobeItem;
  poseImages : PoseImages
}.

(** A slot of a JS array.  [newHistory[layerIndex] = newLayer] past the end
    leaves holes.  A hole reads as [undefined], but [map] and [filter] skip
    it; spreading an array ([[...a]]) turns each hole into an explicit
    [undefined] element, which [map] does visit. *)
Inductive Slot :=
| Hole
| Undefined
| Layer (l : OutfitLayer).

Definition History := list Slot.

Record AppState := mkAppState {
  modelImageUrl : option string;
  outfitHistory : History;
  currentOutfitIndex : nat;
  isLoading : bool;
  loadingMessage : string;
  error : option string;
  currentPoseIndex : nat;
  isSheetCollapsed : bool;
  wardrobe : list WardrobeItem
}.

Definition POSE_INSTRUCTIONS : list string := [
  "Chụp chính diện, tay chống hông";
  "Hơi xoay người, góc 3/4";
  "Chụp góc nghiêng";
  "Nhảy lên, chụp khoảnh khắc";
  "Đi bộ về phía máy ảnh";
  "Dựa vào tường"
].

Definition defaultWardrobe : list WardrobeItem := [].

(** ** JS primitives used by the handlers *)

(** [POSE_INSTRUCTIONS[i]]: out of range it is [undefined], which as a
    property key and inside a template string reads "undefined". *)
Definition poseInstructionAt (i : nat) : string :=
  nth i POSE_INSTRUCTIONS "undefined".

(** [o[k]] *)
Fixpoint getProp (o : PoseImages) (k : string) : option string :=
  match o with
  | [] => None
  | (k', v) :: o' => if String.eqb k' k then Some v else getProp o' k
  end.

(** [o[k] = v]: an existing key keeps its place, a new key goes last. *)
Fixpoint setProp (o : PoseImages) (k v : string) : PoseImages :=
  match o with
  | [] => [(k, v)]
  | (k', v') :: o' =>
      if String.eqb k' k then (k', v) :: o' else (k', v') :: setProp o' k v
  end.

Definition objectValues (o : PoseImages) : list string := map snd o.

Definition objectKeys (o : PoseImages) : list string := map fst o.

(** Truthiness of a [string | undefined | null]: the empty string is falsy. *)
Definition truthy (v : option string) : bool :=
  match v with
  | Some s => negb (String.eqb s "")
  | None => false
  end.

(** [a[i]] on a possibly sparse array: a hole and an explicit [undefined]
    both read as [undefined]. *)
Definition layerAt (a : History) (i : nat) : option OutfitLayer :=
  match nth_error a i with
  | Some (Layer l) => Some l
  | _ => None
  end.

(** [a.slice(0, n)]: holes stay holes. *)
Definition slice0 (a : History) (n : nat) : History := firstn n a.

(** [[...a]]: the iterator reads every index, so a hole comes out as an
    explicit [undefined]. *)
Definition spread (a : History) : History :=
  map (fun x => match x with Hole => Undefined | _ => x end) a.

(** [a[i] = v]: in range it replaces, at the end it appends, further out
    it pads with holes first. *)
Fixpoint arraySet (a : History) (i : nat) (v : OutfitLayer) : History :=
  match a, i with
  | [], 0 => [Layer v]
  | [], S i' => Hole :: arraySet [] i' v
  | _ :: a', 0 => Layer v :: a'
  | x :: a', S i' => x :: arraySet a' i' v
  end.

(** [Object.values(layer.poseImages)[0]] *)
Definition firstPoseImage (l : OutfitLayer) : option string :=
  hd_error (objectValues (poseImages l)).

(** ** State updates *)

Definition setOutfitHistory (h : History) (s : AppState) : AppState :=
  mkAppState (modelImageUrl s) h (currentOutfitIndex s) (isLoading s)
    (loadingMessage s) (error s) (currentPoseIndex s) (isSheetCollapsed s)
    (wardrobe s).

Definition setCurrentOutfitIndex (i : nat) (s : AppState) : AppState :=
  mkAppState (modelImageUrl s) (outfitHistory s) i (isLoading s)
    (loadingMessage s) (error s) (currentPoseIndex s) (isSheetCollapsed s)
    (wardrobe s).

Definition setCurrentPoseIndex (i : nat) (s : AppState) : AppState :=
  mkAppState (modelImageUrl s) (outfitHistory s) (currentOutfitIndex s)
    (isLoading s) (loadingMessage s) (error s) i (isSheetCollapsed s)
    (wardrobe s).

Definition setError (e : option string) (s : AppState) : AppState :=
  mkAppState (modelImageUrl s) (outfitHistory s) (currentOutfitIndex s)
    (isLoading s) (loadingMessage s) e (currentPoseIndex s)
    (isSheetCollapsed s) (wardrobe s).

Definition setIsSheetCollapsed (b : bool) (s : AppState) : AppState :=
  mkAppState (modelImageUrl s) (outfitHistory s) (currentOutfitIndex s)
    (isLoading s) (loadingMessage s) (error s) (currentPoseIndex s) b
    (wardrobe s).

Definition setWardrobe (w : list WardrobeItem) (s : AppState) : AppState :=
  mkAppState (modelImageUrl s) (outfitHistory s) (currentOutfitIndex s)
    (isLoading s) (loadingMessage s) (error s) (currentPoseIndex s)
    (isSheetCollapsed s) w.

(** [setIsLoading(b); setLoadingMessage(m)], always issued together. *)
Definition setLoading (b : bool) (m : string) (s : AppState) : AppState :=
  mkAppState (modelImageUrl s) (outfitHistory s) (currentOutfitIndex s) b m
    (error s) (currentPoseIndex s) (isSheetCollapsed s) (wardrobe s).

(** The [finally] block of the three asynchronous handlers. *)
Definition finallyIdle (s : AppState) : AppState := setLoading false "" s.

(** The state of a freshly mounted [App]. *)
Definition initialState : AppState :=
  mkAppState None [] 0 false "" None 0 true defaultWardrobe.

(** ** Derived view *)

Definition displayImageUrl (s : AppState) : option string :=
  match outfitHistory s with
  | [] => modelImageUrl s
  | _ =>
      match layerAt (outfitHistory s) (currentOutfitIndex s) with
      | None => modelImageUrl s
      | Some currentLayer =>
          match getProp (poseImages currentLayer)
                        (poseInstructionAt (currentPoseIndex s)) with
          | Some v => Some v
          | None => firstPoseImage currentLayer
          end
      end
  end.

Definition availablePoseKeys (s : AppState) : list string :=
  match outfitHistory s with
  | [] => []
  | _ =>
      match layerAt (outfitHistory s) (currentOutfitIndex s) with
      | Some currentLayer => objectKeys (poseImages currentLayer)
      | None => []
      end
  end.

(** [outfitHistory.slice(0, currentOutfitIndex + 1)] *)
Definition activeOutfitLayers (s : AppState) : History :=
  slice0 (outfitHistory s) (currentOutfitIndex s + 1).

(** [layers.map(layer => layer.garment?.id)]: the callback is not called on
    a hole, which [filter] drops afterwards anyway; called on an explicit
    [undefined] it throws a [TypeError] ([None]). *)
Fixpoint garmentIdsOf (layers : History) : option (list (option string)) :=
  match layers with
  | [] => Some []
  | Hole :: layers' => garmentIdsOf layers'
  | Undefined :: _ => None
  | Layer l :: layers' =>
      option_map (cons (option_map id (garment l))) (garmentIdsOf layers')
  end.

(** [.filter(Boolean)] on [string | undefined]: the empty string goes too. *)
Fixpoint filterBoolean (l : list (option string)) : list string :=
  match l with
  | [] => []
  | x :: l' =>
      match x with
      | Some v => if truthy x then v :: filterBoolean l' else filterBoolean l'
      | None => filterBoolean l'
      end
  end.

(** [None] when the [map] callback throws. *)
Definition activeGarmentIds (s : AppState) : option (list string) :=
  option_map filterBoolean (garmentIdsOf (activeOutfitLayers s)).

(** Whether the render of [App] goes through: of the values it computes
    only [activeGarmentIds] can throw. *)
Definition renders (s : AppState) : bool :=
  match activeGarmentIds s with
  | Some _ => true
  | None => false
  end.

(** ** Suspension at external calls *)

Inductive Settled :=
| Fulfilled (value : string)
| Rejected (err : string).

Inductive ExternalCall :=
| generateVirtualTryOnImage (modelImage : string) (garmentImage : File)
| generatePoseVariation (tryOnImage : string) (poseInstruction : string)
| urlToFile (fileUrl : string) (fileName : string).

(** The rest of a handler after an [await], with the variables of its
    closure. *)
Inductive Pending :=
| GarmentSelectAwait (capturedOutfitIndex : nat) (garmentInfo : WardrobeItem)
| RegenerateAwaitFile (layerIndex : nat) (garmentInfo : WardrobeItem)
    (baseImageUrl : string)
| RegenerateAwaitTryOn (layerIndex : nat) (garmentInfo : WardrobeItem)
| PoseSelectAwait (capturedOutfitIndex : nat) (poseInstruction : string)
    (prevPoseIndex : nat).

(** How a handler or a continuation ends: it returns, it suspends at a
    call, it throws (the promise of the async function rejects and nobody
    handles it), or a state updater it queued throws when React applies
    it, which makes the render throw. *)
Inductive Outcome :=
| Return (s : AppState)
| Await (s : AppState) (call : ExternalCall) (k : Pending)
| Throw (s : AppState)
| UpdaterThrows (s : AppState).

Definition stateOf (o : Outcome) : AppState :=
  match o with
  | Return s | Await s _ _ | Throw s | UpdaterThrows s => s
  end.

Definition callOf (o : Outcome) : option ExternalCall :=
  match o with
  | Await _ c _ => Some c
  | _ => None
  end.

(** Whether an external call reaches the generation gateway ([urlToFile]
    only fetches a blob). *)
Definition isGatewayCall (c : ExternalCall) : bool :=
  match c with
  | urlToFile _ _ => false
  | _ => true
  end.

(** ** The handlers *)

Section Controller.

(** [getFriendlyErrorMessage] of [./lib/utils] turns a caught value and a
    fallback text into the message shown; the controller only stores what
    it returns. *)
Variable getFriendlyErrorMessage : string -> string -> string.

Definition handleModelFinalized (modelUrl : string) (s : AppState) : AppState :=
  setCurrentOutfitIndex 0
    (setOutfitHistory
       [Layer (mkOutfitLayer None [(poseInstructionAt 0, modelUrl)])]
       (mkAppState (Some modelUrl) (outfitHistory s) (currentOutfitIndex s)
          (isLoading s) (loadingMessage s) (error s) (currentPoseIndex s)
          (isSheetCollapsed s) (wardrobe s))).

Definition handleStartOver (s : AppState) : AppState :=
  mkAppState None [] 0 false "" None 0 false defaultWardrobe.

(** [nextLayer && nextLayer.garment?.id === garmentInfo.id] *)
Definition reapplies (nextLayer : option OutfitLayer)
    (garmentInfo : WardrobeItem) : bool :=
  match nextLayer with
  | Some l =>
      match garment l with
      | Some g => String.eqb (id g) (id garmentInfo)
      | None => false
      end
  | None => false
  end.

Definition handleGarmentSelect (isMobile : bool) (garmentFile : File)
    (garmentInfo : WardrobeItem) (s : AppState) : Outcome :=
  if negb (truthy (displayImageUrl s)) || isLoading s then Return s
  else
    match displayImageUrl s with
    | None => Return s
    | Some displayImage =>
        let s1 := if isMobile then setIsSheetCollapsed true s else s in
        let nextLayer := layerAt (outfitHistory s) (currentOutfitIndex s + 1) in
        if reapplies nextLayer garmentInfo then
          Return (setCurrentPoseIndex 0
                    (setCurrentOutfitIndex (currentOutfitIndex s1 + 1) s1))
        else
          Await
            (setLoading true ("Đang thêm " ++ name garmentInfo ++ "...")%string
               (setError None s1))
            (generateVirtualTryOnImage displayImage garmentFile)
            (GarmentSelectAwait (currentOutfitIndex s) garmentInfo)
    end.

(** [handleGarmentSelect] as the closure created by the render of state
    [rendered], called when the state is [s].  The guard, the reuse check,
    the base image and the index handed to the continuation are those of
    the closure; the setters act on [s].  The wardrobe panel calls it this
    way: its [handleGarmentClick] awaits [urlToFile] and then calls the
    [onGarmentSelect] it was rendered with. *)
Definition handleGarmentSelectOf (rendered : AppState) (isMobile : bool)
    (garmentFile : File) (garmentInfo : WardrobeItem) (s : AppState)
    : Outcome :=
  if negb (truthy (displayImageUrl rendered)) || isLoading rendered then
    Return s
  else
    match displayImageUrl rendered with
    | None => Return s
    | Some displayImage =>
        let s1 := if isMobile then setIsSheetCollapsed true s else s in
        let nextLayer :=
          layerAt (outfitHistory rendered) (currentOutfitIndex rendered + 1) in
        if reapplies nextLayer garmentInfo then
          Return (setCurrentPoseIndex 0
                    (setCurrentOutfitIndex (currentOutfitIndex s1 + 1) s1))
        else
          Await
            (setLoading true ("Đang thêm " ++ name garmentInfo ++ "...")%string
               (setError None s1))
            (generateVirtualTryOnImage displayImage garmentFile)
            (GarmentSelectAwait (currentOutfitIndex rendered) garmentInfo)
    end.

(** The [catch] and [finally] of [handleRegenerateLayer]. *)
Definition regenerateCaught (err : string) (s : AppState) : Outcome :=
  Return
    (finallyIdle
       (setError
          (Some (getFriendlyErrorMessage err "Không thể tạo lại trang phục"))
          s)).

Definition handleRegenerateLayer (layerIndex : nat) (s : AppState) : Outcome :=
  if isLoading s || (layerIndex <? 1)
     || (List.length (outfitHistory s) <=? layerIndex)
  then Return s
  else
    let s1 := setLoading true "Đang tạo lại thử đồ..." (setError None s) in
    match layerAt (outfitHistory s) layerIndex with
    | None =>
        (* reading [.garment] of undefined throws inside the try *)
        regenerateCaught
          "TypeError: Cannot read properties of undefined (reading 'garment')"
          s1
    | Some layerToRegenerate =>
        match garment layerToRegenerate,
              layerAt (outfitHistory s) (layerIndex - 1) with
        | Some garmentInfo, Some previousLayer =>
            match firstPoseImage previousLayer with
            | Some baseImageUrl =>
                if truthy (Some baseImageUrl) then
                  Await s1 (urlToFile (url garmentInfo) (name garmentInfo))
                    (RegenerateAwaitFile layerIndex garmentInfo baseImageUrl)
                else
                  regenerateCaught "Không tìm thấy hình ảnh cơ sở để tạo lại." s1
            | None =>
                regenerateCaught "Không tìm thấy hình ảnh cơ sở để tạo lại." s1
            end
        | _, _ =>
            regenerateCaught
              "Thông tin trang phục hoặc lớp trước đó không hợp lệ." s1
        end
    end.

Definition handleRemoveLayer (layerIndex : nat) (s : AppState) : AppState :=
  if isLoading s then s
  else if layerIndex =? 0 then handleStartOver s
  else if (0 <? layerIndex) && (layerIndex <? List.length (outfitHistory s)) then
    setCurrentPoseIndex 0
      (setCurrentOutfitIndex (layerIndex - 1)
         (setOutfitHistory (slice0 (outfitHistory s) layerIndex) s))
  else s.

Definition handlePoseSelect (newIndex : nat) (s : AppState) : Outcome :=
  if isLoading s || (List.length (outfitHistory s) =? 0)
     || (newIndex =? currentPoseIndex s)
  then Return s
  else
    let poseInstruction := poseInstructionAt newIndex in
    match layerAt (outfitHistory s) (currentOutfitIndex s) with
    | None =>
        (* [currentLayer.poseImages] of undefined: the async function
           rejects before any setter ran *)
        Throw s
    | Some currentLayer =>
        if truthy (getProp (poseImages currentLayer) poseInstruction) then
          Return (setCurrentPoseIndex newIndex s)
        else
          match firstPoseImage currentLayer with
          | Some baseImageForPoseChange =>
              if truthy (Some baseImageForPoseChange) then
                Await
                  (setCurrentPoseIndex newIndex
                     (setLoading true "Đang đổi dáng..." (setError None s)))
                  (generatePoseVariation baseImageForPoseChange poseInstruction)
                  (PoseSelectAwait (currentOutfitIndex s) poseInstruction
                     (currentPoseIndex s))
              else Return s
          | None => Return s
          end
    end.

(** [prev.find(item => item.id === garmentInfo.id)] is truthy *)
Definition inWardrobe (w : list WardrobeItem) (garmentInfo : WardrobeItem)
    : bool :=
  existsb (fun item => String.eqb (id item) (id garmentInfo)) w.

(** What runs when the awaited promise settles: the rest of the [try], or
    the [catch], then the [finally].  One run is one batch of updates. *)
Definition resume (k : Pending) (r : Settled) (s : AppState) : Outcome :=
  match k, r with
  | GarmentSelectAwait capturedOutfitIndex garmentInfo, Fulfilled newImageUrl =>
      let newLayer :=
        mkOutfitLayer (Some garmentInfo)
          [(poseInstructionAt 0, newImageUrl)] in
      let newHistory := slice0 (outfitHistory s) (capturedOutfitIndex + 1) in
      Return
        (finallyIdle
           (setWardrobe
              (if inWardrobe (wardrobe s) garmentInfo then wardrobe s
               else wardrobe s ++ [garmentInfo])
              (setCurrentPoseIndex 0
                 (setCurrentOutfitIndex (currentOutfitIndex s + 1)
                    (setOutfitHistory (spread newHistory ++ [Layer newLayer])
                       s)))))
  | GarmentSelectAwait _ _, Rejected err =>
      Return
        (finallyIdle
           (setError
              (Some (getFriendlyErrorMessage err "Không thể mặc trang phục"))
              s))
  | RegenerateAwaitFile layerIndex garmentInfo baseImageUrl,
    Fulfilled garmentFile =>
      Await s (generateVirtualTryOnImage baseImageUrl garmentFile)
        (RegenerateAwaitTryOn layerIndex garmentInfo)
  | RegenerateAwaitFile _ _ _, Rejected err => regenerateCaught err s
  | RegenerateAwaitTryOn layerIndex garmentInfo, Fulfilled newImageUrl =>
      let newHistory := slice0 (outfitHistory s) (layerIndex + 1) in
      let newLayer :=
        mkOutfitLayer (Some garmentInfo)
          [(poseInstructionAt 0, newImageUrl)] in
      Return
        (finallyIdle
           (setCurrentPoseIndex 0
              (setCurrentOutfitIndex layerIndex
                 (setOutfitHistory (arraySet newHistory layerIndex newLayer)
                    s))))
  | RegenerateAwaitTryOn _ _, Rejected err => regenerateCaught err s
  | PoseSelectAwait capturedOutfitIndex poseInstruction _,
    Fulfilled newImageUrl =>
      match layerAt (outfitHistory s) capturedOutfitIndex with
      | Some updatedLayer =>
          Return
            (finallyIdle
               (setOutfitHistory
                  (arraySet (spread (outfitHistory s)) capturedOutfitIndex
                     (mkOutfitLayer (garment updatedLayer)
                        (setProp (poseImages updatedLayer) poseInstruction
                           newImageUrl)))
                  s))
      | None =>
          (* the updater dereferences undefined: nothing is thrown into
             the handler, whose [finally] runs, and the render fails *)
          UpdaterThrows (finallyIdle s)
      end
  | PoseSelectAwait _ _ prevPoseIndex, Rejected err =>
      Return
        (finallyIdle
           (setCurrentPoseIndex prevPoseIndex
              (setError
                 (Some (getFriendlyErrorMessage err "Không thể đổi dáng"))
                 s)))
  end.

End Controller.

(** ** The wardrobe panel ([WardrobeModal.tsx]) *)

(** A browser [File] as the panel reads it: the object handed on to the
    controller, its MIME type and its name. *)
Record BrowserFile := mkBrowserFile {
  fileHandle : File;
  fileType : string;
  fileName : string
}.

(** What a panel handler does after its guards. *)
Inductive PanelStep :=
| PanelIgnored
| PanelFetching (call : ExternalCall)
| PanelRejecting (message : string)
| PanelSelecting (garmentFile : File) (garmentInfo : WardrobeItem).

(** The panel's own error slot after a step: [setError(null)] before the
    fetch, [setError(message)] on rejection, untouched otherwise. *)
Definition panelErrorAfter (step : PanelStep) (panelError : option string)
    : option string :=
  match step with
  | PanelFetching _ => None
  | PanelRejecting message => Some message
  | PanelIgnored | PanelSelecting _ _ => panelError
  end.

(** [activeGarmentIds.includes(item.id)] *)
Definition includes (l : list string) (x : string) : bool :=
  existsb (String.eqb x) l.

Definition handleGarmentClick (isLoading : bool)
    (activeGarmentIds : list string) (item : WardrobeItem) : PanelStep :=
  if isLoading || includes activeGarmentIds (id item) then PanelIgnored
  else PanelFetching (urlToFile (url item) (name item)).

(** The rest of [handleGarmentClick] once [urlToFile] settles. *)
Definition garmentClickSettled (item : WardrobeItem) (r : Settled) : PanelStep :=
  match r with
  | Fulfilled garmentFile => PanelSelecting garmentFile item
  | Rejected _ =>
      PanelRejecting
        "Không thể tải món đồ từ tủ. Đây thường là sự cố CORS. Kiểm tra bảng điều khiển của nhà phát triển để biết chi tiết."
  end.

(** [`custom-${Date.now()}`] *)
Definition customId (now : N) : string :=
  ("custom-" ++ NilEmpty.string_of_uint (N.to_uint now))%string.

(** [handleFileChange]: [files] is [e.target.files[0]] when there is one,
    [now] is [Date.now()] and [objectUrl] is [URL.createObjectURL(file)]. *)
Definition handleFileChange (files : option BrowserFile) (now : N)
    (objectUrl : string) : PanelStep :=
  match files with
  | None => PanelIgnored
  | Some file =>
      if negb (String.prefix "image/" (fileType file)) then
        PanelRejecting "Vui lòng chọn một tệp hình ảnh."
      else
        PanelSelecting (fileHandle file)
          (mkWardrobeItem (customId now) (fileName file) objectUrl)
  end.

(** The panel as [App] renders it: [onGarmentSelect = handleGarmentSelect]. *)
Definition onGarmentSelect (isMobile : bool) (step : PanelStep) (s : AppState)
    : Outcome :=
  match step with
  | PanelSelecting garmentFile garmentInfo =>
      handleGarmentSelect isMobile garmentFile garmentInfo s
  | _ => Return s
  end.

(** [onGarmentSelect] of an earlier render, called with what a wardrobe
    click's fetch delivered. *)
Definition onGarmentSelectOf (rendered : AppState) (isMobile : bool)
    (step : PanelStep) (s : AppState) : Outcome :=
  match step with
  | PanelSelecting garmentFile garmentInfo =>
      handleGarmentSelectOf rendered isMobile garmentFile garmentInfo s
  | _ => Return s
  end.

(** ** The running application

    The mounted component, the promises of the controller still in flight
    and the file fetches of the wardrobe panel still in flight, each with
    the closure that waits for it.  User events call a handler of the
    current render; [Settle n r] lets the [n]-th promise settle with [r],
    [FetchSettle n r] the [n]-th fetch.  After every batch of updates the
    application renders again; if that throws it is unmounted: no handler
    is on screen any more, while the promises in flight still settle. *)

Section Running.

Variable getFriendlyErrorMessage : string -> string -> string.

(** What [handleGarmentClick] holds while it awaits [urlToFile]: the item,
    and [onGarmentSelect] as passed by the render the click happened in. *)
Record GarmentFetch := mkGarmentFetch {
  rendered : AppState;
  renderedMobile : bool;
  clicked : WardrobeItem
}.

Record Sys := mkSys {
  app : AppState;
  inflight : list Pending;
  fetching : list GarmentFetch;
  unmounted : bool
}.

Inductive Event :=
| ModelFinalized (modelUrl : string)
| StartOver
| GarmentSelect (isMobile : bool) (garmentFile : File)
    (garmentInfo : WardrobeItem)
| RegenerateLayer (layerIndex : nat)
| RemoveLayer (layerIndex : nat)
| PoseSelect (newIndex : nat)
| Settle (n : nat) (r : Settled)
| GarmentClick (isMobile : bool) (item : WardrobeItem)
| FetchSettle (n : nat) (r : Settled).

Fixpoint removeNth {A : Type} (n : nat) (l : list A) : list A :=
  match l, n with
  | [], _ => []
  | _ :: l', 0 => l'
  | x :: l', S n' => x :: removeNth n' l'
  end.

(** The application after a batch of updates that leaves state [s]. *)
Definition mount (s : AppState) (promises : list Pending)
    (fetches : list GarmentFetch) : Sys :=
  mkSys s promises fetches (negb (renders s)).

(** The promises pending once a handler or continuation ended with [o]. *)
Definition pendingAfter (o : Outcome) (others : list Pending) : list Pending :=
  match o with
  | Await _ _ k => others ++ [k]
  | _ => others
  end.

Definition commit (o : Outcome) (others : list Pending)
    (fetches : list GarmentFetch) : Sys :=
  match o with
  | UpdaterThrows s => mkSys s others fetches true
  | _ => mount (stateOf o) (pendingAfter o others) fetches
  end.

(** A continuation that ran with outcome [o].  On an unmounted application
    it runs all the same, and what it awaits next is pending, but React
    drops the state updates it makes. *)
Definition settle (y : Sys) (o : Outcome) (others : list Pending)
    (fetches : list GarmentFetch) : Sys :=
  if unmounted y then mkSys (app y) (pendingAfter o others) fetches true
  else commit o others fetches.

(** A user event needs the application on screen. *)
Definition onScreen (y next : Sys) : Sys := if unmounted y then y else next.

(** What a handler or continuation called by event [e] does, if [e] calls
    one.  [GarmentSelect] is the synchronous call made by the upload
    input; a wardrobe click is [GarmentClick] followed, when its fetch
    settles, by [FetchSettle]. *)
Definition outcomeOf (y : Sys) (e : Event) : option Outcome :=
  match e with
  | GarmentSelect isMobile garmentFile garmentInfo =>
      Some (handleGarmentSelect isMobile garmentFile garmentInfo (app y))
  | RegenerateLayer layerIndex =>
      Some (handleRegenerateLayer getFriendlyErrorMessage layerIndex (app y))
  | PoseSelect newIndex => Some (handlePoseSelect newIndex (app y))
  | Settle n r =>
      match nth_error (inflight y) n with
      | Some k => Some (resume getFriendlyErrorMessage k r (app y))
      | None => None
      end
  | FetchSettle n r =>
      match nth_error (fetching y) n with
      | Some f =>
          Some (onGarmentSelectOf (rendered f) (renderedMobile f)
                  (garmentClickSettled (clicked f) r) (app y))
      | None => None
      end
  | _ => None
  end.

Definition step (y : Sys) (e : Event) : Sys :=
  match e with
  | ModelFinalized modelUrl =>
      onScreen y
        (mount (handleModelFinalized modelUrl (app y)) (inflight y)
           (fetching y))
  | StartOver =>
      onScreen y (mount (handleStartOver (app y)) (inflight y) (fetching y))
  | RemoveLayer layerIndex =>
      onScreen y
        (mount (handleRemoveLayer layerIndex (app y)) (inflight y)
           (fetching y))
  | GarmentClick isMobile item =>
      onScreen y
        match activeGarmentIds (app y) with
        | Some ids =>
            match handleGarmentClick (isLoading (app y)) ids item with
            | PanelFetching _ =>
                mkSys (app y) (inflight y)
                  (fetching y ++ [mkGarmentFetch (app y) isMobile item]) false
            | _ => y
            end
        | None => y
        end
  | GarmentSelect _ _ _ | RegenerateLayer _ | PoseSelect _ =>
      onScreen y
        match outcomeOf y e with
        | Some o => commit o (inflight y) (fetching y)
        | None => y
        end
  | Settle n r =>
      match outcomeOf y e with
      | Some o => settle y o (removeNth n (inflight y)) (fetching y)
      | None => y
      end
  | FetchSettle n r =>
      match outcomeOf y e with
      | Some o => settle y o (inflight y) (removeNth n (fetching y))
      | None => y
      end
  end.

Definition run (y : Sys) (es : list Event) : Sys := fold_left step es y.

Definition initialSys : Sys := mkSys initialState [] [] false.

(** The external calls issued along a run, oldest first. *)
Definition callsOfStep (y : Sys) (e : Event) : list ExternalCall :=
  match e with
  | GarmentClick isMobile item =>
      if unmounted y then []
      else
        match activeGarmentIds (app y) with
        | Some ids =>
            match handleGarmentClick (isLoading (app y)) ids item with
            | PanelFetching call => [call]
            | _ => []
            end
        | None => []
        end
  | Settle _ _ | FetchSettle _ _ =>
      match outcomeOf y e with
      | Some (Await _ c _) => [c]
      | _ => []
      end
  | _ =>
      if unmounted y then []
      else
        match outcomeOf y e with
        | Some (Await _ c _) => [c]
        | _ => []
        end
  end.

Fixpoint callsOfRun (y : Sys) (es : list Event) : list ExternalCall :=
  match es with
  | [] => []
  | e :: es' => callsOfStep y e ++ callsOfRun (step y e) es'
  end.

End Running.


(** ** Invariants and concrete runs used below *)

(** The root of a non-empty history is the bare model. *)
Definition rootIsBare (h : History) : Prop :=
  match h with
  | [] => True
  | x :: _ => exists l, x = Layer l /\ garment l = None
  end.

Definition rootIsBareb (h : History) : bool :=
  match h with
  | [] => true
  | Layer l :: _ => match garment l with None => true | Some _ => false end
  | _ :: _ => false
  end.

(** Every layer of the history lists the default pose first. *)
Definition defaultPoseFirst (l : OutfitLayer) : Prop :=
  exists v rest, poseImages l = (poseInstructionAt 0, v) :: rest.

Definition layersDefaultFirst (h : History) : Prop :=
  forall l, In (Layer l) h -> defaultPoseFirst l.



(** A regenerate continuation was started on a layer index of at least 1. *)
Definition pendingIndexOk (k : Pending) : Prop :=
  match k with
  | RegenerateAwaitFile layerIndex _ _ => 1 <= layerIndex
  | RegenerateAwaitTryOn layerIndex _ => 1 <= layerIndex
  | _ => True
  end.

(** What holds of the running application as long as no reset overtakes a
    promise or a fetch: the root is bare; while the history is empty there
    is no model URL, no promise in flight and no fetch whose closure saw an
    image; regenerate continuations hold an index of at least 1. *)
Definition orderly (y : Sys) : Prop :=
  rootIsBare (outfitHistory (app y))
  /\ (outfitHistory (app y) = [] ->
        modelImageUrl (app y) = None
        /\ inflight y = []
        /\ Forall (fun f => truthy (displayImageUrl (rendered f)) = false)
             (fetching y))
  /\ (forall k, In k (inflight y) -> pendingIndexOk k).

(** An instance of [getFriendlyErrorMessage] for the concrete runs: the
    fallback text followed by the cause. *)
Definition sampleFriendlyMessage (err fallback : string) : string :=
  (fallback ++ ". " ++ err)%string.

Definition shirt : WardrobeItem := mkWardrobeItem "shirt-1" "Shirt" "blob:shirt".
Definition hat : WardrobeItem := mkWardrobeItem "hat-1" "Hat" "blob:hat".
Definition coat : WardrobeItem := mkWardrobeItem "custom-7" "Coat" "blob:coat".

Definition layerA : OutfitLayer :=
  mkOutfitLayer None [(poseInstructionAt 0, "img-model")].
Definition layerB : OutfitLayer :=
  mkOutfitLayer (Some shirt) [(poseInstructionAt 0, "img-shirt")].
Definition layerC : OutfitLayer :=
  mkOutfitLayer (Some hat) [(poseInstructionAt 0, "img-hat")].
Definition layerD (img : string) : OutfitLayer :=
  mkOutfitLayer (Some coat) [(poseInstructionAt 0, img)].

(** History [A,B] at position 1, idle, with a stale error on screen. *)
Definition stateAB : AppState :=
  mkAppState (Some "img-model") [Layer layerA; Layer layerB] 1 false ""
    (Some "old error") 0 true [shirt].

(** History [A,B] at position 0: B lies after the current position. *)
Definition stateAB0 : AppState := setCurrentOutfitIndex 0 stateAB.

(** History [A,B,C] at position 0. *)
Definition stateABC0 : AppState :=
  mkAppState (Some "img-model") [Layer layerA; Layer layerB; Layer layerC] 0
    false "" None 0 true [shirt; hat].

(** The model alone, with two poses cached, showing pose [p]. *)
Definition layerTwoPoses : OutfitLayer :=
  mkOutfitLayer None
    [(poseInstructionAt 0, "img-front"); (poseInstructionAt 1, "img-turned")].

Definition stateTwoPoses (p : nat) : AppState :=
  mkAppState (Some "img-front") [Layer layerTwoPoses] 0 false "" None p true [].

(** A user finalizes the model, asks for pose 1 and gets it. *)
Definition traceTwoPoses : list Event :=
  [ModelFinalized "img-front"; PoseSelect 1; Settle 0 (Fulfilled "img-turned")].

(** ... and then selects a garment: the try-on is in flight. *)
Definition traceBusy : list Event :=
  traceTwoPoses ++ [GarmentSelect false "file" shirt].

(** A user finalizes the model, generates pose 1 and puts on the shirt. *)
Definition traceDressed : list Event :=
  traceBusy ++ [Settle 0 (Fulfilled "img-worn")].

Definition stateDressed : AppState :=
  mkAppState (Some "img-front")
    [Layer layerTwoPoses;
     Layer (mkOutfitLayer (Some shirt) [(poseInstructionAt 0, "img-worn")])]
    1 false "" None 0 true [shirt].

(** ... then asks for pose 2 on the shirt layer, gets it, and regenerates
    the shirt layer: the blob is fetched, then the try-on succeeds. *)
Definition traceRegenerated : list Event :=
  traceDressed
  ++ [PoseSelect 2; Settle 0 (Fulfilled "img-side");
      RegenerateLayer 1; Settle 0 (Fulfilled "file-shirt");
      Settle 0 (Fulfilled "img-worn-again")].

(** A reset while a try-on is in flight, then the try-on succeeds. *)
Definition traceResetInFlight : list Event :=
  [ModelFinalized "img-front"; GarmentSelect false "file" shirt; StartOver;
   Settle 0 (Fulfilled "img-worn")].

(** A user uploads a coat, gets it, takes it off again, clicks the coat in
    the wardrobe and, while its file is being fetched, asks for pose 1; the
    file then arrives. *)
Definition traceCoatOff : list Event :=
  [ModelFinalized "img-front"; GarmentSelect false "file-coat" coat;
   Settle 0 (Fulfilled "img-coat"); RemoveLayer 1].


(** The coat is picked from the wardrobe again and its file arrives at
    once; the try-on then succeeds. *)
Definition traceCoatAgain : list Event :=
  traceCoatOff
  ++ [GarmentClick false coat; FetchSettle 0 (Fulfilled "file-coat");
      Settle 0 (Fulfilled "img-coat-again")].

(** ** Runs in which the session only changes between calls *)




Definition isLayer (x : Slot) : bool :=
  match x with
  | Layer _ => true
  | _ => false
  end.

(** Every slot holds a layer: no hole and no [undefined]. *)
Definition noHoles (h : History) : Prop := Forall (fun x => isLayer x = true) h.

(** What a continuation captured still fits the state it will land on. *)
Definition capturedFits (k : Pending) (s : AppState) : Prop :=
  match k with
  | GarmentSelectAwait c _ => c = currentOutfitIndex s
  | RegenerateAwaitFile i _ _ => i < List.length (outfitHistory s)
  | RegenerateAwaitTryOn i _ => i < List.length (outfitHistory s)
  | PoseSelectAwait c _ _ => c = currentOutfitIndex s
  end.


(** No layer lies after the current position. *)
Definition noRedo (s : AppState) : Prop :=
  List.length (outfitHistory s) <= currentOutfitIndex s + 1.

(** ... in the state and in every closure a fetch holds. *)
Definition noRedoRun (y : Sys) : Prop :=
  noRedo (app y) /\ forall f, In f (fetching y) -> noRedo (rendered f).

(** The busy flag is accounted for: busy has a promise in flight, a
    mounted application renders, and an application that was unmounted was
    not busy when its render failed. *)
Definition accounted (y : Sys) : Prop :=
  (isLoading (app y) = true -> inflight y <> [])
  /\ (unmounted y = true -> isLoading (app y) = false)
  /\ (unmounted y = false -> renders (app y) = true).

(** The wardrobe lists no id twice. *)
Definition wardrobeUnique (s : AppState) : Prop := NoDup (map id (wardrobe s)).


(** ** Pose navigation of the canvas ([Canvas.tsx]) *)

(** [l.indexOf(x)]; [None] stands for -1. *)
Fixpoint indexOf (l : list string) (x : string) : option nat :=
  match l with
  | [] => None
  | y :: l' => if String.eqb y x then Some 0 else option_map S (indexOf l' x)
  end.

(** [l.indexOf(x)] when [x] may be [undefined], which no key equals. *)
Definition indexOfMaybe (l : list string) (x : option string) : option nat :=
  match x with
  | Some v => indexOf l v
  | None => None
  end.

(** What a navigation button passes to [onSelectPose], if it calls it.
    [a % 0] is NaN. *)
Inductive PoseRequest :=
| NoRequest
| SelectPose (index : nat)
| SelectNaN.

Definition selectModulo (a n : nat) : PoseRequest :=
  if n =? 0 then SelectNaN else SelectPose (a mod n).

(** [onSelectPose(poseInstructions.indexOf(key))] guarded by [!== -1], for
    the key at [availablePoseKeys[i]]. *)
Definition selectKeyAt (availablePoseKeys poseInstructions : list string)
    (i : nat) : PoseRequest :=
  match indexOfMaybe poseInstructions (nth_error availablePoseKeys i) with
  | Some newGlobalPoseIndex => SelectPose newGlobalPoseIndex
  | None => NoRequest
  end.

Definition handlePreviousPose (isLoading : bool)
    (availablePoseKeys poseInstructions : list string)
    (currentPoseIndex : nat) : PoseRequest :=
  if isLoading || (List.length availablePoseKeys <=? 1) then NoRequest
  else
    match indexOfMaybe availablePoseKeys
            (nth_error poseInstructions currentPoseIndex) with
    | None =>
        (* (currentPoseIndex - 1 + length) % length *)
        selectModulo (currentPoseIndex + List.length poseInstructions - 1)
          (List.length poseInstructions)
    | Some currentIndexInAvailable =>
        (* (currentIndexInAvailable - 1 + length) % length *)
        selectKeyAt availablePoseKeys poseInstructions
          ((currentIndexInAvailable + List.length availablePoseKeys - 1)
           mod List.length availablePoseKeys)
    end.

Definition handleNextPose (isLoading : bool)
    (availablePoseKeys poseInstructions : list string)
    (currentPoseIndex : nat) : PoseRequest :=
  if isLoading then NoRequest
  else
    match indexOfMaybe availablePoseKeys
            (nth_error poseInstructions currentPoseIndex) with
    | None =>
        selectModulo (currentPoseIndex + 1) (List.length poseInstructions)
    | Some currentIndexInAvailable =>
        if List.length availablePoseKeys =? 0 then
          selectModulo (currentPoseIndex + 1) (List.length poseInstructions)
        else if currentIndexInAvailable + 1 <? List.length availablePoseKeys
        then
          selectKeyAt availablePoseKeys poseInstructions
            (currentIndexInAvailable + 1)
        else
          selectModulo (currentPoseIndex + 1) (List.length poseInstructions)
    end.

(** The canvas as [App] renders it, with [onSelectPose = handlePoseSelect].
    [handlePoseSelect(NaN)] is outside the model ([None]); with the six
    pose instructions of [App] it does not arise. *)
Definition onSelectPose (r : PoseRequest) (s : AppState) : option Outcome :=
  match r with
  | SelectPose newIndex => Some (handlePoseSelect newIndex s)
  | NoRequest => Some (Return s)
  | SelectNaN => None
  end.

Definition previousPoseClick (s : AppState) : option Outcome :=
  onSelectPose
    (handlePreviousPose (isLoading s) (availablePoseKeys s) POSE_INSTRUCTIONS
       (currentPoseIndex s))
    s.

Definition nextPoseClick (s : AppState) : option Outcome :=
  onSelectPose
    (handleNextPose (isLoading s) (availablePoseKeys s) POSE_INSTRUCTIONS
       (currentPoseIndex s))
    s.


(** ** The gateway's data URLs ([geminiService.ts]) *)

(** [s.split(sep)] for a separator of one character. *)
Fixpoint splitOn (sep : ascii) (s : string) : list string :=
  match s with
  | EmptyString => [EmptyString]
  | String c s' =>
      if Ascii.eqb c sep then EmptyString :: splitOn sep s'
      else
        match splitOn sep s' with
        | piece :: rest => String c piece :: rest
        | [] => [String c EmptyString]
        end
  end.

Fixpoint hasChar (c : ascii) (s : string) : bool :=
  match s with
  | EmptyString => false
  | String c' s' => Ascii.eqb c' c || hasChar c s'
  end.

(** What a function throws: a [TypeError] of the runtime, or an [Error]
    with its message. *)
Inductive Thrown :=
| TypeError
| ErrorMessage (message : string).

(** [{ inlineData: { data, mimeType } }] as built for a request. *)
Record GenerativePart := mkGenerativePart {
  partData : string;
  partMimeType : string
}.

Definition dataUrlToGenerativePart (dataUrl : string)
    : GenerativePart + Thrown :=
  let parts := splitOn "," dataUrl in
  match nth_error parts 0 with
  | None => inr TypeError
  | Some head =>
      match nth_error (splitOn ":" head) 1 with
      | None =>
          (* [.split] of undefined *)
          inr TypeError
      | Some afterColon =>
          let mimeType := nth_error (splitOn ";" afterColon) 0 in
          let base64Data := nth_error parts 1 in
          match mimeType, base64Data with
          | Some m, Some d =>
              if negb (truthy mimeType) || negb (truthy base64Data) then
                inr (ErrorMessage "Invalid data URL format.")
              else inl (mkGenerativePart d m)
          | _, _ => inr (ErrorMessage "Invalid data URL format.")
          end
      end
  end.

(** A part of a response: [inlineData], when present, with its optional
    [data] and [mimeType]. *)
Record InlineData := mkInlineData {
  inlineBytes : option string;
  inlineMimeType : option string
}.

Record ResponsePart := mkResponsePart {
  inlineData : option InlineData
}.

(** [response.candidates[0].content.parts]; [None] when a link of that
    chain is missing, which throws a [TypeError]. *)
Definition ResponseParts := option (list ResponsePart).

(** [parts.find(p => p.inlineData)] *)
Fixpoint findInline (parts : list ResponsePart) : option InlineData :=
  match parts with
  | [] => None
  | p :: parts' =>
      match inlineData p with
      | Some d => Some d
      | None => findInline parts'
      end
  end.

(** The result is typed [string] but is [undefined] when the part has no
    [data]. *)
Definition extractBase64Image (response : ResponseParts)
    : option string + Thrown :=
  match response with
  | None => inr TypeError
  | Some parts =>
      match findInline parts with
      | Some d => inl (inlineBytes d)
      | None =>
          inr (ErrorMessage "Không tìm thấy hình ảnh nào trong phản hồi của API.")
      end
  end.

(** A template string prints [undefined] as "undefined". *)
Definition templateText (v : option string) : string :=
  match v with
  | Some text => text
  | None => "undefined"
  end.

(** The common tail of [generateModelImage], [generateVirtualTryOnImage] and
    [generatePoseVariation]: from the response to the data URL returned. *)
Definition responseToDataUrl (response : ResponseParts) : string + Thrown :=
  match extractBase64Image response with
  | inr thrown => inr thrown
  | inl base64Image =>
      let found :=
        match response with
        | Some parts => findInline parts
        | None => None
        end in
      let mimeType :=
        match found with
        | Some d =>
            if truthy (inlineMimeType d) then templateText (inlineMimeType d)
            else "image/png"
        | None => "image/png"
        end in
      inl ("data:" ++ mimeType ++ ";base64," ++ templateText base64Image)%string
  end.

(** ** The outfit stack ([OutfitStack.tsx]) *)

(** The indices of the rows that [layers.map((layer, index) => ...)]
    renders: [map] skips holes, and the callback reads [layer.garment], so
    on an explicit [undefined] it throws ([None]). *)
Fixpoint renderedRows (from : nat) (layers : History) : option (list nat) :=
  match layers with
  | [] => Some []
  | Layer _ :: layers' => option_map (cons from) (renderedRows (S from) layers')
  | Hole :: layers' => renderedRows (S from) layers'
  | Undefined :: _ => None
  end.

(** The rows on screen: none when the render throws. *)
Definition stackRows (s : AppState) : list nat :=
  match renderedRows 0 (activeOutfitLayers s) with
  | Some rows => rows
  | None => []
  end.

(** The indices passed to [onRegenerateLayer]: rows with [index > 0]. *)
Definition regenerateButtons (s : AppState) : list nat :=
  filter (fun index => 0 <? index) (stackRows s).

(** The indices passed to [onRemoveLayer]: every row has the button. *)
Definition removeButtons (s : AppState) : list nat := stackRows s.

(** Every layer above the root carries a garment. *)
Definition upperLayersDressed (h : History) : Prop :=
  forall i l, 1 <= i -> layerAt h i = Some l -> garment l <> None.

(** ... and every continuation in flight was started on a valid index. *)
Definition dressedRun (y : Sys) : Prop :=
  upperLayersDressed (outfitHistory (app y))
  /\ forall k, In k (inflight y) -> pendingIndexOk k.


(** ** The start screen and the footer ([Footer.tsx]) *)

Record StartState := mkStartState {
  userImageFile : option BrowserFile;
  userImageUrl : option string;
  generatedModelUrl : option string;
  isGenerating : bool;
  startLoadingMessage : string;
  startError : option string
}.

Definition initialStart : StartState :=
  mkStartState None None None false "" None.

Inductive StartCall :=
| readAsDataURL (file : BrowserFile)
| generateModelImage (userImageFile : BrowserFile).

(** The rest of a start-screen handler: [reader.onload] waiting for the
    file, and the two [await generateModelImage(...)]. *)
Inductive StartPending :=
| FileLoadAwait (file : BrowserFile)
| FirstModelAwait
| RegenerateModelAwait.

Inductive StartOutcome :=
| StartReturn (st : StartState)
| StartAwait (st : StartState) (call : StartCall) (k : StartPending).

Definition startStateOf (o : StartOutcome) : StartState :=
  match o with
  | StartReturn st | StartAwait st _ _ => st
  end.

Definition setStartGenerating (b : bool) (m : string) (st : StartState)
    : StartState :=
  mkStartState (userImageFile st) (userImageUrl st) (generatedModelUrl st) b m
    (startError st).

Definition setStartError (e : option string) (st : StartState) : StartState :=
  mkStartState (userImageFile st) (userImageUrl st) (generatedModelUrl st)
    (isGenerating st) (startLoadingMessage st) e.

Definition setGeneratedModelUrl (u : option string) (st : StartState)
    : StartState :=
  mkStartState (userImageFile st) (userImageUrl st) u (isGenerating st)
    (startLoadingMessage st) (startError st).

Definition setUserImage (f : option BrowserFile) (u : option string)
    (st : StartState) : StartState :=
  mkStartState f u (generatedModelUrl st) (isGenerating st)
    (startLoadingMessage st) (startError st).

Definition handleFileSelect (file : BrowserFile) (st : StartState)
    : StartOutcome :=
  if negb (String.prefix "image/" (fileType file)) then
    StartReturn (setStartError (Some "Vui lòng chọn một tệp hình ảnh.") st)
  else
    StartAwait (setUserImage (Some file) (userImageUrl st) st)
      (readAsDataURL file) (FileLoadAwait file).

Definition handleRegenerate (st : StartState) : StartOutcome :=
  match userImageFile st with
  | None => StartReturn st
  | Some file =>
      if isGenerating st then StartReturn st
      else
        StartAwait
          (setStartError None
             (setStartGenerating true "Đang tạo lại diện mạo..." st))
          (generateModelImage file) RegenerateModelAwait
  end.

(** [reset] leaves the loading message alone. *)
Definition resetStart (st : StartState) : StartState :=
  mkStartState None None None false (startLoadingMessage st) None.

Section StartScreen.

Variable getFriendlyErrorMessage : string -> string -> string.

(** What runs when the file is read or a generation settles.  The reader
    has no [onerror]: a failed read changes nothing. *)
Definition resumeStart (k : StartPending) (r : Settled) (st : StartState)
    : StartOutcome :=
  match k, r with
  | FileLoadAwait file, Fulfilled dataUrl =>
      StartAwait
        (setStartError None
           (setGeneratedModelUrl None
              (setStartGenerating true "Đang tạo người mẫu của bạn..."
                 (setUserImage (userImageFile st) (Some dataUrl) st))))
        (generateModelImage file) FirstModelAwait
  | FileLoadAwait _, Rejected _ => StartReturn st
  | FirstModelAwait, Fulfilled result =>
      StartReturn
        (setStartGenerating false "" (setGeneratedModelUrl (Some result) st))
  | FirstModelAwait, Rejected err =>
      StartReturn
        (setStartGenerating false ""
           (setUserImage None None
              (setStartError
                 (Some (getFriendlyErrorMessage err "Không thể tạo người mẫu"))
                 st)))
  | RegenerateModelAwait, Fulfilled result =>
      StartReturn
        (setStartGenerating false "" (setGeneratedModelUrl (Some result) st))
  | RegenerateModelAwait, Rejected err =>
      StartReturn
        (setStartGenerating false ""
           (setStartError
              (Some (getFriendlyErrorMessage err "Không thể tạo lại người mẫu"))
              st))
  end.

End StartScreen.

(** The row of buttons with "continue" is rendered on the compare screen
    ([userImageUrl] truthy) when
    [generatedModelUrl && !isGenerating && !error]. *)
Definition finalizeOffered (st : StartState) : bool :=
  truthy (userImageUrl st) && truthy (generatedModelUrl st)
  && negb (isGenerating st) && negb (truthy (startError st)).

(** [onClick={() => onModelFinalized(generatedModelUrl)}] with
    [onModelFinalized = handleModelFinalized]. *)
Definition finalizeClick (st : StartState) (s : AppState) : AppState :=
  if finalizeOffered st then
    match generatedModelUrl st with
    | Some modelUrl => handleModelFinalized modelUrl s
    | None => s
    end
  else s.

Definition REMIX_SUGGESTIONS : list string := [
  "Gợi ý phối đồ: Tạo một lookbook có thể chia sẻ.";
  "Gợi ý phối đồ: Tích hợp API e-commerce để tìm các món đồ tương tự.";
  "Gợi ý phối đồ: Thêm phụ kiện như mũ, kính râm, hoặc túi xách.";
  "Gợi ý phối đồ: Tạo 'điểm phong cách' cho các bộ trang phục.";
  "Gợi ý phối đồ: Cho phép người dùng lưu lại trang phục yêu thích.";
  "Gợi ý phối đồ: Tạo các phiên bản màu sắc khác nhau cho trang phục."
].

(** The updater of the interval: [(prevIndex + 1) % REMIX_SUGGESTIONS.length] *)
Definition nextSuggestionIndex (prevIndex : nat) : nat :=
  (prevIndex + 1) mod List.length REMIX_SUGGESTIONS.

(** The index shown after a number of ticks of the interval. *)
Fixpoint suggestionIndexAfter (ticks : nat) : nat :=
  match ticks with
  | 0 => 0
  | S n => nextSuggestionIndex (suggestionIndexAfter n)
  end.

(** ** Basic facts *)

(** Unfolds the state updates under the projections, nothing else. *)
Ltac state_simpl :=
  cbn [modelImageUrl outfitHistory currentOutfitIndex isLoading
       loadingMessage error currentPoseIndex isSheetCollapsed wardrobe
       setOutfitHistory setCurrentOutfitIndex setCurrentPoseIndex setError
       setIsSheetCollapsed setWardrobe setLoading finallyIdle
       handleModelFinalized handleStartOver] in *.

Lemma truthy_Some (v : option string) :
  truthy v = true -> exists base, v = Some base /\ base <> ""%string.
Proof.
  destruct v as [b|]; simpl; [|discriminate].
  intros H. exists b. split; [reflexivity|].
  intros ->. discriminate.
Qed.

Lemma truthy_of_nonempty (base : string) :
  base <> ""%string -> truthy (Some base) = true.
Proof.
  intros H. simpl. destruct (String.eqb_spec base ""); [contradiction|reflexivity].
Qed.

(** Spreading keeps the length and what every index reads; it leaves a
    dense array as it is. *)
Lemma spread_length (h : History) : List.length (spread h) = List.length h.
Proof. unfold spread. apply length_map. Qed.

Lemma layerAt_spread (h : History) (i : nat) :
  layerAt (spread h) i = layerAt h i.
Proof.
  unfold layerAt, spread. rewrite nth_error_map.
  destruct (nth_error h i) as [[| |l]|]; reflexivity.
Qed.

Lemma spread_noHoles (h : History) : noHoles h -> spread h = h.
Proof.
  unfold noHoles, spread. induction h as [|x h IH]; intros H; [reflexivity|].
  inversion H as [|? ? Hx Hh]; subst. simpl. rewrite IH by assumption.
  destruct x; try discriminate; reflexivity.
Qed.

Lemma In_spread (h : History) (l : OutfitLayer) :
  In (Layer l) (spread h) <-> In (Layer l) h.
Proof.
  unfold spread. rewrite in_map_iff. split.
  - intros (x & Hx & Hin). destruct x; try discriminate; congruence.
  - intros H. exists (Layer l). auto.
Qed.

Lemma firstn_In_history (h : History) (n : nat) (x : Slot) :
  In x (slice0 h n) -> In x h.
Proof.
  unfold slice0. revert n.
  induction h as [|y h IH]; intros [|n]; simpl; try tauto.
  intros [H|H]; eauto.
Qed.

Lemma noHoles_slice0 (h : History) (n : nat) : noHoles h -> noHoles (slice0 h n).
Proof.
  unfold noHoles, slice0. rewrite !Forall_forall.
  intros Hh x Hx. apply Hh. eapply firstn_In_history. exact Hx.
Qed.

Lemma traceTwoPoses_reaches :
  app (run sampleFriendlyMessage initialSys traceTwoPoses) = stateTwoPoses 1
  /\ inflight (run sampleFriendlyMessage initialSys traceTwoPoses) = [].
Proof. split; reflexivity. Qed.

Lemma traceDressed_then_pose :
  app (run sampleFriendlyMessage initialSys
         (traceDressed ++ [PoseSelect 2; Settle 0 (Fulfilled "img-side")]))
  = mkAppState (Some "img-front")
      [Layer layerTwoPoses;
       Layer (mkOutfitLayer (Some shirt)
               [(poseInstructionAt 0, "img-worn");
                (poseInstructionAt 2, "img-side")])]
      1 false "" None 2 true [shirt].
Proof. reflexivity. Qed.

Lemma traceRegenerated_reaches :
  app (run sampleFriendlyMessage initialSys traceRegenerated)
  = mkAppState (Some "img-front")
      [Layer layerTwoPoses;
       Layer (mkOutfitLayer (Some shirt)
               [(poseInstructionAt 0, "img-worn-again")])]
      1 false "" None 0 true [shirt]
  /\ callsOfRun sampleFriendlyMessage initialSys traceRegenerated
     = [generatePoseVariation "img-front" (poseInstructionAt 1);
        generateVirtualTryOnImage "img-turned" "file";
        generatePoseVariation "img-worn" (poseInstructionAt 2);
        urlToFile "blob:shirt" "Shirt";
        generateVirtualTryOnImage "img-front" "file-shirt"].
Proof. split; reflexivity. Qed.

(** A request that passes the guards and misses the caches does reach the
    gateway. *)
Lemma handleGarmentSelect_awaits isMobile garmentFile garmentInfo s base :
  displayImageUrl s = Some base ->
  base <> ""%string ->
  isLoading s = false ->
  reapplies (layerAt (outfitHistory s) (currentOutfitIndex s + 1)) garmentInfo
  = false ->
  exists s1,
    handleGarmentSelect isMobile garmentFile garmentInfo s
    = Await s1 (generateVirtualTryOnImage base garmentFile)
        (GarmentSelectAwait (currentOutfitIndex s) garmentInfo).
Proof.
  intros Hd Hb Hl Hr. unfold handleGarmentSelect.
  rewrite Hd, (truthy_of_nonempty _ Hb), Hl, Hr. cbn [negb orb].
  eexists. reflexivity.
Qed.

Lemma handlePoseSelect_awaits newIndex s activeLayer base :
  isLoading s = false ->
  outfitHistory s <> [] ->
  newIndex <> currentPoseIndex s ->
  layerAt (outfitHistory s) (currentOutfitIndex s) = Some activeLayer ->
  truthy (getProp (poseImages activeLayer) (poseInstructionAt newIndex))
  = false ->
  firstPoseImage activeLayer = Some base ->
  base <> ""%string ->
  exists s1,
    handlePoseSelect newIndex s
    = Await s1 (generatePoseVariation base (poseInstructionAt newIndex))
        (PoseSelectAwait (currentOutfitIndex s) (poseInstructionAt newIndex)
           (currentPoseIndex s)).
Proof.
  intros Hl Hne Hd Ha Hc Hf Hb. unfold handlePoseSelect.
  rewrite Hl, Ha, Hc, Hf, (truthy_of_nonempty _ Hb).
  destruct (outfitHistory s); [contradiction|].
  apply Nat.eqb_neq in Hd. rewrite Hd. cbn [List.length Nat.eqb orb].
  eexists. reflexivity.
Qed.

(** ** Removing a layer and selecting its garment again *)

(** C1 fails on the code.  [handleGarmentSelect] looks for the layer after
    the current position to re-apply it without a call, but
    [handleRemoveLayer] slices that layer away: on [A,B] at position 1,
    removing layer 1 leaves A alone at position 0, the reuse check finds
    nothing at index 1, and selecting B's garment again suspends at a call
    to the try-on gateway on A's image. *)
Theorem reapply_after_remove_calls_gateway :
  outfitHistory stateAB = [Layer layerA; Layer layerB]
  /\ currentOutfitIndex stateAB = 1
  /\ garment layerB = Some shirt
  /\ outfitHistory (handleRemoveLayer 1 stateAB) = [Layer layerA]
  /\ currentOutfitIndex (handleRemoveLayer 1 stateAB) = 0
  /\ layerAt (outfitHistory (handleRemoveLayer 1 stateAB)) 1 = None
  /\ reapplies (layerAt (outfitHistory (handleRemoveLayer 1 stateAB)) 1) shirt
     = false
  /\ callOf (handleGarmentSelect false "file" shirt
               (handleRemoveLayer 1 stateAB))
     = Some (generateVirtualTryOnImage "img-model" "file")
  /\ callsOfRun sampleFriendlyMessage (mkSys stateAB [] [] false)
       [RemoveLayer 1; GarmentSelect false "file" shirt]
     = [generateVirtualTryOnImage "img-model" "file"].
Proof. repeat split. Qed.

(** ** The base image of a try-on *)

(** C2 fails on the code.  [handleGarmentSelect] passes [displayImageUrl]
    to the try-on gateway: two states that differ only in the selected pose
    index send different base images, and with pose 1 selected the base is
    not the first image of the pose cache.  The result is nevertheless
    filed under the default pose of the new layer, and regenerating that
    layer later uses the first image of the layer below as base, as the
    run [traceRegenerated] shows. *)
Theorem garment_select_base_follows_pose_index :
  callOf (handleGarmentSelect false "file" shirt (stateTwoPoses 0))
  = Some (generateVirtualTryOnImage "img-front" "file")
  /\ callOf (handleGarmentSelect false "file" shirt (stateTwoPoses 1))
     = Some (generateVirtualTryOnImage "img-turned" "file")
  /\ firstPoseImage layerTwoPoses = Some "img-front"
  /\ stateTwoPoses 1 = app (run sampleFriendlyMessage initialSys traceTwoPoses)
  /\ outfitHistory (app (run sampleFriendlyMessage initialSys traceDressed))
     = [Layer layerTwoPoses;
        Layer (mkOutfitLayer (Some shirt) [(poseInstructionAt 0, "img-worn")])]
  /\ callsOfRun sampleFriendlyMessage initialSys traceRegenerated
     = [generatePoseVariation "img-front" (poseInstructionAt 1);
        generateVirtualTryOnImage "img-turned" "file";
        generatePoseVariation "img-worn" (poseInstructionAt 2);
        urlToFile "blob:shirt" "Shirt";
        generateVirtualTryOnImage "img-front" "file-shirt"].
Proof. repeat split. Qed.

(** ** Requests issued while busy *)

Section BusyGuard.

Variable getFriendlyErrorMessage : string -> string -> string.


End BusyGuard.



(** ** A failed pose generation *)

Section PoseRollback.

Variable getFriendlyErrorMessage : string -> string -> string.

(** C4.  A select-pose request that reaches the pose gateway advances the
    selector to the target at once, clears the error and turns busy.  When
    the call is rejected, the one continuation run that follows leaves the
    selector at its value before the request, the history (so every
    [poseImages]) as it was, the error message set and busy off: the
    rollback and the message arrive in the same update.  The same holds
    on whatever state the continuation finds when the promise settles. *)
Theorem pose_failure_rolls_back
    (s s1 : AppState) (newIndex : nat) (call : ExternalCall) (k : Pending)
    (err : string) :
  handlePoseSelect newIndex s = Await s1 call k ->
  (exists activeLayer base,
     layerAt (outfitHistory s) (currentOutfitIndex s) = Some activeLayer
     /\ truthy (getProp (poseImages activeLayer) (poseInstructionAt newIndex))
        = false
     /\ firstPoseImage activeLayer = Some base
     /\ call = generatePoseVariation base (poseInstructionAt newIndex))
  /\ currentPoseIndex s1 = newIndex
  /\ error s1 = None
  /\ isLoading s1 = true
  /\ outfitHistory s1 = outfitHistory s
  /\ exists s2,
       resume getFriendlyErrorMessage k (Rejected err) s1 = Return s2
       /\ currentPoseIndex s2 = currentPoseIndex s
       /\ outfitHistory s2 = outfitHistory s
       /\ error s2 = Some (getFriendlyErrorMessage err "Không thể đổi dáng")
       /\ isLoading s2 = false
       /\ currentOutfitIndex s2 = currentOutfitIndex s
       /\ wardrobe s2 = wardrobe s
       /\ forall later,
            exists s3,
              resume getFriendlyErrorMessage k (Rejected err) later = Return s3
              /\ currentPoseIndex s3 = currentPoseIndex s
              /\ outfitHistory s3 = outfitHistory later
              /\ error s3
                 = Some (getFriendlyErrorMessage err "Không thể đổi dáng").
Proof.
  unfold handlePoseSelect.
  destruct (isLoading s || (List.length (outfitHistory s) =? 0)
            || (newIndex =? currentPoseIndex s)); [discriminate|].
  destruct (layerAt (outfitHistory s) (currentOutfitIndex s))
    as [activeLayer|] eqn:Hl; [|discriminate].
  destruct (truthy (getProp (poseImages activeLayer) (poseInstructionAt newIndex)))
    eqn:Hc; [discriminate|].
  destruct (firstPoseImage activeLayer) as [base|] eqn:Hf; [|discriminate].
  destruct (truthy (Some base)); [|discriminate].
  intros H. injection H as <- <- <-.
  split.
  - exists activeLayer, base. repeat split; assumption.
  - repeat split. eexists. split; [reflexivity|]. repeat split.
    intros later. eexists. split; [reflexivity|]. repeat split.
Qed.

End PoseRollback.

Lemma pose_failure_rolls_back_witness :
  handlePoseSelect 2 (stateTwoPoses 1)
  = Await
      (setCurrentPoseIndex 2
         (setLoading true "Đang đổi dáng..." (setError None (stateTwoPoses 1))))
      (generatePoseVariation "img-front" (poseInstructionAt 2))
      (PoseSelectAwait 0 (poseInstructionAt 2) 1)
  /\ exists s2,
       resume sampleFriendlyMessage (PoseSelectAwait 0 (poseInstructionAt 2) 1)
         (Rejected "quota")
         (setCurrentPoseIndex 2
            (setLoading true "Đang đổi dáng..."
               (setError None (stateTwoPoses 1))))
       = Return s2
       /\ currentPoseIndex s2 = 1
       /\ outfitHistory s2 = [Layer layerTwoPoses]
       /\ error s2 = Some (sampleFriendlyMessage "quota" "Không thể đổi dáng")
       /\ isLoading s2 = false.
Proof.
  split; [reflexivity|].
  destruct (pose_failure_rolls_back sampleFriendlyMessage (stateTwoPoses 1) _ 2
              _ _ "quota" eq_refl)
    as (_ & _ & _ & _ & _ & s2 & Hr & Hp & Hh & He & Hb & _).
  exists s2. repeat split; assumption.
Defined.

(** ** The error slot *)

Section ErrorSlot.

Variable getFriendlyErrorMessage : string -> string -> string.


End ErrorSlot.



(** ** Appending a layer *)

Section Append.

Variable getFriendlyErrorMessage : string -> string -> string.

(** C6.  When the current position lies strictly before the last index and
    a select-garment request goes to the gateway and succeeds, the new
    history is the prefix up to the current position followed by the new
    layer; the layers after the current position are gone and the position
    is the new last index.  (The prefix is spread into the new array, so a
    hole in it would come out as [undefined]; a dense prefix is copied as
    it is.) *)
Theorem append_truncates_after_current
    (isMobile : bool) (garmentFile : File) (garmentInfo : WardrobeItem)
    (s s1 : AppState) (call : ExternalCall) (k : Pending)
    (newImageUrl : string) :
  currentOutfitIndex s < List.length (outfitHistory s) - 1 ->
  handleGarmentSelect isMobile garmentFile garmentInfo s = Await s1 call k ->
  exists s2,
    resume getFriendlyErrorMessage k (Fulfilled newImageUrl) s1 = Return s2
    /\ outfitHistory s2
       = spread (slice0 (outfitHistory s) (currentOutfitIndex s + 1))
         ++ [Layer (mkOutfitLayer (Some garmentInfo)
                      [(poseInstructionAt 0, newImageUrl)])]
    /\ (noHoles (outfitHistory s) ->
        outfitHistory s2
        = slice0 (outfitHistory s) (currentOutfitIndex s + 1)
          ++ [Layer (mkOutfitLayer (Some garmentInfo)
                       [(poseInstructionAt 0, newImageUrl)])])
    /\ (forall j, j <= currentOutfitIndex s ->
          layerAt (outfitHistory s2) j = layerAt (outfitHistory s) j)
    /\ List.length (outfitHistory s2) = currentOutfitIndex s + 2
    /\ currentOutfitIndex s2 = currentOutfitIndex s + 1
    /\ currentOutfitIndex s2 = List.length (outfitHistory s2) - 1
    /\ List.length (outfitHistory s2) < List.length (outfitHistory s) + 1.
Proof.
  intros Hlt. unfold handleGarmentSelect.
  destruct (_ || _); [discriminate|].
  destruct (displayImageUrl s); [|discriminate].
  destruct (reapplies _ _); [discriminate|].
  intros H. injection H as <- _ <-.
  eexists. split; [reflexivity|].
  assert (Hh : outfitHistory
                 (setLoading true ("Đang thêm " ++ name garmentInfo ++ "...")%string
                    (setError None
                       (if isMobile then setIsSheetCollapsed true s else s)))
               = outfitHistory s) by (destruct isMobile; reflexivity).
  assert (Hi : currentOutfitIndex
                 (setLoading true ("Đang thêm " ++ name garmentInfo ++ "...")%string
                    (setError None
                       (if isMobile then setIsSheetCollapsed true s else s)))
               = currentOutfitIndex s) by (destruct isMobile; reflexivity).
  state_simpl. rewrite Hh, Hi.
  assert (Hlen : List.length
                   (spread (slice0 (outfitHistory s) (currentOutfitIndex s + 1))
                    ++ [Layer (mkOutfitLayer (Some garmentInfo)
                                 [(poseInstructionAt 0, newImageUrl)])])
                 = currentOutfitIndex s + 2).
  { unfold slice0. rewrite length_app, spread_length, length_firstn. simpl. lia. }
  split; [reflexivity|]. split.
  { intros Hn. rewrite spread_noHoles by (apply noHoles_slice0, Hn).
    reflexivity. }
  split.
  { intros j Hj. unfold layerAt at 1.
    rewrite nth_error_app1
      by (unfold slice0; rewrite spread_length, length_firstn; lia).
    fold (layerAt (spread (slice0 (outfitHistory s) (currentOutfitIndex s + 1)))
            j).
    rewrite layerAt_spread. unfold layerAt, slice0.
    rewrite nth_error_firstn.
    destruct (Nat.ltb_spec j (currentOutfitIndex s + 1)); [reflexivity|lia]. }
  repeat split; try rewrite Hlen; try lia.
Qed.

End Append.

Lemma append_truncates_after_current_witness :
  currentOutfitIndex stateABC0 < List.length (outfitHistory stateABC0) - 1
  /\ outfitHistory stateABC0 = [Layer layerA; Layer layerB; Layer layerC]
  /\ handleGarmentSelect false "file" coat stateABC0
     = Await (setLoading true "Đang thêm Coat..." (setError None stateABC0))
         (generateVirtualTryOnImage "img-model" "file")
         (GarmentSelectAwait 0 coat)
  /\ exists s2,
       resume sampleFriendlyMessage (GarmentSelectAwait 0 coat)
         (Fulfilled "img-coat")
         (setLoading true "Đang thêm Coat..." (setError None stateABC0))
       = Return s2
       /\ outfitHistory s2 = [Layer layerA; Layer (layerD "img-coat")]
       /\ currentOutfitIndex s2 = 1.
Proof.
  split; [simpl; lia|]. split; [reflexivity|]. split; [reflexivity|].
  destruct (append_truncates_after_current sampleFriendlyMessage false "file"
              coat stateABC0 _ _ _ "img-coat"
              (le_S 1 1 (le_n 1)) eq_refl)
    as (s2 & Hr & Hh & _ & _ & _ & Hi & _).
  exists s2. split; [exact Hr|]. split; [exact Hh|exact Hi].
Defined.

(** ** The reuse check *)

(** C9.  When the layer right after the current position holds the
    requested garment, select-garment returns at once: history, wardrobe,
    busy flag and error message (also one already on screen) are as before,
    the position moves up by one and the pose selector goes back to 0.
    Outside the controller state proper, the wardrobe sheet is collapsed
    when the viewport is a mobile one. *)
Theorem reuse_hit_changes_position_and_pose_only
    (isMobile : bool) (garmentFile : File) (garmentInfo held : WardrobeItem)
    (s : AppState) (nextLayer : OutfitLayer) :
  truthy (displayImageUrl s) = true ->
  isLoading s = false ->
  layerAt (outfitHistory s) (currentOutfitIndex s + 1) = Some nextLayer ->
  garment nextLayer = Some held ->
  id held = id garmentInfo ->
  exists s1,
    handleGarmentSelect isMobile garmentFile garmentInfo s = Return s1
    /\ outfitHistory s1 = outfitHistory s
    /\ wardrobe s1 = wardrobe s
    /\ isLoading s1 = isLoading s
    /\ error s1 = error s
    /\ currentOutfitIndex s1 = currentOutfitIndex s + 1
    /\ currentPoseIndex s1 = 0
    /\ modelImageUrl s1 = modelImageUrl s
    /\ loadingMessage s1 = loadingMessage s
    /\ isSheetCollapsed s1 = (isMobile || isSheetCollapsed s).
Proof.
  intros Hd Hb Hn Hg Hid. unfold handleGarmentSelect.
  rewrite Hd, Hb. cbn [negb orb].
  destruct (truthy_Some _ Hd) as (base & -> & _).
  rewrite Hn. unfold reapplies. rewrite Hg, Hid, String.eqb_refl.
  eexists. split; [reflexivity|].
  destruct isMobile; repeat split; exact Hb.
Qed.

Lemma reuse_hit_changes_position_and_pose_only_witness :
  error stateAB0 = Some "old error"
  /\ exists s1,
       handleGarmentSelect true "file" shirt stateAB0 = Return s1
       /\ outfitHistory s1 = outfitHistory stateAB0
       /\ wardrobe s1 = wardrobe stateAB0
       /\ isLoading s1 = isLoading stateAB0
       /\ error s1 = error stateAB0
       /\ currentOutfitIndex s1 = currentOutfitIndex stateAB0 + 1
       /\ currentPoseIndex s1 = 0
       /\ modelImageUrl s1 = modelImageUrl stateAB0
       /\ loadingMessage s1 = loadingMessage stateAB0
       /\ isSheetCollapsed s1 = (true || isSheetCollapsed stateAB0).
Proof.
  split; [reflexivity|].
  exact (reuse_hit_changes_position_and_pose_only true "file" shirt shirt
           stateAB0 layerB eq_refl eq_refl eq_refl eq_refl eq_refl).
Defined.

(** ** The wardrobe after a failed try-on *)

Section FailedTryOn.

Variable getFriendlyErrorMessage : string -> string -> string.

(** C10.  A select-garment request that goes to the try-on gateway leaves
    the wardrobe alone while the call is in flight, and when the call is
    rejected the wardrobe, like the history, is still the one before the
    request: a garment not yet in the wardrobe is not added.  It enters the
    wardrobe only in the continuation of a fulfilled call. *)
Theorem failed_try_on_keeps_wardrobe
    (isMobile : bool) (garmentFile : File) (garmentInfo : WardrobeItem)
    (s s1 : AppState) (call : ExternalCall) (k : Pending) (err : string) :
  handleGarmentSelect isMobile garmentFile garmentInfo s = Await s1 call k ->
  wardrobe s1 = wardrobe s
  /\ (exists s2,
        resume getFriendlyErrorMessage k (Rejected err) s1 = Return s2
        /\ wardrobe s2 = wardrobe s
        /\ inWardrobe (wardrobe s2) garmentInfo
           = inWardrobe (wardrobe s) garmentInfo
        /\ outfitHistory s2 = outfitHistory s
        /\ currentOutfitIndex s2 = currentOutfitIndex s
        /\ error s2
           = Some (getFriendlyErrorMessage err "Không thể mặc trang phục")
        /\ isLoading s2 = false)
  /\ forall newImageUrl,
       exists s3,
         resume getFriendlyErrorMessage k (Fulfilled newImageUrl) s1 = Return s3
         /\ wardrobe s3
            = if inWardrobe (wardrobe s) garmentInfo then wardrobe s
              else wardrobe s ++ [garmentInfo].
Proof.
  unfold handleGarmentSelect.
  destruct (_ || _); [discriminate|].
  destruct (displayImageUrl s); [|discriminate].
  destruct (reapplies _ _); [discriminate|].
  intros H. injection H as <- _ <-.
  split; [destruct isMobile; reflexivity|].
  split.
  - eexists. split; [reflexivity|].
    destruct isMobile; repeat split.
  - intros newImageUrl. eexists. split; [reflexivity|].
    destruct isMobile; reflexivity.
Qed.

End FailedTryOn.

Lemma failed_try_on_keeps_wardrobe_witness :
  inWardrobe (wardrobe stateAB) coat = false
  /\ wardrobe (setLoading true "Đang thêm Coat..." (setError None stateAB))
     = wardrobe stateAB
  /\ exists s2,
       resume sampleFriendlyMessage (GarmentSelectAwait 1 coat)
         (Rejected "blocked")
         (setLoading true "Đang thêm Coat..." (setError None stateAB))
       = Return s2
       /\ wardrobe s2 = wardrobe stateAB
       /\ inWardrobe (wardrobe s2) coat = inWardrobe (wardrobe stateAB) coat
       /\ outfitHistory s2 = outfitHistory stateAB
       /\ currentOutfitIndex s2 = currentOutfitIndex stateAB
       /\ error s2
          = Some (sampleFriendlyMessage "blocked" "Không thể mặc trang phục")
       /\ isLoading s2 = false.
Proof.
  split; [reflexivity|].
  destruct (failed_try_on_keeps_wardrobe sampleFriendlyMessage false "file"
              coat stateAB _ _ _ "blocked" eq_refl)
    as (Hw & Hf & _).
  split; [exact Hw|exact Hf].
Defined.

(** ** What the handlers do to the history *)

Lemma layerAt_In (h : History) (i : nat) (l : OutfitLayer) :
  layerAt h i = Some l -> In (Layer l) h.
Proof.
  unfold layerAt. destruct (nth_error h i) as [[| |x]|] eqn:Hn;
    try discriminate.
  intros H. injection H as <-. eapply nth_error_In; eassumption.
Qed.

Lemma In_arraySet (h : History) (i : nat) (v l : OutfitLayer) :
  In (Layer l) (arraySet h i v) -> l = v \/ In (Layer l) h.
Proof.
  revert i. induction h as [|x h IH]; intros i.
  - induction i as [|i IHi]; simpl.
    + intros [H|[]]. left. congruence.
    + intros [H|H]; [discriminate|auto].
  - destruct i as [|i]; simpl.
    + intros [H|H]; [left; congruence|auto].
    + intros [H|H]; [auto|]. destruct (IH _ H); auto.
Qed.

Lemma setProp_keeps_first (o : PoseImages) (k0 v0 k v : string) :
  exists v' rest, setProp ((k0, v0) :: o) k v = (k0, v') :: rest.
Proof.
  simpl. destruct (String.eqb k0 k); eauto.
Qed.

Section HistoryEffects.

Variable getFriendlyErrorMessage : string -> string -> string.

Lemma app_commit (o : Outcome) (others : list Pending)
    (fetches : list GarmentFetch) :
  app (commit o others fetches) = stateOf o.
Proof. destruct o; reflexivity. Qed.

Lemma fetching_commit (o : Outcome) (others : list Pending)
    (fetches : list GarmentFetch) :
  fetching (commit o others fetches) = fetches.
Proof. destruct o; reflexivity. Qed.

Lemma inflight_commit (o : Outcome) (others : list Pending)
    (fetches : list GarmentFetch) :
  inflight (commit o others fetches)
  = match o with
    | Await _ _ k => others ++ [k]
    | _ => others
    end.
Proof. destruct o; reflexivity. Qed.

(** Called by the render it belongs to, the closure is the handler. *)
Lemma handleGarmentSelectOf_current isMobile garmentFile garmentInfo s :
  handleGarmentSelectOf s isMobile garmentFile garmentInfo s
  = handleGarmentSelect isMobile garmentFile garmentInfo s.
Proof. reflexivity. Qed.

(** What a select-garment closure does to the state it is called on. *)
Lemma handleGarmentSelectOf_shape (rendered : AppState) (isMobile : bool)
    (garmentFile : File) (garmentInfo : WardrobeItem) (s : AppState) :
  let s0 := if isMobile then setIsSheetCollapsed true s else s in
  handleGarmentSelectOf rendered isMobile garmentFile garmentInfo s = Return s
  \/ (isLoading rendered = false
      /\ truthy (displayImageUrl rendered) = true
      /\ reapplies
           (layerAt (outfitHistory rendered) (currentOutfitIndex rendered + 1))
           garmentInfo = true
      /\ handleGarmentSelectOf rendered isMobile garmentFile garmentInfo s
         = Return (setCurrentPoseIndex 0
                     (setCurrentOutfitIndex (currentOutfitIndex s + 1) s0)))
  \/ (isLoading rendered = false
      /\ reapplies
           (layerAt (outfitHistory rendered) (currentOutfitIndex rendered + 1))
           garmentInfo = false
      /\ exists base,
           displayImageUrl rendered = Some base
           /\ truthy (Some base) = true
           /\ handleGarmentSelectOf rendered isMobile garmentFile garmentInfo s
              = Await
                  (setLoading true
                     ("Đang thêm " ++ name garmentInfo ++ "...")%string
                     (setError None s0))
                  (generateVirtualTryOnImage base garmentFile)
                  (GarmentSelectAwait (currentOutfitIndex rendered)
                     garmentInfo)).
Proof.
  intros s0. unfold handleGarmentSelectOf. fold s0.
  destruct (truthy (displayImageUrl rendered)) eqn:Hd; cbn [negb orb]; [|auto].
  destruct (isLoading rendered); [auto|].
  destruct (displayImageUrl rendered) as [base|]; [|auto].
  destruct (reapplies _ _) eqn:Hr.
  - right. left. repeat split. unfold s0. destruct isMobile; reflexivity.
  - right. right. repeat split. exists base. auto.
Qed.

Lemma handleGarmentSelectOf_history rendered isMobile garmentFile garmentInfo s :
  outfitHistory
    (stateOf (handleGarmentSelectOf rendered isMobile garmentFile garmentInfo s))
  = outfitHistory s.
Proof.
  destruct (handleGarmentSelectOf_shape rendered isMobile garmentFile
              garmentInfo s) as [->|[(_ & _ & _ & ->)|(_ & _ & b & _ & _ & ->)]];
    destruct isMobile; reflexivity.
Qed.

Lemma handleGarmentSelect_history isMobile garmentFile garmentInfo s :
  outfitHistory
    (stateOf (handleGarmentSelect isMobile garmentFile garmentInfo s))
  = outfitHistory s.
Proof. apply (handleGarmentSelectOf_history s). Qed.

Lemma handleRegenerateLayer_history layerIndex s :
  outfitHistory
    (stateOf (handleRegenerateLayer getFriendlyErrorMessage layerIndex s))
  = outfitHistory s.
Proof.
  unfold handleRegenerateLayer, regenerateCaught.
  destruct (_ || _); [reflexivity|].
  destruct (layerAt (outfitHistory s) layerIndex) as [l|]; [|reflexivity].
  destruct (garment l); [|reflexivity].
  destruct (layerAt (outfitHistory s) (layerIndex - 1)) as [p|]; [|reflexivity].
  destruct (firstPoseImage p) as [b|]; [|reflexivity].
  destruct (truthy (Some b)); reflexivity.
Qed.

Lemma handlePoseSelect_history newIndex s :
  outfitHistory (stateOf (handlePoseSelect newIndex s)) = outfitHistory s.
Proof.
  unfold handlePoseSelect.
  destruct (_ || _); [reflexivity|].
  destruct (layerAt _ _) as [l|]; [|reflexivity].
  destruct (truthy (getProp _ _)); [reflexivity|].
  destruct (firstPoseImage l) as [b|]; [|reflexivity].
  destruct (truthy (Some b)); reflexivity.
Qed.

Lemma handleRemoveLayer_history layerIndex s :
  handleRemoveLayer layerIndex s = s
  \/ (isLoading s = false /\ layerIndex = 0
      /\ handleRemoveLayer layerIndex s = handleStartOver s)
  \/ (isLoading s = false /\ 0 < layerIndex < List.length (outfitHistory s)
      /\ outfitHistory (handleRemoveLayer layerIndex s)
         = slice0 (outfitHistory s) layerIndex
      /\ modelImageUrl (handleRemoveLayer layerIndex s) = modelImageUrl s
      /\ isLoading (handleRemoveLayer layerIndex s) = false).
Proof.
  unfold handleRemoveLayer.
  destruct (isLoading s) eqn:Hb; [auto|].
  destruct (Nat.eqb_spec layerIndex 0) as [->|Hn]; [auto|].
  destruct (Nat.ltb_spec 0 layerIndex); cbn [andb]; [|auto].
  destruct (Nat.ltb_spec layerIndex (List.length (outfitHistory s))); [|auto].
  right. right. repeat split; auto.
Qed.

(** The layers a settling promise leaves in the history are those already
    there, a fresh layer listing the default pose first, or a layer of the
    history with one pose set. *)
Lemma resume_layers (k : Pending) (r : Settled) (s : AppState) (l : OutfitLayer) :
  In (Layer l) (outfitHistory (stateOf (resume getFriendlyErrorMessage k r s))) ->
  In (Layer l) (outfitHistory s)
  \/ (exists g img, l = mkOutfitLayer (Some g) [(poseInstructionAt 0, img)])
  \/ (exists l0 p img,
        In (Layer l0) (outfitHistory s)
        /\ l = mkOutfitLayer (garment l0) (setProp (poseImages l0) p img)).
Proof.
  destruct k as [c g|i g b|i g|c p prev]; destruct r as [v|e];
    unfold resume, regenerateCaught; state_simpl; cbn [stateOf]; state_simpl;
    auto.
  - intros H. apply in_app_or in H as [H|[H|[]]].
    + left. apply (proj1 (In_spread _ _)) in H.
      eapply firstn_In_history. exact H.
    + right. left. injection H as <-. eauto.
  - intros H. apply In_arraySet in H as [->|H].
    + right. left. eauto.
    + left. eapply firstn_In_history. exact H.
  - destruct (layerAt (outfitHistory s) c) as [l0|] eqn:Hl0;
      cbn [stateOf]; state_simpl; auto.
    intros H. apply In_arraySet in H as [->|H];
      [|left; apply (proj1 (In_spread _ _)), H].
    right. right. exists l0, p, v. split; [|reflexivity].
    eapply layerAt_In; eassumption.
Qed.

(** An invariant of the state alone that every handler and continuation
    keeps is kept by every step. *)
Lemma step_keeps (P : AppState -> Prop) :
  (forall u s, P s -> P (handleModelFinalized u s)) ->
  (forall s, P s -> P (handleStartOver s)) ->
  (forall i s, P s -> P (handleRemoveLayer i s)) ->
  (forall c m f g s, P s -> P (stateOf (handleGarmentSelectOf c m f g s))) ->
  (forall i s,
     P s -> P (stateOf (handleRegenerateLayer getFriendlyErrorMessage i s))) ->
  (forall i s, P s -> P (stateOf (handlePoseSelect i s))) ->
  (forall k r s, P s -> P (stateOf (resume getFriendlyErrorMessage k r s))) ->
  forall y e, P (app y) -> P (app (step getFriendlyErrorMessage y e)).
Proof.
  intros Hm Hs Hr Hg Hre Hp Hk y e Hy. unfold step, onScreen, settle.
  destruct (unmounted y).
  { destruct e; cbn [outcomeOf]; try exact Hy;
      match goal with |- context [nth_error ?l ?n] =>
        destruct (nth_error l n) end; exact Hy. }
  destruct e as [u| |m f g|i|i|i|n r|m g|n r]; cbn [outcomeOf app mount].
  - apply Hm, Hy.
  - apply Hs, Hy.
  - rewrite app_commit. apply (Hg (app y)), Hy.
  - rewrite app_commit. apply Hre, Hy.
  - apply Hr, Hy.
  - rewrite app_commit. apply Hp, Hy.
  - destruct (nth_error (inflight y) n); [|exact Hy].
    rewrite app_commit. apply Hk, Hy.
  - destruct (activeGarmentIds (app y)); [|exact Hy].
    destruct (handleGarmentClick _ _ _); exact Hy.
  - destruct (nth_error (fetching y) n) as [f|]; [|exact Hy].
    rewrite app_commit. unfold onGarmentSelectOf.
    destruct (garmentClickSettled (clicked f) r); try exact Hy.
    apply Hg, Hy.
Qed.

Lemma run_keeps (P : AppState -> Prop) :
  (forall y e, P (app y) -> P (app (step getFriendlyErrorMessage y e))) ->
  forall es y, P (app y) -> P (app (run getFriendlyErrorMessage y es)).
Proof.
  intros Hstep es. induction es as [|e es IH]; intros y Hy; [exact Hy|].
  apply IH, Hstep, Hy.
Qed.

End HistoryEffects.

(** ** The default pose comes first on every layer *)

Section DefaultPoseFirst.

Variable getFriendlyErrorMessage : string -> string -> string.

Lemma step_layersDefaultFirst (y : Sys) (e : Event) :
  layersDefaultFirst (outfitHistory (app y)) ->
  layersDefaultFirst
    (outfitHistory (app (step getFriendlyErrorMessage y e))).
Proof.
  apply (step_keeps getFriendlyErrorMessage
           (fun s => layersDefaultFirst (outfitHistory s))).
  - intros u s _ l [H|[]]. injection H as <-. red. cbn. eauto.
  - intros s _ l [].
  - intros i s Hy.
    destruct (handleRemoveLayer_history i s)
      as [->|[(_ & _ & ->)|(_ & _ & -> & _)]].
    + exact Hy.
    + intros l [].
    + intros l H. apply Hy. eapply firstn_In_history. exact H.
  - intros c m f g s Hy. rewrite handleGarmentSelectOf_history. exact Hy.
  - intros i s Hy. rewrite handleRegenerateLayer_history. exact Hy.
  - intros i s Hy. rewrite handlePoseSelect_history. exact Hy.
  - intros k r s Hy l H.
    apply resume_layers in H as [H|[(g & img & ->)|(l0 & p & img & H & ->)]].
    + apply Hy, H.
    + red. cbn. eauto.
    + destruct (Hy _ H) as (v & rest & Hp). red. cbn [poseImages].
      rewrite Hp. apply setProp_keeps_first.
Qed.

Lemma run_layersDefaultFirst (es : list Event) (y : Sys) :
  layersDefaultFirst (outfitHistory (app y)) ->
  layersDefaultFirst
    (outfitHistory (app (run getFriendlyErrorMessage y es))).
Proof.
  revert y. induction es as [|e es IH]; intros y Hy; [exact Hy|].
  apply IH, step_layersDefaultFirst, Hy.
Qed.

Lemma reachable_layersDefaultFirst (es : list Event) :
  layersDefaultFirst
    (outfitHistory (app (run getFriendlyErrorMessage initialSys es))).
Proof. apply run_layersDefaultFirst. intros l []. Qed.

Lemma defaultPoseFirst_firstPoseImage (l : OutfitLayer) :
  defaultPoseFirst l ->
  firstPoseImage l = getProp (poseImages l) (poseInstructionAt 0).
Proof.
  intros (v & rest & Hp). unfold firstPoseImage. rewrite Hp.
  cbn [objectValues map snd hd_error getProp].
  rewrite String.eqb_refl. reflexivity.
Qed.

(** C7.  [handleRegenerateLayer] never reads the pose selector: run on two
    states that differ only in the selected pose index it issues the same
    call and leaves the same continuation.  When it goes ahead, the base
    image it captured, and the only one the later try-on call can receive
    whatever happens to the state meanwhile, is the first image of the pose
    cache of layer [layerIndex - 1]; in every state the application can
    reach that image is the layer's default-pose image. *)
Theorem regenerate_base_ignores_pose_index
    (s : AppState) (layerIndex p : nat) :
  callOf (handleRegenerateLayer getFriendlyErrorMessage layerIndex
            (setCurrentPoseIndex p s))
  = callOf (handleRegenerateLayer getFriendlyErrorMessage layerIndex s)
  /\ forall s1 call k,
       handleRegenerateLayer getFriendlyErrorMessage layerIndex s
       = Await s1 call k ->
       exists previousLayer garmentInfo base,
         1 <= layerIndex < List.length (outfitHistory s)
         /\ layerAt (outfitHistory s) (layerIndex - 1) = Some previousLayer
         /\ firstPoseImage previousLayer = Some base
         /\ k = RegenerateAwaitFile layerIndex garmentInfo base
         /\ handleRegenerateLayer getFriendlyErrorMessage layerIndex
              (setCurrentPoseIndex p s)
            = Await (setCurrentPoseIndex p s1) call k
         /\ (forall garmentFile later,
               resume getFriendlyErrorMessage k (Fulfilled garmentFile) later
               = Await later (generateVirtualTryOnImage base garmentFile)
                   (RegenerateAwaitTryOn layerIndex garmentInfo))
         /\ (forall es,
               s = app (run getFriendlyErrorMessage initialSys es) ->
               getProp (poseImages previousLayer) (poseInstructionAt 0)
               = Some base).
Proof.
  unfold handleRegenerateLayer, regenerateCaught. state_simpl.
  destruct (isLoading s); cbn [orb]; [split; [reflexivity|discriminate]|].
  destruct (Nat.ltb_spec layerIndex 1) as [|H1]; cbn [orb];
    [split; [reflexivity|discriminate]|].
  destruct (Nat.leb_spec (List.length (outfitHistory s)) layerIndex) as [|H2];
    [split; [reflexivity|discriminate]|].
  destruct (layerAt (outfitHistory s) layerIndex) as [l|];
    [|split; [reflexivity|discriminate]].
  destruct (garment l) as [g|]; [|split; [reflexivity|discriminate]].
  destruct (layerAt (outfitHistory s) (layerIndex - 1)) as [prev|] eqn:Hprev;
    [|split; [reflexivity|discriminate]].
  destruct (firstPoseImage prev) as [base|] eqn:Hbase;
    [|split; [reflexivity|discriminate]].
  destruct (truthy (Some base)); [|split; [reflexivity|discriminate]].
  split; [reflexivity|].
  intros s1 call k H. injection H as <- <- <-.
  exists prev, g, base. repeat split; auto.
  intros es ->.
  rewrite <- defaultPoseFirst_firstPoseImage; [exact Hbase|].
  eapply reachable_layersDefaultFirst, layerAt_In, Hprev.
Qed.

End DefaultPoseFirst.

Lemma regenerate_base_ignores_pose_index_witness :
  app (run sampleFriendlyMessage initialSys traceDressed) = stateDressed
  /\ handleRegenerateLayer sampleFriendlyMessage 1 stateDressed
     = Await
         (setLoading true "Đang tạo lại thử đồ..." (setError None stateDressed))
         (urlToFile "blob:shirt" "Shirt")
         (RegenerateAwaitFile 1 shirt "img-front")
  /\ callOf (handleRegenerateLayer sampleFriendlyMessage 1
               (setCurrentPoseIndex 1 stateDressed))
     = callOf (handleRegenerateLayer sampleFriendlyMessage 1 stateDressed)
  /\ exists previousLayer garmentInfo base,
       1 <= 1 < List.length (outfitHistory stateDressed)
       /\ layerAt (outfitHistory stateDressed) (1 - 1) = Some previousLayer
       /\ firstPoseImage previousLayer = Some base
       /\ RegenerateAwaitFile 1 shirt "img-front"
          = RegenerateAwaitFile 1 garmentInfo base
       /\ handleRegenerateLayer sampleFriendlyMessage 1
            (setCurrentPoseIndex 1 stateDressed)
          = Await
              (setCurrentPoseIndex 1
                 (setLoading true "Đang tạo lại thử đồ..."
                    (setError None stateDressed)))
              (urlToFile "blob:shirt" "Shirt")
              (RegenerateAwaitFile 1 shirt "img-front")
       /\ (forall garmentFile later,
             resume sampleFriendlyMessage
               (RegenerateAwaitFile 1 shirt "img-front")
               (Fulfilled garmentFile) later
             = Await later (generateVirtualTryOnImage base garmentFile)
                 (RegenerateAwaitTryOn 1 garmentInfo))
       /\ (forall es,
             stateDressed = app (run sampleFriendlyMessage initialSys es) ->
             getProp (poseImages previousLayer) (poseInstructionAt 0)
             = Some base).
Proof.
  split; [reflexivity|]. split; [reflexivity|].
  destruct (regenerate_base_ignores_pose_index sampleFriendlyMessage
              stateDressed 1 1) as (Hc & Hk).
  split; [exact Hc|].
  exact (Hk _ _ _ eq_refl).
Defined.

(** ** The root layer *)

Lemma rootIsBare_head (h h' : History) :
  hd_error h' = hd_error h -> h <> [] -> rootIsBare h -> rootIsBare h'.
Proof.
  destruct h as [|x h]; [contradiction|].
  destruct h' as [|x' h']; [discriminate|].
  simpl. intros H _. injection H as ->. auto.
Qed.








Lemma arraySet_nonempty (h : History) (i : nat) (v : OutfitLayer) :
  arraySet h i v <> [].
Proof. destruct h, i; discriminate. Qed.

Lemma removeNth_In {A : Type} (n : nat) (l : list A) (x : A) :
  In x (removeNth n l) -> In x l.
Proof.
  revert n. induction l as [|y l IH]; intros n.
  - destruct n; simpl; tauto.
  - destruct n as [|n]; simpl; [auto|]. intros [H|H]; eauto.
Qed.

Section RootInvariant.

Variable getFriendlyErrorMessage : string -> string -> string.

(** What a request does when it goes ahead, and what it leaves alone when
    it does not. *)
Lemma handleGarmentSelectOf_cases (c : AppState) (isMobile : bool)
    (garmentFile : File) (garmentInfo : WardrobeItem) (s : AppState) :
  modelImageUrl
    (stateOf (handleGarmentSelectOf c isMobile garmentFile garmentInfo s))
  = modelImageUrl s
  /\ match handleGarmentSelectOf c isMobile garmentFile garmentInfo s with
     | Await s1 _ k =>
         isLoading c = false /\ isLoading s1 = true
         /\ truthy (displayImageUrl c) = true /\ pendingIndexOk k
     | Return s1 | Throw s1 | UpdaterThrows s1 =>
         isLoading s1 = isLoading s
         /\ (s1 = s \/ truthy (displayImageUrl c) = true)
     end.
Proof.
  unfold handleGarmentSelectOf.
  destruct (truthy (displayImageUrl c)) eqn:Hd; cbn [negb orb]; [|auto].
  destruct (isLoading c) eqn:Hb; [auto|].
  destruct (displayImageUrl c); [|auto].
  destruct (reapplies _ _); destruct isMobile; cbn; auto.
Qed.

Lemma handleRegenerateLayer_cases layerIndex s :
  modelImageUrl
    (stateOf (handleRegenerateLayer getFriendlyErrorMessage layerIndex s))
  = modelImageUrl s
  /\ match handleRegenerateLayer getFriendlyErrorMessage layerIndex s with
     | Await s1 _ k =>
         isLoading s = false /\ isLoading s1 = true
         /\ outfitHistory s <> [] /\ pendingIndexOk k
     | Return s1 | Throw s1 | UpdaterThrows s1 => s1 = s \/ isLoading s = false
     end.
Proof.
  unfold handleRegenerateLayer, regenerateCaught.
  destruct (isLoading s) eqn:Hb; cbn [orb]; [auto|].
  destruct (Nat.ltb_spec layerIndex 1) as [|H1]; cbn [orb]; [auto|].
  destruct (Nat.leb_spec (List.length (outfitHistory s)) layerIndex) as [|H2];
    [auto|].
  assert (Hne : outfitHistory s <> []).
  { intros E. rewrite E in H2. simpl in H2. lia. }
  destruct (layerAt (outfitHistory s) layerIndex) as [l|]; [|cbn; auto].
  destruct (garment l); [|cbn; auto].
  destruct (layerAt (outfitHistory s) (layerIndex - 1)) as [p|]; [|cbn; auto].
  destruct (firstPoseImage p) as [b|]; [|cbn; auto].
  destruct (truthy (Some b)); cbn; auto.
Qed.

Lemma handlePoseSelect_cases newIndex s :
  modelImageUrl (stateOf (handlePoseSelect newIndex s)) = modelImageUrl s
  /\ match handlePoseSelect newIndex s with
     | Await s1 _ k =>
         isLoading s = false /\ isLoading s1 = true
         /\ outfitHistory s <> [] /\ pendingIndexOk k
     | Return s1 | Throw s1 | UpdaterThrows s1 => isLoading s1 = isLoading s
     end.
Proof.
  unfold handlePoseSelect.
  destruct (isLoading s) eqn:Hb; cbn [orb]; [auto|].
  destruct (outfitHistory s) as [|x h] eqn:Hh; cbn [List.length Nat.eqb orb];
    [auto|].
  destruct (newIndex =? currentPoseIndex s); [auto|].
  destruct (layerAt _ _) as [l|]; [|auto].
  destruct (truthy (getProp _ _)); [cbn; auto|].
  destruct (firstPoseImage l) as [b|]; [|auto].
  destruct (truthy (Some b)); cbn; auto.
  repeat split; auto. discriminate.
Qed.











End RootInvariant.

(** C8 fails on the code.  The reset button is not guarded by the busy
    flag: a reset while a try-on is in flight empties the history, and when
    the try-on then succeeds its continuation appends the garment layer to
    the empty history, so the layer at index 0 carries a garment. *)
Theorem root_invariant_broken_by_reset_in_flight :
  outfitHistory (app (run sampleFriendlyMessage initialSys traceResetInFlight))
  = [Layer (mkOutfitLayer (Some shirt) [(poseInstructionAt 0, "img-worn")])]
  /\ rootIsBareb
       (outfitHistory
          (app (run sampleFriendlyMessage initialSys traceResetInFlight)))
     = false
  /\ currentOutfitIndex
       (app (run sampleFriendlyMessage initialSys traceResetInFlight)) = 1
  /\ modelImageUrl
       (app (run sampleFriendlyMessage initialSys traceResetInFlight)) = None
  /\ isLoading
       (app (run sampleFriendlyMessage initialSys
               [ModelFinalized "img-front"; GarmentSelect false "file" shirt]))
     = true
  /\ handleRemoveLayer 0
       (app (run sampleFriendlyMessage initialSys
               [ModelFinalized "img-front"; GarmentSelect false "file" shirt]))
     = app (run sampleFriendlyMessage initialSys
              [ModelFinalized "img-front"; GarmentSelect false "file" shirt]).
Proof. repeat split. Qed.

(** * Further properties of the controller *)

(** ** Sparse-array and object primitives *)

Lemma arraySet_length_in_range (a : History) (i : nat) (v : OutfitLayer) :
  i < List.length a -> List.length (arraySet a i v) = List.length a.
Proof.
  revert i. induction a as [|x a IH]; intros i Hi; simpl in *; [lia|].
  destruct i as [|i]; simpl; [reflexivity|]. rewrite IH; [reflexivity|lia].
Qed.

Lemma arraySet_noHoles (a : History) (i : nat) (v : OutfitLayer) :
  noHoles a -> i < List.length a -> noHoles (arraySet a i v).
Proof.
  unfold noHoles. revert i. induction a as [|x a IH]; intros i Ha Hi;
    simpl in *; [lia|].
  inversion Ha as [|? ? Hx Ha']; subst.
  destruct i as [|i]; simpl; constructor; auto.
  apply IH; [assumption|lia].
Qed.

Lemma arraySet_in_range (a : History) (i : nat) (v : OutfitLayer) :
  i < List.length a -> arraySet a i v = firstn i a ++ Layer v :: skipn (S i) a.
Proof.
  revert i. induction a as [|x a IH]; intros i Hi; simpl in *; [lia|].
  destruct i as [|i]; simpl; [reflexivity|]. rewrite IH; [reflexivity|lia].
Qed.

Lemma layerAt_lt (h : History) (i : nat) (l : OutfitLayer) :
  layerAt h i = Some l -> i < List.length h.
Proof.
  unfold layerAt. destruct (nth_error h i) eqn:Hn; [|discriminate].
  intros _. apply nth_error_Some. congruence.
Qed.

Lemma layerAt_past_end (h : History) (i : nat) :
  List.length h <= i -> layerAt h i = None.
Proof.
  intros Hi. unfold layerAt.
  apply nth_error_None in Hi. rewrite Hi. reflexivity.
Qed.


Lemma layerAt_arraySet_same (h : History) (i : nat) (v : OutfitLayer) :
  layerAt (arraySet h i v) i = Some v.
Proof.
  unfold layerAt. revert i. induction h as [|x h IH]; intros i.
  - induction i as [|i IHi]; simpl; [reflexivity|exact IHi].
  - destruct i as [|i]; simpl; [reflexivity|apply IH].
Qed.

Lemma layerAt_arraySet_other (h : History) (i j : nat) (v : OutfitLayer) :
  i <> j -> layerAt (arraySet h i v) j = layerAt h j.
Proof.
  unfold layerAt. revert i j. induction h as [|x h IH]; intros i j Hij.
  - revert j Hij. induction i as [|i IHi]; intros j Hij.
    + destruct j as [|j]; [lia|]. simpl. destruct j; reflexivity.
    + destruct j as [|j]; simpl; [reflexivity|].
      rewrite IHi; [|lia]. destruct j; reflexivity.
  - destruct i as [|i], j as [|j]; simpl; try reflexivity; try lia.
    apply IH. lia.
Qed.

Lemma layerAt_slice0 (h : History) (n i : nat) :
  i < n -> layerAt (slice0 h n) i = layerAt h i.
Proof.
  unfold layerAt, slice0. intros Hi.
  rewrite nth_error_firstn.
  destruct (Nat.ltb_spec i n); [reflexivity|lia].
Qed.

(** Lookup after assignment on a pose map. *)
Lemma getProp_setProp_same (o : PoseImages) (k v : string) :
  getProp (setProp o k v) k = Some v.
Proof.
  induction o as [|[k' v'] o IH]; simpl.
  - rewrite String.eqb_refl. reflexivity.
  - destruct (String.eqb k' k) eqn:E; simpl; rewrite E; [reflexivity|exact IH].
Qed.

Lemma getProp_setProp_other (o : PoseImages) (k k2 v : string) :
  k2 <> k -> getProp (setProp o k v) k2 = getProp o k2.
Proof.
  intros Hk. induction o as [|[k' v'] o IH]; simpl.
  - destruct (String.eqb_spec k k2); [congruence|reflexivity].
  - destruct (String.eqb_spec k' k) as [->|Hn]; simpl.
    + destruct (String.eqb_spec k k2); [congruence|reflexivity].
    + destruct (String.eqb k' k2); [reflexivity|exact IH].
Qed.

Lemma objectKeys_setProp (o : PoseImages) (k v : string) :
  objectKeys (setProp o k v)
  = if existsb (String.eqb k) (objectKeys o) then objectKeys o
    else objectKeys o ++ [k].
Proof.
  unfold objectKeys. induction o as [|[k' v'] o IH]; simpl; [reflexivity|].
  rewrite (String.eqb_sym k k').
  destruct (String.eqb k' k); simpl; [reflexivity|].
  rewrite IH. destruct (existsb _ _); reflexivity.
Qed.

(** ** What each request captures and leaves alone *)

Section RequestShapes.

Variable getFriendlyErrorMessage : string -> string -> string.

Lemma handleGarmentSelect_shape isMobile garmentFile garmentInfo s :
  handleGarmentSelect isMobile garmentFile garmentInfo s = Return s
  \/ (isLoading s = false
      /\ reapplies (layerAt (outfitHistory s) (currentOutfitIndex s + 1))
           garmentInfo = true)
  \/ (isLoading s = false
      /\ exists base s1,
           displayImageUrl s = Some base
           /\ handleGarmentSelect isMobile garmentFile garmentInfo s
              = Await s1 (generateVirtualTryOnImage base garmentFile)
                  (GarmentSelectAwait (currentOutfitIndex s) garmentInfo)
           /\ currentOutfitIndex s1 = currentOutfitIndex s
           /\ wardrobe s1 = wardrobe s
           /\ currentPoseIndex s1 = currentPoseIndex s).
Proof.
  unfold handleGarmentSelect.
  destruct (truthy (displayImageUrl s)); cbn [negb orb]; [|auto].
  destruct (isLoading s); [auto|].
  destruct (displayImageUrl s) as [base|]; [|auto].
  destruct (reapplies _ _); [auto|].
  right. right. split; [reflexivity|]. exists base. eexists.
  split; [reflexivity|]. split; [reflexivity|].
  destruct isMobile; repeat split.
Qed.

Lemma handleRegenerateLayer_shape layerIndex s :
  handleRegenerateLayer getFriendlyErrorMessage layerIndex s = Return s
  \/ (isLoading s = false
      /\ exists err,
           handleRegenerateLayer getFriendlyErrorMessage layerIndex s
           = regenerateCaught getFriendlyErrorMessage err
               (setLoading true "Đang tạo lại thử đồ..." (setError None s)))
  \/ (isLoading s = false
      /\ 1 <= layerIndex < List.length (outfitHistory s)
      /\ exists layer garmentInfo previousLayer base,
           layerAt (outfitHistory s) layerIndex = Some layer
           /\ garment layer = Some garmentInfo
           /\ layerAt (outfitHistory s) (layerIndex - 1) = Some previousLayer
           /\ firstPoseImage previousLayer = Some base
           /\ handleRegenerateLayer getFriendlyErrorMessage layerIndex s
              = Await
                  (setLoading true "Đang tạo lại thử đồ..." (setError None s))
                  (urlToFile (url garmentInfo) (name garmentInfo))
                  (RegenerateAwaitFile layerIndex garmentInfo base)).
Proof.
  unfold handleRegenerateLayer.
  destruct (isLoading s); cbn [orb]; [auto|].
  destruct (Nat.ltb_spec layerIndex 1); cbn [orb]; [auto|].
  destruct (Nat.leb_spec (List.length (outfitHistory s)) layerIndex); [auto|].
  destruct (layerAt (outfitHistory s) layerIndex) as [l|] eqn:Hl; [|eauto].
  destruct (garment l) as [g|] eqn:Hg; [|eauto].
  destruct (layerAt (outfitHistory s) (layerIndex - 1)) as [p|] eqn:Hp; [|eauto].
  destruct (firstPoseImage p) as [b|] eqn:Hb; [|eauto].
  destruct (truthy (Some b)); [|eauto].
  right. right. split; [reflexivity|]. split; [lia|].
  exists l, g, p, b. repeat split; assumption.
Qed.

Lemma handlePoseSelect_shape newIndex s :
  handlePoseSelect newIndex s = Return s
  \/ handlePoseSelect newIndex s = Throw s
  \/ (isLoading s = false
      /\ handlePoseSelect newIndex s = Return (setCurrentPoseIndex newIndex s))
  \/ (isLoading s = false
      /\ exists activeLayer base,
           layerAt (outfitHistory s) (currentOutfitIndex s) = Some activeLayer
           /\ firstPoseImage activeLayer = Some base
           /\ handlePoseSelect newIndex s
              = Await
                  (setCurrentPoseIndex newIndex
                     (setLoading true "Đang đổi dáng..." (setError None s)))
                  (generatePoseVariation base (poseInstructionAt newIndex))
                  (PoseSelectAwait (currentOutfitIndex s)
                     (poseInstructionAt newIndex) (currentPoseIndex s))).
Proof.
  unfold handlePoseSelect.
  destruct (isLoading s); cbn [orb]; [auto|].
  destruct (_ || _); [auto|].
  destruct (layerAt _ _) as [l|] eqn:Hl; [|auto].
  destruct (truthy (getProp _ _)); [auto|].
  destruct (firstPoseImage l) as [b|] eqn:Hb; [|auto].
  destruct (truthy (Some b)); [|auto].
  right. right. right. split; [reflexivity|]. exists l, b. auto.
Qed.

(** No handler and no continuation changes the wardrobe except the
    continuation of a fulfilled select-garment call; a reset empties it. *)
Lemma handleRegenerateLayer_wardrobe layerIndex s :
  wardrobe (stateOf (handleRegenerateLayer getFriendlyErrorMessage layerIndex s))
  = wardrobe s.
Proof.
  destruct (handleRegenerateLayer_shape layerIndex s)
    as [->|[(_ & e & ->)|(_ & _ & l & g & p & b & _ & _ & _ & _ & ->)]];
    reflexivity.
Qed.

Lemma handlePoseSelect_wardrobe newIndex s :
  wardrobe (stateOf (handlePoseSelect newIndex s)) = wardrobe s.
Proof.
  destruct (handlePoseSelect_shape newIndex s)
    as [->|[->|[(_ & ->)|(_ & l & b & _ & _ & ->)]]]; reflexivity.
Qed.

Lemma handleGarmentSelect_wardrobe isMobile garmentFile garmentInfo s :
  wardrobe (stateOf (handleGarmentSelect isMobile garmentFile garmentInfo s))
  = wardrobe s.
Proof.
  unfold handleGarmentSelect.
  destruct (_ || _); [reflexivity|].
  destruct (displayImageUrl s); [|reflexivity].
  destruct (reapplies _ _); destruct isMobile; reflexivity.
Qed.

Lemma handleRemoveLayer_wardrobe layerIndex s :
  wardrobe (handleRemoveLayer layerIndex s) = wardrobe s
  \/ wardrobe (handleRemoveLayer layerIndex s) = [].
Proof.
  unfold handleRemoveLayer.
  destruct (isLoading s); [auto|].
  destruct (layerIndex =? 0); [auto|].
  destruct (_ && _); auto.
Qed.

End RequestShapes.

(** ** Invariants of every run *)

Lemma NoDup_snoc {A : Type} (l : list A) (x : A) :
  NoDup l -> ~ In x l -> NoDup (l ++ [x]).
Proof.
  induction l as [|y l IH]; simpl; intros Hl Hx.
  - constructor; [tauto|constructor].
  - inversion Hl as [|? ? Hy Hl']; subst. constructor.
    + rewrite in_app_iff. simpl. intros [H|[H|[]]]; [tauto|]. subst. tauto.
    + apply IH; tauto.
Qed.

Lemma inWardrobe_In (w : list WardrobeItem) (g : WardrobeItem) :
  inWardrobe w g = true <-> In (id g) (map id w).
Proof.
  unfold inWardrobe. rewrite existsb_exists, in_map_iff. split.
  - intros (x & Hx & He). apply String.eqb_eq in He. eauto.
  - intros (x & He & Hx). exists x. split; [exact Hx|].
    apply String.eqb_eq. exact He.
Qed.

Section EveryRun.

Variable getFriendlyErrorMessage : string -> string -> string.

Lemma handleGarmentSelectOf_wardrobe (c : AppState) (isMobile : bool)
    (garmentFile : File) (garmentInfo : WardrobeItem) (s : AppState) :
  wardrobe (stateOf (handleGarmentSelectOf c isMobile garmentFile garmentInfo s))
  = wardrobe s.
Proof.
  destruct (handleGarmentSelectOf_shape c isMobile garmentFile garmentInfo s)
    as [->|[(_ & _ & _ & ->)|(_ & _ & b & _ & _ & ->)]];
    destruct isMobile; reflexivity.
Qed.

Lemma resume_wardrobe (k : Pending) (r : Settled) (s : AppState) :
  wardrobe (stateOf (resume getFriendlyErrorMessage k r s)) = wardrobe s
  \/ exists c g v,
       k = GarmentSelectAwait c g /\ r = Fulfilled v
       /\ inWardrobe (wardrobe s) g = false
       /\ wardrobe (stateOf (resume getFriendlyErrorMessage k r s))
          = wardrobe s ++ [g].
Proof.
  destruct k as [c g|i g b|i g|c p prev]; destruct r as [v|e];
    unfold resume, regenerateCaught; cbn [stateOf]; state_simpl; auto.
  - destruct (inWardrobe (wardrobe s) g) eqn:E; [auto|].
    right. exists c, g, v. auto.
  - destruct (layerAt _ _); cbn [stateOf]; state_simpl; auto.
Qed.

Lemma step_wardrobeUnique (y : Sys) (e : Event) :
  wardrobeUnique (app y) ->
  wardrobeUnique (app (step getFriendlyErrorMessage y e)).
Proof.
  apply (step_keeps getFriendlyErrorMessage wardrobeUnique);
    unfold wardrobeUnique.
  - intros u s Hy. exact Hy.
  - intros s _. constructor.
  - intros i s Hy. destruct (handleRemoveLayer_wardrobe i s) as [->| ->];
      [exact Hy|constructor].
  - intros c m f g s Hy. rewrite handleGarmentSelectOf_wardrobe. exact Hy.
  - intros i s Hy. rewrite handleRegenerateLayer_wardrobe. exact Hy.
  - intros i s Hy. rewrite handlePoseSelect_wardrobe. exact Hy.
  - intros k r s Hy.
    destruct (resume_wardrobe k r s)
      as [->|(c & g & v & _ & _ & Hin & ->)]; [exact Hy|].
    rewrite map_app. apply NoDup_snoc; [exact Hy|].
    intros H. apply inWardrobe_In in H. congruence.
Qed.

(** A continuation that leaves the busy flag on has suspended again. *)
Lemma resume_busy (k : Pending) (r : Settled) (s : AppState) :
  match resume getFriendlyErrorMessage k r s with
  | Return s1 | Throw s1 | UpdaterThrows s1 => isLoading s1 = false
  | Await s1 call _ => isGatewayCall call = true
  end.
Proof.
  destruct k as [c g|i g b|i g|c p prev]; destruct r as [v|err];
    unfold resume, regenerateCaught; try reflexivity.
  destruct (layerAt _ _); reflexivity.
Qed.

(** A continuation that suspends again has not touched the state. *)
Lemma resume_suspends (k : Pending) (r : Settled) (s : AppState) :
  match resume getFriendlyErrorMessage k r s with
  | Await s1 _ _ => s1 = s
  | _ => True
  end.
Proof.
  destruct k as [c g|i g b|i g|c p prev]; destruct r as [v|err];
    unfold resume, regenerateCaught; try exact I; try reflexivity.
  destruct (layerAt _ _); exact I.
Qed.

Lemma snoc_nonempty {A : Type} (l : list A) (x : A) : l ++ [x] <> [].
Proof. intros E. apply app_eq_nil in E as [_ E]. discriminate. Qed.

(** X2.  In every state the application reaches, whatever the interleaving,
    the wardrobe lists no garment id twice. *)
Theorem wardrobe_ids_unique (es : list Event) :
  wardrobeUnique (app (run getFriendlyErrorMessage initialSys es)).
Proof.
  apply (run_keeps getFriendlyErrorMessage wardrobeUnique).
  - apply step_wardrobeUnique.
  - constructor.
Qed.

End EveryRun.

(** ** Runs in which the session only changes between calls *)

Lemma capturedFits_same (k : Pending) (s s1 : AppState) :
  outfitHistory s1 = outfitHistory s ->
  currentOutfitIndex s1 = currentOutfitIndex s ->
  capturedFits k s -> capturedFits k s1.
Proof.
  intros Hh Hi. destruct k; cbn [capturedFits]; rewrite ?Hh, ?Hi; auto.
Qed.

Lemma slice0_all (h : History) (n : nat) :
  List.length h <= n -> slice0 h n = h.
Proof. intros Hn. unfold slice0. apply firstn_all2. exact Hn. Qed.

Lemma noHoles_snoc (h : History) (l : OutfitLayer) :
  noHoles h -> noHoles (h ++ [Layer l]).
Proof.
  unfold noHoles. intros Hh. apply Forall_app. split; [exact Hh|].
  constructor; [reflexivity|constructor].
Qed.

Lemma slice0_length (h : History) (n : nat) :
  n <= List.length h -> List.length (slice0 h n) = n.
Proof. intros Hn. unfold slice0. rewrite length_firstn. lia. Qed.

Lemma arraySet_length (a : History) (i : nat) (v : OutfitLayer) :
  List.length (arraySet a i v) = Nat.max (List.length a) (i + 1).
Proof.
  revert i. induction a as [|x a IH]; intros i.
  - induction i as [|i IHi]; simpl in *; [reflexivity|]. rewrite IHi. lia.
  - destruct i as [|i]; simpl; [lia|]. rewrite IH. lia.
Qed.

(** A dense history renders. *)
Lemma garmentIdsOf_noHoles (h : History) :
  noHoles h -> exists ids, garmentIdsOf h = Some ids.
Proof.
  unfold noHoles. induction h as [|x h IH]; intros H; simpl; [eauto|].
  inversion H as [|? ? Hx Hh]; subst.
  destruct x as [| |l]; try discriminate.
  destruct (IH Hh) as (ids & ->). simpl. eauto.
Qed.

Lemma noHoles_renders (s : AppState) :
  noHoles (outfitHistory s) -> renders s = true.
Proof.
  intros H. unfold renders, activeGarmentIds, activeOutfitLayers.
  destruct (garmentIdsOf_noHoles _ (noHoles_slice0 _ (currentOutfitIndex s + 1) H))
    as (ids & ->).
  reflexivity.
Qed.


Section TidyRuns.

Variable getFriendlyErrorMessage : string -> string -> string.


Lemma orderly_unmounted (s : AppState) (promises : list Pending)
    (fetches : list GarmentFetch) (u u' : bool) :
  orderly (mkSys s promises fetches u) -> orderly (mkSys s promises fetches u').
Proof. intros H. exact H. Qed.







End TidyRuns.

Lemma getProp_In_values (o : PoseImages) (k v : string) :
  getProp o k = Some v -> In v (objectValues o).
Proof.
  unfold objectValues. induction o as [|[k' v'] o IH]; simpl; [discriminate|].
  destruct (String.eqb k' k); [intros H; injection H as ->; auto|auto].
Qed.





Lemma traceCoatAgain_reaches :
  app (run sampleFriendlyMessage initialSys traceCoatAgain)
  = mkAppState (Some "img-front")
      [Layer (mkOutfitLayer None [(poseInstructionAt 0, "img-front")]);
       Layer (layerD "img-coat-again")]
      1 false "" None 0 true [coat]
  /\ callsOfRun sampleFriendlyMessage initialSys traceCoatAgain
     = [generateVirtualTryOnImage "img-front" "file-coat";
        urlToFile "blob:coat" "Coat";
        generateVirtualTryOnImage "img-front" "file-coat"].
Proof. split; reflexivity. Qed.

Section TidyProperties.

Variable getFriendlyErrorMessage : string -> string -> string.






(** No handler and no continuation puts a layer after the current
    position, whatever closure or captured index it runs with. *)
Lemma step_noRedo (y : Sys) (e : Event) :
  noRedo (app y) -> noRedo (app (step getFriendlyErrorMessage y e)).
Proof.
  apply (step_keeps getFriendlyErrorMessage noRedo); unfold noRedo.
  - intros u s _. cbn. lia.
  - intros s _. cbn. lia.
  - intros i s Hs. unfold handleRemoveLayer.
    destruct (isLoading s); [exact Hs|].
    destruct (i =? 0); [cbn; lia|].
    destruct (Nat.ltb_spec 0 i); cbn [andb]; [|exact Hs].
    destruct (Nat.ltb_spec i (List.length (outfitHistory s))); [|exact Hs].
    state_simpl. rewrite slice0_length; lia.
  - intros c m f g s Hs.
    destruct (handleGarmentSelectOf_shape c m f g s)
      as [->|[(_ & _ & _ & ->)|(_ & _ & b & _ & _ & ->)]];
      cbn [stateOf]; destruct m; state_simpl; lia.
  - intros i s Hs.
    destruct (handleRegenerateLayer_shape getFriendlyErrorMessage i s)
      as [->|[(_ & err & ->)|(_ & _ & l & g & p & b & _ & _ & _ & _ & ->)]];
      cbn [stateOf regenerateCaught]; state_simpl; exact Hs.
  - intros i s Hs.
    destruct (handlePoseSelect_shape i s)
      as [->|[->|[(_ & ->)|(_ & l & b & _ & _ & ->)]]];
      cbn [stateOf]; state_simpl; exact Hs.
  - intros k r s Hs.
    destruct k as [c g|i g b|i g|c p prev]; destruct r as [v|err];
      unfold resume, regenerateCaught; cbn [stateOf]; state_simpl;
      try exact Hs.
    + rewrite length_app, spread_length. unfold slice0.
      rewrite length_firstn. simpl. lia.
    + rewrite arraySet_length. unfold slice0. rewrite length_firstn. lia.
    + destruct (layerAt (outfitHistory s) c) as [l|] eqn:Hl;
        cbn [stateOf]; state_simpl; [|exact Hs].
      rewrite arraySet_length_in_range; rewrite spread_length; [exact Hs|].
      eapply layerAt_lt, Hl.
Qed.

(** A fetch in flight holds the render of an earlier state of the run. *)
Lemma step_fetching (y : Sys) (e : Event) (f : GarmentFetch) :
  In f (fetching (step getFriendlyErrorMessage y e)) ->
  In f (fetching y) \/ rendered f = app y.
Proof.
  unfold step, onScreen, settle. destruct (unmounted y).
  { destruct e as [u| |m f0 g|i|i|i|n r|m g|n r]; cbn [outcomeOf]; auto.
    - destruct (nth_error (inflight y) n); auto.
    - destruct (nth_error (fetching y) n); [|auto].
      cbn [fetching]. intros H. left. eapply removeNth_In, H. }
  destruct e as [u| |m f0 g|i|i|i|n r|m g|n r];
    cbn [outcomeOf mount fetching]; rewrite ?fetching_commit; auto.
  - destruct (nth_error (inflight y) n); [|auto].
    rewrite fetching_commit. auto.
  - destruct (activeGarmentIds (app y)); [|auto].
    destruct (handleGarmentClick _ _ _); auto.
    cbn [fetching]. intros H. apply in_app_or in H as [H|[<-|[]]]; auto.
  - destruct (nth_error (fetching y) n); [|auto].
    rewrite fetching_commit. intros H. left. eapply removeNth_In, H.
Qed.

Lemma step_noRedoRun (y : Sys) (e : Event) :
  noRedoRun y -> noRedoRun (step getFriendlyErrorMessage y e).
Proof.
  intros (Hs & Hf). split; [apply step_noRedo, Hs|].
  intros f Hin. destruct (step_fetching y e f Hin) as [H| ->]; auto.
Qed.

Lemma run_noRedo (es : list Event) (y : Sys) :
  noRedoRun y -> noRedoRun (run getFriendlyErrorMessage y es).
Proof.
  revert y. induction es as [|e es IH]; intros y Hy; [exact Hy|].
  apply IH, step_noRedoRun, Hy.
Qed.

Lemma noRedo_misses (c : AppState) (garmentInfo : WardrobeItem) :
  noRedo c ->
  reapplies (layerAt (outfitHistory c) (currentOutfitIndex c + 1)) garmentInfo
  = false.
Proof.
  intros H. rewrite layerAt_past_end; [reflexivity|exact H].
Qed.

(** What is rendered depends on the history and the position alone. *)
Lemma renders_same (s s1 : AppState) :
  outfitHistory s1 = outfitHistory s ->
  currentOutfitIndex s1 = currentOutfitIndex s ->
  renders s1 = renders s.
Proof.
  intros Hh Hi. unfold renders, activeGarmentIds, activeOutfitLayers.
  rewrite Hh, Hi. reflexivity.
Qed.

Lemma mount_accounted (s : AppState) (promises : list Pending)
    (fetches : list GarmentFetch) :
  (isLoading s = true -> promises <> []) ->
  (renders s = false -> isLoading s = false) ->
  accounted (mount s promises fetches).
Proof.
  intros Hb Hr. unfold accounted, mount. cbn [app inflight unmounted].
  split; [exact Hb|]. split; intros H.
  - apply Hr. destruct (renders s); [discriminate|reflexivity].
  - destruct (renders s); [reflexivity|discriminate].
Qed.

Lemma idle_accounted (s : AppState) (promises : list Pending)
    (fetches : list GarmentFetch) :
  isLoading s = false -> accounted (mount s promises fetches).
Proof.
  intros Hb. apply mount_accounted; [rewrite Hb; discriminate|auto].
Qed.

(** A handler that leaves history and position alone leaves the
    application mounted. *)
Lemma commit_accounted (y : Sys) (o : Outcome) (fetches : list GarmentFetch) :
  accounted y ->
  unmounted y = false ->
  outfitHistory (stateOf o) = outfitHistory (app y) ->
  currentOutfitIndex (stateOf o) = currentOutfitIndex (app y) ->
  match o with
  | Return s1 | Throw s1 => isLoading s1 = isLoading (app y)
  | Await _ _ _ => True
  | UpdaterThrows _ => False
  end ->
  accounted (commit o (inflight y) fetches).
Proof.
  intros (Hb & _ & Hr) Hu Hh Hi Ho.
  assert (Hre : renders (stateOf o) = true).
  { rewrite (renders_same (app y)); auto. }
  destruct o as [s1|s1 c k|s1|s1]; cbn [commit stateOf pendingAfter] in *;
    try contradiction;
    (apply mount_accounted; [|rewrite Hre; discriminate]).
  - rewrite Ho. exact Hb.
  - intros _. apply snoc_nonempty.
  - rewrite Ho. exact Hb.
Qed.

Lemma handleGarmentSelectOf_accounted (y : Sys) (c : AppState)
    (isMobile : bool) (garmentFile : File) (garmentInfo : WardrobeItem)
    (fetches : list GarmentFetch) :
  accounted y ->
  unmounted y = false ->
  noRedo c ->
  accounted
    (commit (handleGarmentSelectOf c isMobile garmentFile garmentInfo (app y))
       (inflight y) fetches).
Proof.
  intros Hy Hu Hc. apply commit_accounted; auto.
  - apply handleGarmentSelectOf_history.
  - destruct (handleGarmentSelectOf_shape c isMobile garmentFile garmentInfo
                (app y))
      as [->|[(_ & _ & Hhit & _)|(_ & _ & b & _ & _ & ->)]];
      [reflexivity| |destruct isMobile; reflexivity].
    rewrite noRedo_misses in Hhit; [discriminate|exact Hc].
  - destruct (handleGarmentSelectOf_shape c isMobile garmentFile garmentInfo
                (app y))
      as [->|[(_ & _ & Hhit & _)|(_ & _ & b & _ & _ & ->)]];
      [reflexivity| |exact I].
    rewrite noRedo_misses in Hhit; [discriminate|exact Hc].
Qed.

Lemma step_accounted (y : Sys) (e : Event) :
  noRedoRun y -> accounted y -> accounted (step getFriendlyErrorMessage y e).
Proof.
  intros (Hn & Hnf) Hy. pose proof Hy as (Hb & Hu & Hr).
  unfold step, onScreen, settle. destruct (unmounted y) eqn:Hun.
  { (* unmounted: the state is frozen, and it is idle *)
    specialize (Hu eq_refl).
    assert (Hfrozen : forall promises fetches,
              accounted (mkSys (app y) promises fetches true)).
    { intros promises fetches. unfold accounted.
      cbn [app inflight unmounted]. rewrite Hu.
      repeat split; auto; discriminate. }
    destruct e; cbn [outcomeOf]; try exact Hy;
      match goal with |- context [nth_error ?l ?n] =>
        destruct (nth_error l n) end; auto. }
  specialize (Hr eq_refl).
  destruct e as [u| |m f g|i|i|i|n r|m g|n r]; cbn [outcomeOf].
  - (* handleModelFinalized *)
    apply mount_accounted; [exact Hb|]. intros H. discriminate.
  - (* handleStartOver *)
    apply idle_accounted. reflexivity.
  - (* handleGarmentSelect *)
    apply (handleGarmentSelectOf_accounted y (app y)); auto.
  - (* handleRegenerateLayer *)
    apply commit_accounted; auto.
    + apply handleRegenerateLayer_history.
    + destruct (handleRegenerateLayer_shape getFriendlyErrorMessage i (app y))
        as [->|[(_ & err & ->)|(_ & _ & l & g & p & b & _ & _ & _ & _ & ->)]];
        reflexivity.
    + destruct (handleRegenerateLayer_shape getFriendlyErrorMessage i (app y))
        as [->|[(Hi & err & ->)|(_ & _ & l & g & p & b & _ & _ & _ & _ & ->)]];
        [reflexivity| |exact I].
      cbn [regenerateCaught]. state_simpl. symmetry. exact Hi.
  - (* handleRemoveLayer *)
    destruct (handleRemoveLayer_history i (app y))
      as [->|[(_ & _ & ->)|(_ & _ & _ & _ & Hidle)]].
    + apply mount_accounted; [exact Hb|]. rewrite Hr. discriminate.
    + apply idle_accounted. reflexivity.
    + apply idle_accounted. exact Hidle.
  - (* handlePoseSelect *)
    apply commit_accounted; auto.
    + apply handlePoseSelect_history.
    + destruct (handlePoseSelect_shape i (app y))
        as [->|[->|[(_ & ->)|(_ & l & b & _ & _ & ->)]]]; reflexivity.
    + destruct (handlePoseSelect_shape i (app y))
        as [->|[->|[(_ & ->)|(_ & l & b & _ & _ & ->)]]];
        try reflexivity; exact I.
  - (* a promise settles *)
    destruct (nth_error (inflight y) n) as [k|] eqn:Hk; [|exact Hy].
    pose proof (resume_busy getFriendlyErrorMessage k r (app y)) as Hc.
    pose proof (resume_suspends getFriendlyErrorMessage k r (app y)) as Hs.
    destruct (resume getFriendlyErrorMessage k r (app y))
      as [s1|s1 c k1|s1|s1]; cbn [commit stateOf pendingAfter].
    + apply idle_accounted, Hc.
    + rewrite Hs. apply mount_accounted.
      * intros _. apply snoc_nonempty.
      * rewrite Hr. discriminate.
    + apply idle_accounted, Hc.
    + unfold accounted. cbn [app inflight unmounted]. rewrite Hc.
      repeat split; auto; discriminate.
  - (* a click on a wardrobe item *)
    destruct (activeGarmentIds (app y)); [|exact Hy].
    destruct (handleGarmentClick _ _ _); try exact Hy.
    unfold accounted. cbn [app inflight unmounted].
    repeat split; auto; discriminate.
  - (* the file of a clicked item arrives *)
    destruct (nth_error (fetching y) n) as [f|] eqn:Hf; [|exact Hy].
    assert (Hin : In f (fetching y)) by (eapply nth_error_In; exact Hf).
    unfold onGarmentSelectOf.
    destruct (garmentClickSettled (clicked f) r) as [|c|msg|file item];
      cbn [commit stateOf pendingAfter];
      try (apply mount_accounted; [exact Hb|rewrite Hr; discriminate]).
    apply handleGarmentSelectOf_accounted; auto.
Qed.

Lemma run_accounted (es : list Event) (y : Sys) :
  noRedoRun y -> accounted y ->
  noRedoRun (run getFriendlyErrorMessage y es)
  /\ accounted (run getFriendlyErrorMessage y es).
Proof.
  revert y. induction es as [|e es IH]; intros y Hn Hy; [auto|].
  apply IH; [apply step_noRedoRun, Hn|apply step_accounted; assumption].
Qed.

(** X3.  The busy flag is never left on with nothing pending: in every state
    the application reaches, busy implies a promise in flight whose
    settling will turn it off. *)
Theorem busy_has_promise_in_flight (es : list Event) :
  isLoading (app (run getFriendlyErrorMessage initialSys es)) = true ->
  inflight (run getFriendlyErrorMessage initialSys es) <> []
  /\ forall n k r,
       nth_error (inflight (run getFriendlyErrorMessage initialSys es)) n
       = Some k ->
       match resume getFriendlyErrorMessage k r
               (app (run getFriendlyErrorMessage initialSys es)) with
       | Return s1 | Throw s1 | UpdaterThrows s1 => isLoading s1 = false
       | Await s1 call _ => isGatewayCall call = true
       end.
Proof.
  destruct (run_accounted es initialSys) as (_ & Hb & _).
  { split; [cbn; unfold noRedo; cbn; lia|intros f []]. }
  { unfold accounted. cbn. repeat split; auto; discriminate. }
  intros Hbusy. split; [apply Hb, Hbusy|].
  intros n k r _. apply resume_busy.
Qed.

(** X6.  In every state the application reaches, whatever the interleaving,
    no layer lies after the current position, so the reuse check of
    [handleGarmentSelect] never hits: a select-garment request, made by
    the current render or delivered to the closure a wardrobe click
    holds, is either dropped by the guard, leaving the state as it is, or
    goes to the try-on gateway with the image displayed in the render the
    handler belongs to. *)
Theorem garment_select_never_reuses (es : list Event)
    (isMobile : bool) (garmentFile : File) (garmentInfo : WardrobeItem) :
  List.length (outfitHistory (app (run getFriendlyErrorMessage initialSys es)))
  <= currentOutfitIndex (app (run getFriendlyErrorMessage initialSys es)) + 1
  /\ (handleGarmentSelect isMobile garmentFile garmentInfo
        (app (run getFriendlyErrorMessage initialSys es))
      = Return (app (run getFriendlyErrorMessage initialSys es))
      \/ exists base s1,
           displayImageUrl (app (run getFriendlyErrorMessage initialSys es))
           = Some base
           /\ handleGarmentSelect isMobile garmentFile garmentInfo
                (app (run getFriendlyErrorMessage initialSys es))
              = Await s1 (generateVirtualTryOnImage base garmentFile)
                  (GarmentSelectAwait
                     (currentOutfitIndex
                        (app (run getFriendlyErrorMessage initialSys es)))
                     garmentInfo))
  /\ forall fetch,
       In fetch (fetching (run getFriendlyErrorMessage initialSys es)) ->
       handleGarmentSelectOf (rendered fetch) isMobile garmentFile garmentInfo
         (app (run getFriendlyErrorMessage initialSys es))
       = Return (app (run getFriendlyErrorMessage initialSys es))
       \/ exists base s1,
            displayImageUrl (rendered fetch) = Some base
            /\ handleGarmentSelectOf (rendered fetch) isMobile garmentFile
                 garmentInfo
                 (app (run getFriendlyErrorMessage initialSys es))
               = Await s1 (generateVirtualTryOnImage base garmentFile)
                   (GarmentSelectAwait (currentOutfitIndex (rendered fetch))
                      garmentInfo).
Proof.
  destruct (run_noRedo es initialSys) as (Hs & Hf).
  { split; [cbn; unfold noRedo; cbn; lia|intros f []]. }
  assert (Hany : forall c s,
            noRedo c ->
            handleGarmentSelectOf c isMobile garmentFile garmentInfo s
            = Return s
            \/ exists base s1,
                 displayImageUrl c = Some base
                 /\ handleGarmentSelectOf c isMobile garmentFile garmentInfo s
                    = Await s1 (generateVirtualTryOnImage base garmentFile)
                        (GarmentSelectAwait (currentOutfitIndex c)
                           garmentInfo)).
  { intros c s Hc.
    destruct (handleGarmentSelectOf_shape c isMobile garmentFile garmentInfo s)
      as [E|[(_ & _ & Hr & _)|(_ & _ & base & Hd & _ & E)]].
    - left. exact E.
    - rewrite (noRedo_misses c garmentInfo Hc) in Hr. discriminate.
    - right. exists base. eexists. split; [exact Hd|exact E]. }
  split; [exact Hs|]. split.
  - apply (Hany _ _ Hs).
  - intros fetch Hin. apply Hany, Hf, Hin.
Qed.

End TidyProperties.






(** ** How the transitions compose *)

Lemma filterBoolean_In (l : list (option string)) (v : string) :
  In v (filterBoolean l) <-> In (Some v) l /\ v <> ""%string.
Proof.
  induction l as [|x l IH]; simpl; [tauto|].
  destruct x as [w|]; simpl.
  - destruct (String.eqb_spec w ""); simpl; rewrite IH.
    + split; [tauto|]. intros [[H|H] Hv]; [congruence|tauto].
    + split.
      * intros [->|H]; [auto|tauto].
      * intros [[H|H] Hv]; [left; congruence|tauto].
  - rewrite IH. split; [tauto|]. intros [[H|H] Hv]; [discriminate|tauto].
Qed.

Lemma garmentIdsOf_In (h : History) (ids : list (option string))
    (l : OutfitLayer) (g : WardrobeItem) :
  garmentIdsOf h = Some ids ->
  In (Layer l) h -> garment l = Some g -> In (Some (id g)) ids.
Proof.
  revert ids. induction h as [|x h IH]; intros ids Hids Hin Hg; [destruct Hin|].
  destruct x as [| |l0]; simpl in Hids.
  - destruct Hin as [Hin|Hin]; [discriminate|]. eapply IH; eauto.
  - discriminate.
  - destruct (garmentIdsOf h) as [rest|]; [|discriminate].
    injection Hids as <-. destruct Hin as [Hin|Hin].
    + injection Hin as ->. rewrite Hg. left. reflexivity.
    + right. eapply IH; eauto.
Qed.

Lemma arraySet_slice0_last (h : History) (i : nat) (v : OutfitLayer) :
  i < List.length h ->
  arraySet (slice0 h (i + 1)) i v = slice0 h i ++ [Layer v].
Proof.
  intros Hi. rewrite arraySet_in_range by (rewrite slice0_length; lia).
  unfold slice0. rewrite firstn_firstn, Nat.min_l by lia.
  rewrite skipn_all2; [reflexivity|]. rewrite length_firstn. lia.
Qed.

Section Compositions.

Variable getFriendlyErrorMessage : string -> string -> string.

(** X8.  Every layer of every history the application reaches, whatever the
    interleaving, has a pose map that is not empty and lists the default
    pose first, so the first image of a layer is its default-pose image. *)
Theorem every_layer_starts_with_default_pose
    (es : list Event) (l : OutfitLayer) :
  In (Layer l) (outfitHistory (app (run getFriendlyErrorMessage initialSys es))) ->
  poseImages l <> []
  /\ hd_error (objectKeys (poseImages l)) = Some (poseInstructionAt 0)
  /\ exists img,
       firstPoseImage l = Some img
       /\ getProp (poseImages l) (poseInstructionAt 0) = Some img.
Proof.
  intros Hl.
  pose proof (reachable_layersDefaultFirst getFriendlyErrorMessage es l Hl)
    as Hd.
  pose proof (defaultPoseFirst_firstPoseImage l Hd) as Hf.
  destruct Hd as (v & rest & Hv).
  split; [rewrite Hv; discriminate|].
  split; [rewrite Hv; reflexivity|].
  exists v. split; [|rewrite <- Hf]; unfold firstPoseImage; rewrite Hv;
    reflexivity.
Qed.

(** X9.  A regenerate request on a valid layer fetches the garment's file,
    then calls the try-on gateway on the first image of the layer below;
    when both succeed the history is the layers below followed by a fresh
    layer for the same garment with only the new default-pose image, the
    position is the regenerated index, the pose selector is 0, and the
    layers below and the wardrobe are untouched. *)
Theorem regenerate_success_replaces_layer
    (s : AppState) (layerIndex : nat) (layer previousLayer : OutfitLayer)
    (garmentInfo : WardrobeItem) (base garmentFile newImageUrl : string) :
  isLoading s = false ->
  1 <= layerIndex < List.length (outfitHistory s) ->
  layerAt (outfitHistory s) layerIndex = Some layer ->
  garment layer = Some garmentInfo ->
  layerAt (outfitHistory s) (layerIndex - 1) = Some previousLayer ->
  firstPoseImage previousLayer = Some base ->
  base <> ""%string ->
  exists s1 s3,
    handleRegenerateLayer getFriendlyErrorMessage layerIndex s
    = Await s1 (urlToFile (url garmentInfo) (name garmentInfo))
        (RegenerateAwaitFile layerIndex garmentInfo base)
    /\ resume getFriendlyErrorMessage
         (RegenerateAwaitFile layerIndex garmentInfo base)
         (Fulfilled garmentFile) s1
       = Await s1 (generateVirtualTryOnImage base garmentFile)
           (RegenerateAwaitTryOn layerIndex garmentInfo)
    /\ resume getFriendlyErrorMessage
         (RegenerateAwaitTryOn layerIndex garmentInfo)
         (Fulfilled newImageUrl) s1
       = Return s3
    /\ outfitHistory s3
       = slice0 (outfitHistory s) layerIndex
         ++ [Layer (mkOutfitLayer (Some garmentInfo)
                     [(poseInstructionAt 0, newImageUrl)])]
    /\ (forall j, j < layerIndex ->
          layerAt (outfitHistory s3) j = layerAt (outfitHistory s) j)
    /\ currentOutfitIndex s3 = layerIndex
    /\ currentPoseIndex s3 = 0
    /\ isLoading s3 = false
    /\ error s3 = None
    /\ wardrobe s3 = wardrobe s
    /\ displayImageUrl s3 = Some newImageUrl.
Proof.
  intros Hb Hi Hl Hg Hp Hf Hne.
  assert (Hreq : handleRegenerateLayer getFriendlyErrorMessage layerIndex s
                 = Await
                     (setLoading true "Đang tạo lại thử đồ..." (setError None s))
                     (urlToFile (url garmentInfo) (name garmentInfo))
                     (RegenerateAwaitFile layerIndex garmentInfo base)).
  { unfold handleRegenerateLayer.
    rewrite Hb, Hl, Hg, Hp, Hf, (truthy_of_nonempty _ Hne).
    destruct (Nat.ltb_spec layerIndex 1); [lia|].
    destruct (Nat.leb_spec (List.length (outfitHistory s)) layerIndex); [lia|].
    reflexivity. }
  do 2 eexists. split; [exact Hreq|]. split; [reflexivity|].
  split; [reflexivity|]. state_simpl.
  assert (Hh : arraySet (slice0 (outfitHistory s) (layerIndex + 1)) layerIndex
                 (mkOutfitLayer (Some garmentInfo)
                    [(poseInstructionAt 0, newImageUrl)])
               = slice0 (outfitHistory s) layerIndex
                 ++ [Layer (mkOutfitLayer (Some garmentInfo)
                             [(poseInstructionAt 0, newImageUrl)])])
    by (apply arraySet_slice0_last; lia).
  split; [exact Hh|]. split; [|repeat split].
  - intros j Hj. rewrite <- (layerAt_slice0 (outfitHistory s) (layerIndex + 1))
      by lia.
    apply layerAt_arraySet_other. lia.
  - unfold displayImageUrl. state_simpl.
    rewrite layerAt_arraySet_same.
    destruct (arraySet _ _ _) eqn:E; [destruct (arraySet_nonempty _ _ _ E)|].
    cbn [poseImages getProp]. rewrite String.eqb_refl. reflexivity.
Qed.

(** X10.  When a regenerate request fails, at the file fetch or at the try-on
    call, the history, the position, the pose selector and the wardrobe
    are those before the request, the error message is set and busy is
    off. *)
Theorem regenerate_failure_changes_nothing
    (s s1 : AppState) (layerIndex : nat) (call : ExternalCall) (k : Pending)
    (err garmentFile : string) :
  handleRegenerateLayer getFriendlyErrorMessage layerIndex s = Await s1 call k ->
  (exists s2,
     resume getFriendlyErrorMessage k (Rejected err) s1 = Return s2
     /\ outfitHistory s2 = outfitHistory s
     /\ currentOutfitIndex s2 = currentOutfitIndex s
     /\ currentPoseIndex s2 = currentPoseIndex s
     /\ wardrobe s2 = wardrobe s
     /\ error s2
        = Some (getFriendlyErrorMessage err "Không thể tạo lại trang phục")
     /\ isLoading s2 = false)
  /\ exists call2 k2 s3,
       resume getFriendlyErrorMessage k (Fulfilled garmentFile) s1
       = Await s1 call2 k2
       /\ isGatewayCall call2 = true
       /\ resume getFriendlyErrorMessage k2 (Rejected err) s1 = Return s3
       /\ outfitHistory s3 = outfitHistory s
       /\ currentOutfitIndex s3 = currentOutfitIndex s
       /\ currentPoseIndex s3 = currentPoseIndex s
       /\ wardrobe s3 = wardrobe s
       /\ error s3
          = Some (getFriendlyErrorMessage err "Không thể tạo lại trang phục")
       /\ isLoading s3 = false.
Proof.
  intros H.
  destruct (handleRegenerateLayer_shape getFriendlyErrorMessage layerIndex s)
    as [E|[(_ & e & E)|(_ & _ & l & g & p & b & _ & _ & _ & _ & E)]];
    rewrite E in H; try discriminate.
  injection H as <- <- <-. split.
  - eexists. split; [reflexivity|]. repeat split.
  - do 3 eexists. split; [reflexivity|]. split; [reflexivity|].
    split; [reflexivity|]. repeat split.
Qed.

(** X11.  On a history without holes, when a pose generation succeeds the
    new image is stored under the target pose on the active layer and is
    the image displayed; the application renders; the selector is the
    target, the other poses of the layer and the other layers are
    untouched; and if the image is not empty, selecting that pose again
    later from any other pose is a cache hit that calls nothing. *)
Theorem pose_success_caches_and_shows
    (s s1 : AppState) (newIndex : nat) (call : ExternalCall) (k : Pending)
    (newImageUrl : string) :
  noHoles (outfitHistory s) ->
  handlePoseSelect newIndex s = Await s1 call k ->
  exists activeLayer s2,
    layerAt (outfitHistory s) (currentOutfitIndex s) = Some activeLayer
    /\ resume getFriendlyErrorMessage k (Fulfilled newImageUrl) s1 = Return s2
    /\ renders s2 = true
    /\ layerAt (outfitHistory s2) (currentOutfitIndex s)
       = Some (mkOutfitLayer (garment activeLayer)
                 (setProp (poseImages activeLayer) (poseInstructionAt newIndex)
                    newImageUrl))
    /\ getProp
         (setProp (poseImages activeLayer) (poseInstructionAt newIndex)
            newImageUrl)
         (poseInstructionAt newIndex)
       = Some newImageUrl
    /\ (forall p, p <> poseInstructionAt newIndex ->
          getProp
            (setProp (poseImages activeLayer) (poseInstructionAt newIndex)
               newImageUrl) p
          = getProp (poseImages activeLayer) p)
    /\ (forall j, j <> currentOutfitIndex s ->
          layerAt (outfitHistory s2) j = layerAt (outfitHistory s) j)
    /\ List.length (outfitHistory s2) = List.length (outfitHistory s)
    /\ currentOutfitIndex s2 = currentOutfitIndex s
    /\ currentPoseIndex s2 = newIndex
    /\ isLoading s2 = false
    /\ error s2 = None
    /\ displayImageUrl s2 = Some newImageUrl
    /\ (newImageUrl <> ""%string ->
        forall other,
          other <> newIndex ->
          handlePoseSelect newIndex (setCurrentPoseIndex other s2)
          = Return s2).
Proof.
  intros Hdense H.
  destruct (handlePoseSelect_shape newIndex s)
    as [E|[E|[(_ & E)|(Hb & l & b & Hl & _ & E)]]];
    rewrite E in H; try discriminate.
  injection H as <- <- <-.
  exists l. unfold resume. state_simpl. rewrite Hl.
  rewrite (spread_noHoles _ Hdense).
  eexists. split; [reflexivity|]. split; [reflexivity|]. state_simpl.
  pose proof (layerAt_lt _ _ _ Hl) as Hlt.
  assert (Hne : arraySet (outfitHistory s) (currentOutfitIndex s)
                  (mkOutfitLayer (garment l)
                     (setProp (poseImages l) (poseInstructionAt newIndex)
                        newImageUrl)) <> []) by apply arraySet_nonempty.
  assert (Hd : displayImageUrl
                 (setLoading false ""
                    (setOutfitHistory
                       (arraySet (outfitHistory s) (currentOutfitIndex s)
                          (mkOutfitLayer (garment l)
                             (setProp (poseImages l)
                                (poseInstructionAt newIndex) newImageUrl)))
                       (setCurrentPoseIndex newIndex
                          (setLoading true "Đang đổi dáng..."
                             (setError None s)))))
               = Some newImageUrl).
  { unfold displayImageUrl. state_simpl. rewrite layerAt_arraySet_same.
    destruct (arraySet _ _ _); [contradiction|].
    cbn [poseImages]. rewrite getProp_setProp_same. reflexivity. }
  split.
  { apply noHoles_renders. state_simpl.
    apply arraySet_noHoles; assumption. }
  split; [apply layerAt_arraySet_same|].
  split; [apply getProp_setProp_same|].
  split; [intros p Hp; apply getProp_setProp_other; exact Hp|].
  split; [intros j Hj; apply layerAt_arraySet_other; congruence|].
  split; [apply arraySet_length_in_range; exact Hlt|].
  do 4 (split; [reflexivity|]). split; [exact Hd|].
  intros Himg other Ho. unfold handlePoseSelect. state_simpl.
  rewrite layerAt_arraySet_same. cbn [poseImages].
  rewrite getProp_setProp_same, (truthy_of_nonempty _ Himg).
  destruct (arraySet _ _ _); [contradiction|].
  apply Nat.eqb_neq in Ho. rewrite (Nat.eqb_sym newIndex other), Ho.
  reflexivity.
Qed.

(** X12.  Removing a layer at index 1 or above a second time changes nothing
    more; an index at or past the end of the history is ignored; an index
    in range leaves exactly the layers below it, with the position on the
    last of them and the pose selector at 0. *)
Theorem remove_layer_twice_is_once (s : AppState) (layerIndex : nat) :
  1 <= layerIndex ->
  handleRemoveLayer layerIndex (handleRemoveLayer layerIndex s)
  = handleRemoveLayer layerIndex s
  /\ (List.length (outfitHistory s) <= layerIndex ->
      handleRemoveLayer layerIndex s = s)
  /\ (isLoading s = false ->
      layerIndex < List.length (outfitHistory s) ->
      outfitHistory (handleRemoveLayer layerIndex s)
      = slice0 (outfitHistory s) layerIndex
      /\ List.length (outfitHistory (handleRemoveLayer layerIndex s))
         = layerIndex
      /\ currentOutfitIndex (handleRemoveLayer layerIndex s) = layerIndex - 1
      /\ currentPoseIndex (handleRemoveLayer layerIndex s) = 0
      /\ wardrobe (handleRemoveLayer layerIndex s) = wardrobe s
      /\ error (handleRemoveLayer layerIndex s) = error s).
Proof.
  intros Hi.
  assert (Hout : forall s0, List.length (outfitHistory s0) <= layerIndex ->
                 handleRemoveLayer layerIndex s0 = s0).
  { intros s0 Hlen. unfold handleRemoveLayer.
    destruct (isLoading s0); [reflexivity|].
    destruct (Nat.eqb_spec layerIndex 0); [lia|].
    destruct (Nat.ltb_spec layerIndex (List.length (outfitHistory s0)));
      [lia|]. rewrite andb_false_r. reflexivity. }
  assert (Hin : isLoading s = false ->
                layerIndex < List.length (outfitHistory s) ->
                handleRemoveLayer layerIndex s
                = setCurrentPoseIndex 0
                    (setCurrentOutfitIndex (layerIndex - 1)
                       (setOutfitHistory
                          (slice0 (outfitHistory s) layerIndex) s))).
  { intros Hb Hlt. unfold handleRemoveLayer. rewrite Hb.
    destruct (Nat.eqb_spec layerIndex 0); [lia|].
    destruct (Nat.ltb_spec 0 layerIndex); [|lia].
    destruct (Nat.ltb_spec layerIndex (List.length (outfitHistory s)));
      [reflexivity|lia]. }
  split; [|split; [apply Hout|]].
  - destruct (isLoading s) eqn:Hb.
    + unfold handleRemoveLayer. rewrite Hb. state_simpl. rewrite Hb.
      reflexivity.
    + destruct (Nat.ltb_spec layerIndex (List.length (outfitHistory s)))
        as [Hlt|Hge].
      * rewrite (Hin eq_refl Hlt). apply Hout. state_simpl.
        rewrite slice0_length; lia.
      * rewrite (Hout s Hge). apply Hout, Hge.
  - intros Hb Hlt. rewrite (Hin Hb Hlt). state_simpl.
    repeat split. apply slice0_length. lia.
Qed.

(** X13.  On a history without holes, when a select-garment call succeeds
    the application renders, the garment is in the wardrobe afterwards,
    nothing that was in the wardrobe is lost, and a garment already there
    is not added again.  When the request was made on the last layer the
    history grows by exactly the new layer, the new image is the one
    displayed, and the garment's id (if not empty) is among the active
    garment ids. *)
Theorem try_on_success_adds_layer_and_garment
    (isMobile : bool) (garmentFile : File) (garmentInfo : WardrobeItem)
    (s s1 : AppState) (call : ExternalCall) (k : Pending)
    (newImageUrl : string) :
  noHoles (outfitHistory s) ->
  handleGarmentSelect isMobile garmentFile garmentInfo s = Await s1 call k ->
  exists s2,
    resume getFriendlyErrorMessage k (Fulfilled newImageUrl) s1 = Return s2
    /\ renders s2 = true
    /\ inWardrobe (wardrobe s2) garmentInfo = true
    /\ (forall item, In item (wardrobe s) -> In item (wardrobe s2))
    /\ (inWardrobe (wardrobe s) garmentInfo = true -> wardrobe s2 = wardrobe s)
    /\ currentPoseIndex s2 = 0
    /\ isLoading s2 = false
    /\ error s2 = None
    /\ (outfitHistory s <> [] ->
        currentOutfitIndex s + 1 = List.length (outfitHistory s) ->
        outfitHistory s2
        = outfitHistory s
          ++ [Layer (mkOutfitLayer (Some garmentInfo)
                       [(poseInstructionAt 0, newImageUrl)])]
        /\ currentOutfitIndex s2 + 1 = List.length (outfitHistory s2)
        /\ displayImageUrl s2 = Some newImageUrl
        /\ (id garmentInfo <> ""%string ->
            exists ids,
              activeGarmentIds s2 = Some ids /\ In (id garmentInfo) ids)).
Proof.
  intros Hdense H.
  destruct (handleGarmentSelect_shape isMobile garmentFile garmentInfo s)
    as [E|[(_ & Hr)|(Hb & base & s0 & Hd & E & Hi & Hw & _)]].
  - rewrite E in H. discriminate.
  - unfold handleGarmentSelect in H. rewrite Hr in H.
    destruct (_ || _); [discriminate|].
    destruct (displayImageUrl s); discriminate.
  - pose proof (handleGarmentSelect_history isMobile garmentFile garmentInfo s)
      as Hh.
    rewrite H in E, Hh. injection E as -> -> ->. cbn [stateOf] in Hh.
    unfold resume. eexists. split; [reflexivity|]. state_simpl.
    rewrite Hh, Hi, Hw.
    rewrite (spread_noHoles _ (noHoles_slice0 _ _ Hdense)).
    assert (He : error s0 = None).
    { unfold handleGarmentSelect in H.
      destruct (_ || _); [discriminate|].
      destruct (displayImageUrl s); [|discriminate].
      destruct (reapplies _ _); [discriminate|].
      injection H as <- _. reflexivity. }
    split.
    { apply noHoles_renders. state_simpl.
      apply noHoles_snoc, noHoles_slice0, Hdense. }
    split; [|split; [|split; [|split; [reflexivity|split;
      [reflexivity|split; [exact He|]]]]]].
    + destruct (inWardrobe (wardrobe s) garmentInfo) eqn:Ew; [exact Ew|].
      apply inWardrobe_In. rewrite map_app, in_app_iff. right. simpl. auto.
    + intros item Hin. destruct (inWardrobe _ _); [exact Hin|].
      apply in_or_app. auto.
    + intros ->. reflexivity.
    + intros Hne Hlast.
      rewrite slice0_all by lia.
      assert (Hat : layerAt
                      (outfitHistory s
                       ++ [Layer (mkOutfitLayer (Some garmentInfo)
                                    [(poseInstructionAt 0, newImageUrl)])])
                      (currentOutfitIndex s + 1)
                    = Some (mkOutfitLayer (Some garmentInfo)
                              [(poseInstructionAt 0, newImageUrl)])).
      { unfold layerAt. rewrite nth_error_app2 by lia.
        replace (currentOutfitIndex s + 1 - List.length (outfitHistory s))
          with 0 by lia. reflexivity. }
      split; [reflexivity|]. split; [rewrite length_app; simpl; lia|]. split.
      * unfold displayImageUrl. state_simpl. rewrite Hat.
        destruct (outfitHistory s ++ _) eqn:E;
          [apply app_eq_nil in E as [_ E]; discriminate|].
        cbn [poseImages getProp]. rewrite String.eqb_refl. reflexivity.
      * intros Hid. unfold activeGarmentIds, activeOutfitLayers. state_simpl.
        rewrite slice0_all by (rewrite length_app; simpl; lia).
        destruct (garmentIdsOf_noHoles _ (noHoles_snoc _
                    (mkOutfitLayer (Some garmentInfo)
                       [(poseInstructionAt 0, newImageUrl)]) Hdense))
          as (ids & Hids).
        rewrite Hids. cbn [option_map]. eexists. split; [reflexivity|].
        apply filterBoolean_In. split; [|exact Hid].
        apply (garmentIdsOf_In _ _
                 (mkOutfitLayer (Some garmentInfo)
                    [(poseInstructionAt 0, newImageUrl)])
                 garmentInfo Hids); [|reflexivity].
        apply in_or_app. right. left. reflexivity.
Qed.

End Compositions.

Lemma busy_has_promise_in_flight_witness :
  isLoading (app (run sampleFriendlyMessage initialSys traceBusy)) = true
  /\ inflight (run sampleFriendlyMessage initialSys traceBusy) <> [].
Proof.
  split; [reflexivity|].
  exact (proj1 (busy_has_promise_in_flight sampleFriendlyMessage traceBusy
                  eq_refl)).
Defined.

Lemma every_layer_starts_with_default_pose_witness :
  In (Layer layerTwoPoses)
    (outfitHistory (app (run sampleFriendlyMessage initialSys traceDressed)))
  /\ poseImages layerTwoPoses <> []
  /\ hd_error (objectKeys (poseImages layerTwoPoses))
     = Some (poseInstructionAt 0)
  /\ exists img,
       firstPoseImage layerTwoPoses = Some img
       /\ getProp (poseImages layerTwoPoses) (poseInstructionAt 0) = Some img.
Proof.
  split; [left; reflexivity|].
  apply (every_layer_starts_with_default_pose sampleFriendlyMessage
           traceDressed layerTwoPoses).
  left. reflexivity.
Defined.

Lemma regenerate_success_replaces_layer_witness :
  layerAt (outfitHistory stateDressed) 0 = Some layerTwoPoses
  /\ exists s1 s3,
       handleRegenerateLayer sampleFriendlyMessage 1 stateDressed
       = Await s1 (urlToFile (url shirt) (name shirt))
           (RegenerateAwaitFile 1 shirt "img-front")
       /\ resume sampleFriendlyMessage
            (RegenerateAwaitFile 1 shirt "img-front")
            (Fulfilled "file-shirt") s1
          = Await s1 (generateVirtualTryOnImage "img-front" "file-shirt")
              (RegenerateAwaitTryOn 1 shirt)
       /\ resume sampleFriendlyMessage (RegenerateAwaitTryOn 1 shirt)
            (Fulfilled "img-new") s1
          = Return s3
       /\ outfitHistory s3
          = slice0 (outfitHistory stateDressed) 1
            ++ [Layer (mkOutfitLayer (Some shirt)
                        [(poseInstructionAt 0, "img-new")])]
       /\ (forall j, j < 1 ->
             layerAt (outfitHistory s3) j
             = layerAt (outfitHistory stateDressed) j)
       /\ currentOutfitIndex s3 = 1
       /\ currentPoseIndex s3 = 0
       /\ isLoading s3 = false
       /\ error s3 = None
       /\ wardrobe s3 = wardrobe stateDressed
       /\ displayImageUrl s3 = Some "img-new".
Proof.
  split; [reflexivity|].
  apply (regenerate_success_replaces_layer sampleFriendlyMessage stateDressed 1
           (mkOutfitLayer (Some shirt) [(poseInstructionAt 0, "img-worn")])
           layerTwoPoses shirt "img-front" "file-shirt" "img-new");
    try reflexivity.
  - simpl. lia.
  - discriminate.
Defined.

Lemma regenerate_failure_changes_nothing_witness :
  handleRegenerateLayer sampleFriendlyMessage 1 stateDressed
  = Await
      (setLoading true "Đang tạo lại thử đồ..." (setError None stateDressed))
      (urlToFile "blob:shirt" "Shirt")
      (RegenerateAwaitFile 1 shirt "img-front")
  /\ exists s2,
       resume sampleFriendlyMessage (RegenerateAwaitFile 1 shirt "img-front")
         (Rejected "offline")
         (setLoading true "Đang tạo lại thử đồ..." (setError None stateDressed))
       = Return s2
       /\ outfitHistory s2 = outfitHistory stateDressed
       /\ currentOutfitIndex s2 = currentOutfitIndex stateDressed
       /\ currentPoseIndex s2 = currentPoseIndex stateDressed
       /\ wardrobe s2 = wardrobe stateDressed
       /\ error s2
          = Some (sampleFriendlyMessage "offline" "Không thể tạo lại trang phục")
       /\ isLoading s2 = false.
Proof.
  split; [reflexivity|].
  exact (proj1 (regenerate_failure_changes_nothing sampleFriendlyMessage
                  stateDressed _ 1 _ _ "offline" "file-shirt" eq_refl)).
Defined.

Lemma stateDressed_dense : noHoles (outfitHistory stateDressed).
Proof. repeat constructor. Qed.

Lemma pose_success_caches_and_shows_witness :
  noHoles (outfitHistory stateDressed)
  /\ handlePoseSelect 2 stateDressed
     = Await
         (setCurrentPoseIndex 2
            (setLoading true "Đang đổi dáng..." (setError None stateDressed)))
         (generatePoseVariation "img-worn" (poseInstructionAt 2))
         (PoseSelectAwait 1 (poseInstructionAt 2) 0)
  /\ exists s2,
       resume sampleFriendlyMessage (PoseSelectAwait 1 (poseInstructionAt 2) 0)
         (Fulfilled "img-side")
         (setCurrentPoseIndex 2
            (setLoading true "Đang đổi dáng..." (setError None stateDressed)))
       = Return s2
       /\ renders s2 = true
       /\ currentPoseIndex s2 = 2
       /\ displayImageUrl s2 = Some "img-side"
       /\ handlePoseSelect 2 (setCurrentPoseIndex 0 s2) = Return s2.
Proof.
  split; [exact stateDressed_dense|]. split; [reflexivity|].
  destruct (pose_success_caches_and_shows sampleFriendlyMessage stateDressed _
              2 _ _ "img-side" stateDressed_dense eq_refl)
    as (l & s2 & _ & Hr & Hv & _ & _ & _ & _ & _ & _ & Hp & _ & _ & Hd & Hc).
  exists s2. split; [exact Hr|]. split; [exact Hv|]. split; [exact Hp|].
  split; [exact Hd|]. apply Hc; discriminate.
Defined.

Lemma remove_layer_twice_is_once_witness :
  1 <= 1
  /\ handleRemoveLayer 1 (handleRemoveLayer 1 stateAB)
     = handleRemoveLayer 1 stateAB
  /\ outfitHistory (handleRemoveLayer 1 stateAB) = [Layer layerA].
Proof.
  split; [exact (le_n 1)|].
  split; [|reflexivity].
  exact (proj1 (remove_layer_twice_is_once stateAB 1 (le_n 1))).
Defined.

Lemma try_on_success_adds_layer_and_garment_witness :
  noHoles (outfitHistory stateDressed)
  /\ handleGarmentSelect false "file" coat stateDressed
     = Await (setLoading true "Đang thêm Coat..." (setError None stateDressed))
         (generateVirtualTryOnImage "img-worn" "file")
         (GarmentSelectAwait 1 coat)
  /\ inWardrobe (wardrobe stateDressed) coat = false
  /\ exists s2,
       resume sampleFriendlyMessage (GarmentSelectAwait 1 coat)
         (Fulfilled "img-coat")
         (setLoading true "Đang thêm Coat..." (setError None stateDressed))
       = Return s2
       /\ renders s2 = true
       /\ inWardrobe (wardrobe s2) coat = true
       /\ outfitHistory s2
          = outfitHistory stateDressed ++ [Layer (layerD "img-coat")]
       /\ displayImageUrl s2 = Some "img-coat"
       /\ exists ids, activeGarmentIds s2 = Some ids /\ In (id coat) ids.
Proof.
  split; [exact stateDressed_dense|].
  split; [reflexivity|]. split; [reflexivity|].
  destruct (try_on_success_adds_layer_and_garment sampleFriendlyMessage false
              "file" coat stateDressed _ _ _ "img-coat" stateDressed_dense
              eq_refl)
    as (s2 & Hr & Hv & Hw & _ & _ & _ & _ & _ & Hlast).
  destruct Hlast as (Hh & _ & Hd & Ha); [discriminate|reflexivity|].
  exists s2. split; [exact Hr|]. split; [exact Hv|]. split; [exact Hw|].
  split; [exact Hh|]. split; [exact Hd|]. apply Ha. discriminate.
Defined.

(** * Pose navigation *)

Lemma indexOf_nth_error (l : list string) (x : string) (i : nat) :
  indexOf l x = Some i -> nth_error l i = Some x.
Proof.
  revert i. induction l as [|y l IH]; intros i; simpl; [discriminate|].
  destruct (String.eqb_spec y x) as [->|Hn].
  - intros H. injection H as <-. reflexivity.
  - destruct (indexOf l x) as [j|]; simpl; [|discriminate].
    intros H. injection H as <-. simpl. apply IH. reflexivity.
Qed.

Lemma indexOf_lt (l : list string) (x : string) (i : nat) :
  indexOf l x = Some i -> i < List.length l.
Proof.
  intros H. apply nth_error_Some. rewrite (indexOf_nth_error _ _ _ H).
  discriminate.
Qed.

Lemma indexOf_NoDup (l : list string) (x : string) (i : nat) :
  NoDup l -> nth_error l i = Some x -> indexOf l x = Some i.
Proof.
  revert i. induction l as [|y l IH]; intros i Hl Hi.
  - destruct i; discriminate.
  - inversion Hl as [|? ? Hy Hl']; subst. destruct i as [|i]; simpl in *.
    + injection Hi as ->. rewrite String.eqb_refl. reflexivity.
    + destruct (String.eqb_spec y x) as [->|Hn].
      * exfalso. apply Hy. eapply nth_error_In. exact Hi.
      * rewrite (IH i Hl' Hi). reflexivity.
Qed.

Lemma In_objectKeys_getProp (o : PoseImages) (k : string) :
  In k (objectKeys o) -> exists v, getProp o k = Some v.
Proof.
  unfold objectKeys. induction o as [|[k' v'] o IH]; simpl; [tauto|].
  destruct (String.eqb_spec k' k) as [->|Hn]; [eauto|].
  intros [H|H]; [congruence|auto].
Qed.

Lemma poseInstructionAt_nth_error (g : nat) (k : string) :
  nth_error POSE_INSTRUCTIONS g = Some k -> poseInstructionAt g = k.
Proof.
  intros H. unfold poseInstructionAt. apply nth_error_nth. exact H.
Qed.

Lemma POSE_INSTRUCTIONS_NoDup : NoDup POSE_INSTRUCTIONS.
Proof.
  unfold POSE_INSTRUCTIONS.
  repeat (constructor; [simpl; intuition discriminate|]). constructor.
Qed.

Lemma selectModulo_in_range (a n : nat) :
  n <> 0 -> exists i, selectModulo a n = SelectPose i /\ i < n.
Proof.
  intros Hn. unfold selectModulo.
  destruct (Nat.eqb_spec n 0); [contradiction|].
  eexists. split; [reflexivity|]. apply Nat.mod_upper_bound. exact Hn.
Qed.

Lemma selectKeyAt_in_range (avail poses : list string) (i : nat) :
  match selectKeyAt avail poses i with
  | SelectPose g =>
      g < List.length poses
      /\ exists k, nth_error avail i = Some k /\ nth_error poses g = Some k
  | NoRequest => True
  | SelectNaN => False
  end.
Proof.
  unfold selectKeyAt, indexOfMaybe.
  destruct (nth_error avail i) as [k|]; [|exact I].
  destruct (indexOf poses k) as [g|] eqn:Hg; [|exact I].
  split; [eapply indexOf_lt; eassumption|].
  exists k. split; [reflexivity|]. apply indexOf_nth_error. exact Hg.
Qed.

(** X14.  With a non-empty list of pose instructions, the previous and next
    buttons only ever ask for an index inside that list, never for NaN or
    an index past its end; and both do nothing while loading. *)
Theorem pose_navigation_stays_in_range
    (loading : bool) (avail poses : list string) (cur : nat) :
  poses <> [] ->
  match handlePreviousPose loading avail poses cur with
  | SelectPose g => g < List.length poses
  | NoRequest => True
  | SelectNaN => False
  end
  /\ match handleNextPose loading avail poses cur with
     | SelectPose g => g < List.length poses
     | NoRequest => True
     | SelectNaN => False
     end
  /\ handlePreviousPose true avail poses cur = NoRequest
  /\ handleNextPose true avail poses cur = NoRequest
  /\ (List.length avail <= 1 ->
      handlePreviousPose loading avail poses cur = NoRequest).
Proof.
  intros Hne.
  assert (Hlen : List.length poses <> 0) by (destruct poses; [contradiction|discriminate]).
  assert (Hmod : forall a,
            match selectModulo a (List.length poses) with
            | SelectPose g => g < List.length poses
            | NoRequest => True
            | SelectNaN => False
            end).
  { intros a. destruct (selectModulo_in_range a _ Hlen) as (i & -> & Hi).
    exact Hi. }
  assert (Hkey : forall i,
            match selectKeyAt avail poses i with
            | SelectPose g => g < List.length poses
            | NoRequest => True
            | SelectNaN => False
            end).
  { intros i. pose proof (selectKeyAt_in_range avail poses i) as H.
    destruct (selectKeyAt avail poses i); tauto. }
  split; [|split; [|split; [reflexivity|split; [reflexivity|]]]].
  - unfold handlePreviousPose. destruct (_ || _); [exact I|].
    destruct (indexOfMaybe _ _); [apply Hkey|apply Hmod].
  - unfold handleNextPose. destruct loading; [exact I|].
    destruct (indexOfMaybe _ _); [|apply Hmod].
    destruct (_ =? 0); [apply Hmod|].
    destruct (_ <? _); [apply Hkey|apply Hmod].
  - intros Hl. unfold handlePreviousPose.
    destruct (Nat.leb_spec (List.length avail) 1); [|lia].
    rewrite orb_true_r. reflexivity.
Qed.

(** X15.  Stepping forward inside the cached poses and then back returns to
    the pose one started from: if the current pose is the key at position
    [j] of the available keys and a key follows it, next selects that
    key's index and previous from there selects the original index. *)
Theorem next_then_previous_returns
    (avail poses : list string) (cur j : nat) (p q : string) :
  NoDup avail ->
  NoDup poses ->
  nth_error poses cur = Some p ->
  nth_error avail j = Some p ->
  nth_error avail (j + 1) = Some q ->
  In q poses ->
  exists g,
    handleNextPose false avail poses cur = SelectPose g
    /\ nth_error poses g = Some q
    /\ g <> cur
    /\ handlePreviousPose false avail poses g = SelectPose cur.
Proof.
  intros Ha Hp Hcur Hj Hq Hin.
  assert (Hlt : j + 1 < List.length avail).
  { apply nth_error_Some. rewrite Hq. discriminate. }
  apply In_nth_error in Hin as (g & Hg).
  exists g.
  assert (Hnext : handleNextPose false avail poses cur = SelectPose g).
  { unfold handleNextPose, indexOfMaybe. rewrite Hcur.
    rewrite (indexOf_NoDup _ _ _ Ha Hj).
    destruct (Nat.eqb_spec (List.length avail) 0); [lia|].
    destruct (Nat.ltb_spec (j + 1) (List.length avail)); [|lia].
    unfold selectKeyAt, indexOfMaybe. rewrite Hq.
    rewrite (indexOf_NoDup _ _ _ Hp Hg). reflexivity. }
  split; [exact Hnext|]. split; [exact Hg|]. split.
  - intros ->. rewrite Hcur in Hg. injection Hg as ->.
    pose proof (indexOf_NoDup _ _ _ Ha Hj) as H1.
    pose proof (indexOf_NoDup _ _ _ Ha Hq) as H2.
    rewrite H1 in H2. injection H2 as H2. lia.
  - unfold handlePreviousPose, indexOfMaybe. rewrite Hg.
    destruct (Nat.leb_spec (List.length avail) 1); [lia|]. cbn [orb].
    rewrite (indexOf_NoDup _ _ _ Ha Hq).
    replace ((j + 1 + List.length avail - 1) mod List.length avail) with j.
    + unfold selectKeyAt, indexOfMaybe. rewrite Hj.
      rewrite (indexOf_NoDup _ _ _ Hp Hcur). reflexivity.
    + replace (j + 1 + List.length avail - 1)
        with (j + 1 * List.length avail) by lia.
      rewrite Nat.Div0.mod_add. symmetry. apply Nat.mod_small. lia.
Qed.

(** Selecting the index of a key the active layer holds with a non-empty
    image reads the cache: nothing is called and only the selector can
    change. *)
Lemma handlePoseSelect_available (s : AppState) (activeLayer : OutfitLayer)
    (g : nat) (k : string) :
  layerAt (outfitHistory s) (currentOutfitIndex s) = Some activeLayer ->
  (forall key v, getProp (poseImages activeLayer) key = Some v -> v <> ""%string) ->
  nth_error POSE_INSTRUCTIONS g = Some k ->
  In k (objectKeys (poseImages activeLayer)) ->
  handlePoseSelect g s = Return s
  \/ (isLoading s = false /\ g <> currentPoseIndex s
      /\ handlePoseSelect g s = Return (setCurrentPoseIndex g s)).
Proof.
  intros Hl Hv Hg Hk. unfold handlePoseSelect.
  destruct (isLoading s); cbn [orb]; [auto|].
  destruct (List.length (outfitHistory s) =? 0); cbn [orb]; [auto|].
  destruct (Nat.eqb_spec g (currentPoseIndex s)); [auto|].
  rewrite Hl, (poseInstructionAt_nth_error _ _ Hg).
  destruct (In_objectKeys_getProp _ _ Hk) as (v & Hgv).
  rewrite Hgv, (truthy_of_nonempty _ (Hv _ _ Hgv)). auto.
Qed.

Lemma availablePoseKeys_active (s : AppState) (activeLayer : OutfitLayer) :
  layerAt (outfitHistory s) (currentOutfitIndex s) = Some activeLayer ->
  availablePoseKeys s = objectKeys (poseImages activeLayer).
Proof.
  intros Hl. unfold availablePoseKeys. rewrite Hl.
  destruct (outfitHistory s); [|reflexivity].
  destruct (currentOutfitIndex s); discriminate.
Qed.

(** X16.  When the pose shown is one of the active layer's cached poses and
    no cached image is empty, the previous button never starts a
    generation: it returns at once, leaving everything but the pose
    selector as it was, and the selector ends on a cached pose. *)
Theorem previous_pose_click_calls_nothing
    (s : AppState) (activeLayer : OutfitLayer) (j : nat) :
  layerAt (outfitHistory s) (currentOutfitIndex s) = Some activeLayer ->
  (forall key v, getProp (poseImages activeLayer) key = Some v -> v <> ""%string) ->
  indexOfMaybe (availablePoseKeys s)
    (nth_error POSE_INSTRUCTIONS (currentPoseIndex s)) = Some j ->
  previousPoseClick s = Some (Return s)
  \/ exists g k,
       previousPoseClick s = Some (Return (setCurrentPoseIndex g s))
       /\ nth_error POSE_INSTRUCTIONS g = Some k
       /\ In k (availablePoseKeys s).
Proof.
  intros Hl Hv Hj. unfold previousPoseClick, handlePreviousPose.
  destruct (_ || _); [left; reflexivity|]. rewrite Hj.
  pose proof (selectKeyAt_in_range (availablePoseKeys s) POSE_INSTRUCTIONS
                ((j + List.length (availablePoseKeys s) - 1)
                 mod List.length (availablePoseKeys s))) as H.
  destruct (selectKeyAt _ _ _) as [|g|]; [left; reflexivity| |contradiction].
  destruct H as (_ & k & Hk & Hg). cbn [onSelectPose].
  apply nth_error_In in Hk.
  assert (Hk' : In k (objectKeys (poseImages activeLayer)))
    by (rewrite <- (availablePoseKeys_active s activeLayer Hl); exact Hk).
  destruct (handlePoseSelect_available s activeLayer g k Hl Hv Hg Hk')
    as [->|(_ & _ & ->)]; [left; reflexivity|].
  right. exists g, k. auto.
Qed.

(** X17.  When the pose shown is cached on the active layer and no cached
    image is empty, the next button reads the cache as long
    as another cached pose follows the one shown; on the last cached pose
    it asks [handlePoseSelect] for the next pose of the master list,
    wrapping around after the sixth. *)
Theorem next_pose_click_generates_only_at_end
    (s : AppState) (activeLayer : OutfitLayer) (j : nat) :
  layerAt (outfitHistory s) (currentOutfitIndex s) = Some activeLayer ->
  (forall key v, getProp (poseImages activeLayer) key = Some v -> v <> ""%string) ->
  isLoading s = false ->
  indexOfMaybe (availablePoseKeys s)
    (nth_error POSE_INSTRUCTIONS (currentPoseIndex s)) = Some j ->
  (j + 1 < List.length (availablePoseKeys s) ->
   nextPoseClick s = Some (Return s)
   \/ exists g k,
        nextPoseClick s = Some (Return (setCurrentPoseIndex g s))
        /\ nth_error POSE_INSTRUCTIONS g = Some k
        /\ nth_error (availablePoseKeys s) (j + 1) = Some k)
  /\ (List.length (availablePoseKeys s) <= j + 1 ->
      nextPoseClick s
      = Some (handlePoseSelect ((currentPoseIndex s + 1) mod 6) s)).
Proof.
  intros Hl Hv Hb Hj. unfold nextPoseClick, handleNextPose.
  rewrite Hb, Hj.
  assert (Hlen : List.length (availablePoseKeys s) <> 0).
  { unfold indexOfMaybe in Hj.
    destruct (nth_error POSE_INSTRUCTIONS (currentPoseIndex s));
      [|discriminate].
    apply indexOf_lt in Hj. lia. }
  destruct (Nat.eqb_spec (List.length (availablePoseKeys s)) 0);
    [contradiction|].
  split; intros Hpos.
  - destruct (Nat.ltb_spec (j + 1) (List.length (availablePoseKeys s)));
      [|lia].
    pose proof (selectKeyAt_in_range (availablePoseKeys s) POSE_INSTRUCTIONS
                  (j + 1)) as Hsel.
    destruct (selectKeyAt _ _ _) as [|g|]; [left; reflexivity| |contradiction].
    destruct Hsel as (_ & k & Hk & Hg). cbn [onSelectPose].
    assert (Hk' : In k (objectKeys (poseImages activeLayer))).
    { rewrite <- (availablePoseKeys_active s activeLayer Hl).
      eapply nth_error_In. exact Hk. }
    destruct (handlePoseSelect_available s activeLayer g k Hl Hv Hg Hk')
      as [->|(_ & _ & ->)]; [left; reflexivity|].
    right. exists g, k. auto.
  - destruct (Nat.ltb_spec (j + 1) (List.length (availablePoseKeys s)));
      [lia|].
    reflexivity.
Qed.

Lemma layerTwoPoses_images_nonempty (key v : string) :
  getProp (poseImages layerTwoPoses) key = Some v -> v <> ""%string.
Proof.
  intros H. apply getProp_In_values in H.
  destruct H as [<-|[<-|[]]]; discriminate.
Qed.

Lemma pose_navigation_stays_in_range_witness :
  POSE_INSTRUCTIONS <> []
  /\ handlePreviousPose false (availablePoseKeys (stateTwoPoses 0))
       POSE_INSTRUCTIONS 0 = SelectPose 1
  /\ handleNextPose false (availablePoseKeys (stateTwoPoses 1))
       POSE_INSTRUCTIONS 1 = SelectPose 2
  /\ match handlePreviousPose false (availablePoseKeys (stateTwoPoses 0))
             POSE_INSTRUCTIONS 0 with
     | SelectPose g => g < List.length POSE_INSTRUCTIONS
     | NoRequest => True
     | SelectNaN => False
     end.
Proof.
  split; [discriminate|]. split; [reflexivity|]. split; [reflexivity|].
  refine (proj1 (pose_navigation_stays_in_range false
                   (availablePoseKeys (stateTwoPoses 0)) POSE_INSTRUCTIONS 0 _)).
  discriminate.
Defined.

Lemma next_then_previous_returns_witness :
  NoDup (availablePoseKeys (stateTwoPoses 0))
  /\ handleNextPose false (availablePoseKeys (stateTwoPoses 0))
       POSE_INSTRUCTIONS 0 = SelectPose 1
  /\ exists g,
       handleNextPose false (availablePoseKeys (stateTwoPoses 0))
         POSE_INSTRUCTIONS 0 = SelectPose g
       /\ nth_error POSE_INSTRUCTIONS g = Some (poseInstructionAt 1)
       /\ g <> 0
       /\ handlePreviousPose false (availablePoseKeys (stateTwoPoses 0))
            POSE_INSTRUCTIONS g = SelectPose 0.
Proof.
  assert (Ha : NoDup (availablePoseKeys (stateTwoPoses 0))).
  { repeat (constructor; [simpl; intuition discriminate|]). constructor. }
  split; [exact Ha|]. split; [reflexivity|].
  apply (next_then_previous_returns (availablePoseKeys (stateTwoPoses 0))
           POSE_INSTRUCTIONS 0 0 (poseInstructionAt 0) (poseInstructionAt 1)
           Ha POSE_INSTRUCTIONS_NoDup eq_refl eq_refl eq_refl).
  right. left. reflexivity.
Defined.

Lemma previous_pose_click_calls_nothing_witness :
  previousPoseClick (stateTwoPoses 0)
  = Some (Return (setCurrentPoseIndex 1 (stateTwoPoses 0)))
  /\ (previousPoseClick (stateTwoPoses 0) = Some (Return (stateTwoPoses 0))
      \/ exists g k,
           previousPoseClick (stateTwoPoses 0)
           = Some (Return (setCurrentPoseIndex g (stateTwoPoses 0)))
           /\ nth_error POSE_INSTRUCTIONS g = Some k
           /\ In k (availablePoseKeys (stateTwoPoses 0))).
Proof.
  split; [reflexivity|].
  apply (previous_pose_click_calls_nothing (stateTwoPoses 0) layerTwoPoses 0);
    [reflexivity|exact layerTwoPoses_images_nonempty|reflexivity].
Defined.

Lemma next_pose_click_generates_only_at_end_witness :
  nextPoseClick (stateTwoPoses 0)
  = Some (Return (setCurrentPoseIndex 1 (stateTwoPoses 0)))
  /\ nextPoseClick (stateTwoPoses 1)
     = Some (handlePoseSelect ((currentPoseIndex (stateTwoPoses 1) + 1) mod 6)
               (stateTwoPoses 1))
  /\ callOf (handlePoseSelect 2 (stateTwoPoses 1))
     = Some (generatePoseVariation "img-front" (poseInstructionAt 2)).
Proof.
  split; [reflexivity|]. split; [|reflexivity].
  refine (proj2 (next_pose_click_generates_only_at_end (stateTwoPoses 1)
                   layerTwoPoses 1 eq_refl layerTwoPoses_images_nonempty
                   eq_refl eq_refl) _).
  simpl. lia.
Defined.

(** * The gateway's data URLs *)

Lemma append_assoc (a b c : string) :
  ((a ++ b) ++ c = a ++ (b ++ c))%string.
Proof. induction a as [|x a IH]; simpl; [reflexivity|]. rewrite IH. reflexivity. Qed.

Lemma hasChar_append (c : ascii) (a b : string) :
  hasChar c (a ++ b)%string = hasChar c a || hasChar c b.
Proof.
  induction a as [|x a IH]; simpl; [reflexivity|].
  rewrite IH, orb_assoc. reflexivity.
Qed.

Lemma splitOn_nonempty (sep : ascii) (s : string) : splitOn sep s <> [].
Proof.
  destruct s as [|c s]; simpl; [discriminate|].
  destruct (Ascii.eqb c sep); [discriminate|].
  destruct (splitOn sep s); discriminate.
Qed.

Lemma splitOn_no_sep (sep : ascii) (a : string) :
  hasChar sep a = false -> splitOn sep a = [a].
Proof.
  induction a as [|c a IH]; simpl; [reflexivity|].
  destruct (Ascii.eqb c sep); [discriminate|]. cbn [orb].
  intros H. rewrite (IH H). reflexivity.
Qed.

Lemma splitOn_app (sep : ascii) (a b : string) :
  hasChar sep a = false ->
  splitOn sep (a ++ String sep b)%string = a :: splitOn sep b.
Proof.
  induction a as [|c a IH]; simpl.
  - intros _. rewrite Ascii.eqb_refl. reflexivity.
  - destruct (Ascii.eqb c sep); [discriminate|]. cbn [orb].
    intros H. rewrite (IH H). reflexivity.
Qed.

Lemma splitOn_pieces (sep : ascii) (s piece : string) :
  In piece (splitOn sep s) -> hasChar sep piece = false.
Proof.
  revert piece. induction s as [|c s IH]; intros piece; simpl.
  - intros [<-|[]]. reflexivity.
  - destruct (Ascii.eqb c sep) eqn:E.
    + intros [<-|H]; [reflexivity|auto].
    + destruct (splitOn sep s) as [|p rest] eqn:Es.
      * intros [<-|[]]. simpl. rewrite E. reflexivity.
      * intros [<-|H].
        -- simpl. rewrite E. apply IH. left. reflexivity.
        -- apply IH. right. exact H.
Qed.

Lemma truthy_false_empty (v : string) : truthy (Some v) = false -> v = ""%string.
Proof.
  simpl. destruct (String.eqb_spec v ""); [auto|discriminate].
Qed.

Lemma built_data_url_parses (mime data : string) :
  mime <> ""%string ->
  data <> ""%string ->
  hasChar "," mime = false ->
  hasChar ":" mime = false ->
  hasChar ";" mime = false ->
  hasChar "," data = false ->
  dataUrlToGenerativePart ("data:" ++ mime ++ ";base64," ++ data)%string
  = inl (mkGenerativePart data mime).
Proof.
  intros Hm Hd Hc1 Hc2 Hc3 Hc4. unfold dataUrlToGenerativePart.
  replace ("data:" ++ mime ++ ";base64," ++ data)%string
    with (("data:" ++ mime ++ ";base64") ++ String "," data)%string
    by (rewrite !append_assoc; reflexivity).
  rewrite splitOn_app
    by (rewrite !hasChar_append, Hc1; reflexivity).
  rewrite (splitOn_no_sep _ _ Hc4). cbn [nth_error].
  replace ("data:" ++ mime ++ ";base64")%string
    with ("data" ++ String ":" (mime ++ ";base64"))%string by reflexivity.
  rewrite splitOn_app by reflexivity.
  rewrite splitOn_no_sep by (rewrite hasChar_append, Hc2; reflexivity).
  cbn [nth_error].
  replace (mime ++ ";base64")%string with (mime ++ String ";" "base64")%string
    by reflexivity.
  rewrite (splitOn_app _ _ _ Hc3). cbn [nth_error].
  rewrite (truthy_of_nonempty _ Hm), (truthy_of_nonempty _ Hd). reflexivity.
Qed.

(** X18.  A data URL built as the gateway builds its results,
    [data:<mime>;base64,<data>], parses back to the same data and MIME
    type, provided both are non-empty, the MIME type has none of the three
    separators and the data has no comma. *)
Theorem data_url_round_trip (mime data : string) :
  mime <> ""%string ->
  data <> ""%string ->
  hasChar "," mime = false ->
  hasChar ":" mime = false ->
  hasChar ";" mime = false ->
  hasChar "," data = false ->
  dataUrlToGenerativePart ("data:" ++ mime ++ ";base64," ++ data)%string
  = inl (mkGenerativePart data mime)
  /\ splitOn "," ("data:" ++ mime ++ ";base64," ++ data)%string
     = [("data:" ++ mime ++ ";base64")%string; data].
Proof.
  intros Hm Hd Hc1 Hc2 Hc3 Hc4.
  split; [apply built_data_url_parses; assumption|].
  replace ("data:" ++ mime ++ ";base64," ++ data)%string
    with (("data:" ++ mime ++ ";base64") ++ String "," data)%string
    by (rewrite !append_assoc; reflexivity).
  rewrite splitOn_app by (rewrite !hasChar_append, Hc1; reflexivity).
  rewrite (splitOn_no_sep _ _ Hc4). reflexivity.
Qed.

(** X19.  [dataUrlToGenerativePart] never returns an empty payload: a part it
    returns has non-empty data without a comma and a non-empty MIME type
    without a semicolon.  A URL without a colon throws a [TypeError], and a
    URL without a comma always throws. *)
Theorem data_url_parse_is_sound (dataUrl : string) :
  (forall part,
     dataUrlToGenerativePart dataUrl = inl part ->
     partData part <> ""%string
     /\ partMimeType part <> ""%string
     /\ hasChar "," (partData part) = false
     /\ hasChar ";" (partMimeType part) = false
     /\ hasChar "," dataUrl = true
     /\ hasChar ":" dataUrl = true)
  /\ (hasChar ":" dataUrl = false ->
      dataUrlToGenerativePart dataUrl = inr TypeError)
  /\ (hasChar "," dataUrl = false ->
      exists thrown, dataUrlToGenerativePart dataUrl = inr thrown).
Proof.
  assert (Hcolon : hasChar ":" dataUrl = false ->
                   dataUrlToGenerativePart dataUrl = inr TypeError).
  { intros Hc. unfold dataUrlToGenerativePart.
    destruct (splitOn "," dataUrl) as [|head rest] eqn:E;
      [reflexivity|]. cbn [nth_error].
    assert (Hh : hasChar ":" head = false).
    { clear - E Hc. revert head rest E.
      induction dataUrl as [|c u IH]; intros head rest; simpl in *.
      - intros E. injection E as <- _. reflexivity.
      - apply orb_false_elim in Hc as [Hc1 Hc2].
        destruct (Ascii.eqb c ","); [intros E; injection E as <- _; reflexivity|].
        destruct (splitOn "," u) as [|p r] eqn:Es.
        + intros E. injection E as <- _. simpl. rewrite Hc1. reflexivity.
        + intros E. injection E as <- _. simpl. rewrite Hc1.
          eapply (IH Hc2). reflexivity. }
    rewrite (splitOn_no_sep _ _ Hh). reflexivity. }
  assert (Hcomma : hasChar "," dataUrl = false ->
                   exists thrown, dataUrlToGenerativePart dataUrl = inr thrown).
  { intros Hc. unfold dataUrlToGenerativePart.
    rewrite (splitOn_no_sep _ _ Hc). cbn [nth_error].
    destruct (splitOn ":" dataUrl) as [|a [|b r]]; eauto.
    destruct (splitOn ";" b); eauto. }
  split; [|split; assumption].
  intros part H.
  assert (H1 : hasChar "," dataUrl = true).
  { destruct (hasChar "," dataUrl) eqn:E; [reflexivity|].
    destruct (Hcomma eq_refl) as (t & Ht). congruence. }
  assert (H2 : hasChar ":" dataUrl = true).
  { destruct (hasChar ":" dataUrl) eqn:E; [reflexivity|].
    rewrite (Hcolon eq_refl) in H. discriminate. }
  unfold dataUrlToGenerativePart in H.
  destruct (nth_error (splitOn "," dataUrl) 0) as [head|]; [|discriminate].
  destruct (nth_error (splitOn ":" head) 1) as [after|]; [|discriminate].
  destruct (nth_error (splitOn ";" after) 0) as [m|] eqn:Em; [|discriminate].
  destruct (nth_error (splitOn "," dataUrl) 1) as [d|] eqn:Ed; [|discriminate].
  destruct (truthy (Some m)) eqn:Tm; cbn [negb orb] in H; [|discriminate].
  destruct (truthy (Some d)) eqn:Td; cbn [negb] in H; [|discriminate].
  injection H as <-. cbn [partData partMimeType].
  destruct (truthy_Some _ Tm) as (m' & Hm' & Hmne). injection Hm' as <-.
  destruct (truthy_Some _ Td) as (d' & Hd' & Hdne). injection Hd' as <-.
  repeat split; auto.
  - eapply splitOn_pieces, nth_error_In, Ed.
  - eapply splitOn_pieces, nth_error_In, Em.
Qed.

(** The MIME type the gateway writes into its result. *)
Lemma responseToDataUrl_found (parts : list ResponsePart) (d : InlineData) :
  findInline parts = Some d ->
  responseToDataUrl (Some parts)
  = inl ("data:"
         ++ (if truthy (inlineMimeType d) then templateText (inlineMimeType d)
             else "image/png")
         ++ ";base64," ++ templateText (inlineBytes d))%string.
Proof.
  intros H. unfold responseToDataUrl, extractBase64Image. rewrite H.
  reflexivity.
Qed.

(** X20.  The URL a gateway function returns for a response whose first
    inline part carries non-empty data can be fed back as the base image
    of the next call: it parses to that data, with the part's MIME type or
    [image/png] when the part has none.  A response without an inline part
    is rejected with the fixed message, and one without parts with a
    [TypeError]. *)
Theorem generated_image_is_reusable
    (parts : list ResponsePart) (d : InlineData) (bytes : string) :
  findInline parts = Some d ->
  inlineBytes d = Some bytes ->
  bytes <> ""%string ->
  hasChar "," bytes = false ->
  (forall m, inlineMimeType d = Some m ->
     hasChar "," m = false /\ hasChar ":" m = false /\ hasChar ";" m = false) ->
  exists dataUrl mime,
    responseToDataUrl (Some parts) = inl dataUrl
    /\ dataUrlToGenerativePart dataUrl = inl (mkGenerativePart bytes mime)
    /\ (forall m, inlineMimeType d = Some m -> m <> ""%string -> mime = m)
    /\ (inlineMimeType d = None \/ inlineMimeType d = Some ""%string ->
        mime = "image/png"%string)
    /\ responseToDataUrl None = inr TypeError
    /\ (forall others,
          findInline others = None ->
          responseToDataUrl (Some others)
          = inr (ErrorMessage
                   "Không tìm thấy hình ảnh nào trong phản hồi của API.")).
Proof.
  intros Hf Hb Hne Hc Hm.
  rewrite (responseToDataUrl_found _ _ Hf), Hb. cbn [templateText].
  assert (Hnone : forall others,
            findInline others = None ->
            responseToDataUrl (Some others)
            = inr (ErrorMessage
                     "Không tìm thấy hình ảnh nào trong phản hồi của API.")).
  { intros others Ho. unfold responseToDataUrl, extractBase64Image.
    rewrite Ho. reflexivity. }
  destruct (inlineMimeType d) as [m|] eqn:Em.
  - destruct (truthy (Some m)) eqn:Tm.
    + destruct (truthy_Some _ Tm) as (m' & Hm' & Hmne). injection Hm' as <-.
      destruct (Hm m eq_refl) as (H1 & H2 & H3).
      eexists. exists m. split; [reflexivity|]. cbn [templateText].
      split; [apply built_data_url_parses; assumption|].
      split; [intros m0 E _; congruence|].
      split; [intros [E|E]; [discriminate|]; injection E as ->; contradiction|].
      split; [reflexivity|exact Hnone].
    + apply truthy_false_empty in Tm. subst m.
      eexists. exists "image/png"%string. split; [reflexivity|].
      split; [apply built_data_url_parses; try reflexivity; try assumption;
              discriminate|].
      split; [intros m0 E Hn; congruence|].
      split; [reflexivity|]. split; [reflexivity|exact Hnone].
  - eexists. exists "image/png"%string. cbn [truthy]. split; [reflexivity|].
    split; [apply built_data_url_parses; try reflexivity; try assumption;
            discriminate|].
    split; [intros m0 E; discriminate|].
    split; [reflexivity|]. split; [reflexivity|exact Hnone].
Qed.

Lemma data_url_round_trip_witness :
  "image/webp" <> ""%string
  /\ dataUrlToGenerativePart "data:image/webp;base64,UklGRg=="
     = inl (mkGenerativePart "UklGRg==" "image/webp").
Proof.
  split; [discriminate|].
  refine (proj1 (data_url_round_trip "image/webp" "UklGRg==" _ _ eq_refl
                   eq_refl eq_refl eq_refl)); discriminate.
Defined.

Lemma data_url_parse_is_sound_witness :
  dataUrlToGenerativePart "data:image/png;base64,iVBORw0KGgo"
  = inl (mkGenerativePart "iVBORw0KGgo" "image/png")
  /\ dataUrlToGenerativePart "blob-without-colon,abc" = inr TypeError
  /\ dataUrlToGenerativePart "data:image/png;base64"
     = inr (ErrorMessage "Invalid data URL format.")
  /\ dataUrlToGenerativePart "data:image/png;base64,"
     = inr (ErrorMessage "Invalid data URL format.")
  /\ partData (mkGenerativePart "iVBORw0KGgo" "image/png") <> ""%string.
Proof.
  split; [reflexivity|].
  split; [exact (proj1 (proj2 (data_url_parse_is_sound "blob-without-colon,abc"))
                   eq_refl)|].
  split; [reflexivity|]. split; [reflexivity|].
  exact (proj1 (proj1 (data_url_parse_is_sound
                         "data:image/png;base64,iVBORw0KGgo") _ eq_refl)).
Defined.

Lemma generated_image_is_reusable_witness :
  findInline
    [mkResponsePart None;
     mkResponsePart (Some (mkInlineData (Some "iVBORw0KGgo") None))]
  = Some (mkInlineData (Some "iVBORw0KGgo") None)
  /\ responseToDataUrl
       (Some [mkResponsePart None;
              mkResponsePart (Some (mkInlineData (Some "iVBORw0KGgo") None))])
     = inl "data:image/png;base64,iVBORw0KGgo"%string
  /\ exists dataUrl mime,
       responseToDataUrl
         (Some [mkResponsePart None;
                mkResponsePart (Some (mkInlineData (Some "iVBORw0KGgo") None))])
       = inl dataUrl
       /\ dataUrlToGenerativePart dataUrl
          = inl (mkGenerativePart "iVBORw0KGgo" mime).
Proof.
  split; [reflexivity|]. split; [reflexivity|].
  destruct (generated_image_is_reusable
              [mkResponsePart None;
               mkResponsePart (Some (mkInlineData (Some "iVBORw0KGgo") None))]
              (mkInlineData (Some "iVBORw0KGgo") None) "iVBORw0KGgo"
              eq_refl eq_refl)
    as (u & m & Hu & Hp & _); try reflexivity; try discriminate.
  exists u, m. split; assumption.
Defined.

(** * The wardrobe panel *)

Lemma customId_injective (now1 now2 : N) :
  customId now1 = customId now2 -> now1 = now2.
Proof.
  unfold customId. simpl. intros H. injection H as H.
  apply (f_equal NilEmpty.uint_of_string) in H.
  rewrite !NilEmpty.usu in H. injection H as H.
  apply (f_equal N.of_uint) in H. rewrite !Unsigned.of_to in H. exact H.
Qed.

Lemma includes_In (l : list string) (x : string) :
  includes l x = true <-> In x l.
Proof.
  unfold includes. rewrite existsb_exists. split.
  - intros (y & Hy & He). apply String.eqb_eq in He. subst. exact Hy.
  - intros H. exists x. split; [exact H|apply String.eqb_refl].
Qed.

(** X21.  Where the application renders, a garment worn on a layer of the
    active stack (with a non-empty id) is listed among the active garment
    ids, and a click on any wardrobe item with that id is ignored: nothing
    is fetched and the panel's error is left alone.  Every click is
    ignored while loading; any other click clears the panel's error and
    fetches the item's file. *)
Theorem worn_garment_click_is_ignored
    (s : AppState) (j : nat) (layer : OutfitLayer) (worn item : WardrobeItem)
    (panelError : option string) (ids : list string) :
  activeGarmentIds s = Some ids ->
  j <= currentOutfitIndex s ->
  layerAt (outfitHistory s) j = Some layer ->
  garment layer = Some worn ->
  id worn <> ""%string ->
  id item = id worn ->
  In (id worn) ids
  /\ handleGarmentClick (isLoading s) ids item = PanelIgnored
  /\ panelErrorAfter (handleGarmentClick (isLoading s) ids item) panelError
     = panelError
  /\ (forall other, handleGarmentClick true ids other = PanelIgnored)
  /\ (forall other,
        isLoading s = false ->
        ~ In (id other) ids ->
        handleGarmentClick (isLoading s) ids other
        = PanelFetching (urlToFile (url other) (name other))).
Proof.
  intros Hids Hj Hl Hg Hid Hitem.
  assert (Hin : In (id worn) ids).
  { unfold activeGarmentIds in Hids.
    destruct (garmentIdsOf (activeOutfitLayers s)) as [raw|] eqn:Hraw;
      [|discriminate].
    injection Hids as <-. apply filterBoolean_In. split; [|exact Hid].
    apply (garmentIdsOf_In _ _ layer worn Hraw); [|exact Hg].
    apply layerAt_In with (i := j). unfold activeOutfitLayers.
    rewrite layerAt_slice0 by lia. exact Hl. }
  assert (Hig : handleGarmentClick (isLoading s) ids item = PanelIgnored).
  { unfold handleGarmentClick. rewrite Hitem.
    rewrite (proj2 (includes_In _ _) Hin), orb_true_r. reflexivity. }
  split; [exact Hin|]. split; [exact Hig|]. split; [rewrite Hig; reflexivity|].
  split; [reflexivity|].
  intros other Hb Hn. unfold handleGarmentClick. rewrite Hb.
  destruct (includes ids (id other)) eqn:E; [|reflexivity].
  apply includes_In in E. contradiction.
Qed.

(** X22.  An uploaded file whose type does not start with [image/] never
    reaches the controller: the panel shows its message and the
    application state is untouched.  An image is handed to
    [handleGarmentSelect] under the id [custom-<time>], its own name and
    its object URL, and uploads at different instants carry different
    ids. *)
Theorem upload_reaches_controller_only_if_image
    (file : BrowserFile) (now later : N) (objectUrl : string)
    (isMobile : bool) (s : AppState) (panelError : option string) :
  now <> later ->
  (String.prefix "image/" (fileType file) = false ->
   handleFileChange (Some file) now objectUrl
   = PanelRejecting "Vui lòng chọn một tệp hình ảnh."
   /\ onGarmentSelect isMobile (handleFileChange (Some file) now objectUrl) s
      = Return s)
  /\ (String.prefix "image/" (fileType file) = true ->
      onGarmentSelect isMobile (handleFileChange (Some file) now objectUrl) s
      = handleGarmentSelect isMobile (fileHandle file)
          (mkWardrobeItem (customId now) (fileName file) objectUrl) s
      /\ panelErrorAfter (handleFileChange (Some file) now objectUrl) panelError
         = panelError)
  /\ customId now <> customId later
  /\ inWardrobe [mkWardrobeItem (customId now) (fileName file) objectUrl]
       (mkWardrobeItem (customId later) (fileName file) objectUrl)
     = false.
Proof.
  intros Hn.
  assert (Hid : customId now <> customId later).
  { intros E. apply Hn, customId_injective, E. }
  split; [|split; [|split; [exact Hid|]]].
  - intros Hp. unfold handleFileChange. rewrite Hp. auto.
  - intros Hp. unfold handleFileChange. rewrite Hp. auto.
  - unfold inWardrobe. cbn [existsb id orb].
    destruct (String.eqb_spec (customId now) (customId later));
      [contradiction|reflexivity].
Qed.

Lemma worn_garment_click_is_ignored_witness :
  layerAt (outfitHistory stateDressed) 1
  = Some (mkOutfitLayer (Some shirt) [(poseInstructionAt 0, "img-worn")])
  /\ activeGarmentIds stateDressed = Some ["shirt-1"%string]
  /\ In (id shirt) ["shirt-1"%string]
  /\ handleGarmentClick (isLoading stateDressed) ["shirt-1"%string] shirt
     = PanelIgnored.
Proof.
  split; [reflexivity|]. split; [reflexivity|].
  destruct (worn_garment_click_is_ignored stateDressed 1
              (mkOutfitLayer (Some shirt) [(poseInstructionAt 0, "img-worn")])
              shirt shirt None ["shirt-1"%string] eq_refl (le_n 1) eq_refl
              eq_refl)
    as (Hin & Hig & _); try reflexivity; try discriminate.
  split; assumption.
Defined.

Lemma upload_reaches_controller_only_if_image_witness :
  (1730592000123 <> 1730592000124)%N
  /\ handleFileChange (Some (mkBrowserFile "file" "application/pdf" "a.pdf"))
       1730592000123 "blob:1"
     = PanelRejecting "Vui lòng chọn một tệp hình ảnh."
  /\ handleFileChange (Some (mkBrowserFile "file" "image/png" "coat.png"))
       1730592000123 "blob:1"
     = PanelSelecting "file"
         (mkWardrobeItem "custom-1730592000123" "coat.png" "blob:1")
  /\ customId 1730592000123 <> customId 1730592000124.
Proof.
  split; [discriminate|]. split; [reflexivity|]. split; [reflexivity|].
  refine (proj1 (proj2 (proj2 (upload_reaches_controller_only_if_image
            (mkBrowserFile "file" "image/png" "coat.png")
            1730592000123 1730592000124 "blob:1" false stateDressed None _)))).
  discriminate.
Defined.

(** * Starting and ending a session *)

Section Sessions.

Variable getFriendlyErrorMessage : string -> string -> string.

(** X23.  Finalizing a model starts a one-layer history whose root is the
    bare model: the model image is what is displayed whatever pose index
    was selected, no garment is active, the default pose is the only one
    available, and wardrobe, error, busy flag and pose selector are left
    as they were.  From there an idle select-garment goes to the try-on
    gateway with the model image as base. *)
Theorem model_finalized_starts_session (modelUrl : string) (s : AppState) :
  outfitHistory (handleModelFinalized modelUrl s)
  = [Layer (mkOutfitLayer None [(poseInstructionAt 0, modelUrl)])]
  /\ currentOutfitIndex (handleModelFinalized modelUrl s) = 0
  /\ displayImageUrl (handleModelFinalized modelUrl s) = Some modelUrl
  /\ activeOutfitLayers (handleModelFinalized modelUrl s)
     = outfitHistory (handleModelFinalized modelUrl s)
  /\ activeGarmentIds (handleModelFinalized modelUrl s) = Some []
  /\ availablePoseKeys (handleModelFinalized modelUrl s)
     = [poseInstructionAt 0]
  /\ wardrobe (handleModelFinalized modelUrl s) = wardrobe s
  /\ error (handleModelFinalized modelUrl s) = error s
  /\ isLoading (handleModelFinalized modelUrl s) = isLoading s
  /\ currentPoseIndex (handleModelFinalized modelUrl s) = currentPoseIndex s
  /\ (modelUrl <> ""%string ->
      isLoading s = false ->
      forall isMobile garmentFile garmentInfo,
      exists s1,
        handleGarmentSelect isMobile garmentFile garmentInfo
          (handleModelFinalized modelUrl s)
        = Await s1 (generateVirtualTryOnImage modelUrl garmentFile)
            (GarmentSelectAwait 0 garmentInfo)).
Proof.
  assert (Hd : displayImageUrl (handleModelFinalized modelUrl s)
               = Some modelUrl).
  { unfold displayImageUrl, handleModelFinalized. state_simpl.
    cbn [layerAt nth_error poseImages getProp firstPoseImage objectValues
         map snd hd_error].
    destruct (String.eqb _ _); reflexivity. }
  do 2 (split; [reflexivity|]). split; [exact Hd|].
  do 7 (split; [reflexivity|]).
  intros Hne Hb m f g.
  apply handleGarmentSelect_awaits; auto.
Qed.

(** X24.  A reset forgets the state it starts from and equals the fresh
    application with the sheet opened; removing layer 0 while idle is that
    reset, and while busy is ignored.  After a reset nothing is displayed
    and every request but a new model is ignored. *)
Theorem start_over_blocks_until_model (s : AppState) :
  handleStartOver s = setIsSheetCollapsed false initialState
  /\ (isLoading s = false -> handleRemoveLayer 0 s = handleStartOver s)
  /\ (isLoading s = true -> handleRemoveLayer 0 s = s)
  /\ displayImageUrl (handleStartOver s) = None
  /\ (forall isMobile garmentFile garmentInfo,
        handleGarmentSelect isMobile garmentFile garmentInfo (handleStartOver s)
        = Return (handleStartOver s))
  /\ (forall layerIndex,
        handleRegenerateLayer getFriendlyErrorMessage layerIndex
          (handleStartOver s)
        = Return (handleStartOver s))
  /\ (forall newIndex,
        handlePoseSelect newIndex (handleStartOver s)
        = Return (handleStartOver s))
  /\ (forall layerIndex,
        handleRemoveLayer layerIndex (handleStartOver s) = handleStartOver s)
  /\ previousPoseClick (handleStartOver s) = Some (Return (handleStartOver s))
  /\ nextPoseClick (handleStartOver s) = Some (Return (handleStartOver s))
  /\ regenerateButtons (handleStartOver s) = []
  /\ removeButtons (handleStartOver s) = [].
Proof.
  split; [reflexivity|].
  split; [intros Hb; unfold handleRemoveLayer; rewrite Hb; reflexivity|].
  split; [intros Hb; unfold handleRemoveLayer; rewrite Hb; reflexivity|].
  split; [reflexivity|]. split; [reflexivity|].
  split.
  { intros i. unfold handleRegenerateLayer, handleStartOver. state_simpl.
    cbn [orb List.length]. destruct (i <? 1); [reflexivity|].
    cbn [orb Nat.leb]. reflexivity. }
  split; [reflexivity|].
  split.
  { intros i. unfold handleRemoveLayer, handleStartOver. state_simpl.
    destruct (i =? 0); [reflexivity|]. cbn [List.length].
    destruct (0 <? i); cbn [andb]; [|reflexivity].
    destruct (Nat.ltb_spec i 0); [lia|reflexivity]. }
  repeat split.
Qed.

End Sessions.

Lemma model_finalized_starts_session_witness :
  displayImageUrl
    (handleModelFinalized "data:image/png;base64,AAAA" (stateTwoPoses 1))
  = Some "data:image/png;base64,AAAA"%string
  /\ exists s1,
       handleGarmentSelect false "file" shirt
         (handleModelFinalized "data:image/png;base64,AAAA" (stateTwoPoses 1))
       = Await s1
           (generateVirtualTryOnImage "data:image/png;base64,AAAA" "file")
           (GarmentSelectAwait 0 shirt).
Proof.
  destruct (model_finalized_starts_session "data:image/png;base64,AAAA"
              (stateTwoPoses 1))
    as (_ & _ & Hd & _ & _ & _ & _ & _ & _ & _ & Hg).
  split; [exact Hd|].
  apply Hg; [discriminate|reflexivity].
Defined.

Lemma start_over_blocks_until_model_witness :
  isLoading stateDressed = false
  /\ handleRemoveLayer 0 stateDressed = handleStartOver stateDressed
  /\ handleStartOver stateDressed = setIsSheetCollapsed false initialState.
Proof.
  destruct (start_over_blocks_until_model sampleFriendlyMessage stateDressed)
    as (H0 & H1 & _).
  split; [reflexivity|]. split; [exact (H1 eq_refl)|exact H0].
Defined.

(** * The outfit stack *)

Lemma renderedRows_In (layers : History) (from i : nat) (rows : list nat) :
  renderedRows from layers = Some rows ->
  In i rows ->
  from <= i /\ exists l, layerAt layers (i - from) = Some l.
Proof.
  revert from rows. induction layers as [|x layers IH]; intros from rows; simpl.
  - intros E. injection E as <-. intros [].
  - assert (Hrec : forall rest,
              renderedRows (S from) layers = Some rest ->
              In i rest ->
              from <= i
              /\ exists l, layerAt (x :: layers) (i - from) = Some l).
    { intros rest E H. destruct (IH _ _ E H) as (Hle & l & Hl). split; [lia|].
      exists l. replace (i - from) with (S (i - S from)) by lia. exact Hl. }
    destruct x as [| |l0]; [apply Hrec|discriminate|].
    destruct (renderedRows (S from) layers) as [rest|]; [|discriminate].
    simpl. intros E. injection E as <-. intros [<-|H]; [|eapply Hrec; eauto].
    split; [lia|]. exists l0. rewrite Nat.sub_diag. reflexivity.
Qed.

Lemma layerAt_slice0_Some (h : History) (n i : nat) (l : OutfitLayer) :
  layerAt (slice0 h n) i = Some l -> i < n /\ layerAt h i = Some l.
Proof.
  intros H. pose proof (layerAt_lt _ _ _ H) as Hlt.
  unfold slice0 in Hlt. rewrite length_firstn in Hlt.
  split; [lia|]. rewrite <- (layerAt_slice0 h n i) by lia. exact H.
Qed.

Lemma stackRows_In (s : AppState) (i : nat) :
  In i (stackRows s) ->
  i < List.length (outfitHistory s)
  /\ i <= currentOutfitIndex s
  /\ exists l, layerAt (outfitHistory s) i = Some l.
Proof.
  unfold stackRows.
  destruct (renderedRows 0 (activeOutfitLayers s)) as [rows|] eqn:E;
    [|intros []].
  intros H. apply (renderedRows_In _ _ _ _ E) in H as (_ & l & Hl).
  rewrite Nat.sub_0_r in Hl. unfold activeOutfitLayers in Hl.
  apply layerAt_slice0_Some in Hl as [Hlt Hl].
  split; [eapply layerAt_lt; eassumption|]. split; [lia|eauto].
Qed.

Lemma layerAt_snoc (a : History) (v l : OutfitLayer) (j : nat) :
  layerAt (a ++ [Layer v]) j = Some l -> layerAt a j = Some l \/ l = v.
Proof.
  unfold layerAt. destruct (Nat.ltb_spec j (List.length a)).
  - rewrite nth_error_app1 by assumption. auto.
  - rewrite nth_error_app2 by assumption.
    destruct (j - List.length a) as [|[|n]]; simpl; try discriminate.
    intros E. injection E as <-. auto.
Qed.

Section Dressed.

Variable getFriendlyErrorMessage : string -> string -> string.


Lemma pendingAfter_In (o : Outcome) (others : list Pending) (k : Pending) :
  In k (pendingAfter o others) ->
  In k others \/ exists s c, o = Await s c k.
Proof.
  destruct o as [s|s c k0|s|s]; cbn [pendingAfter]; auto.
  rewrite in_app_iff. intros [H|[<-|[]]]; eauto.
Qed.

Lemma commit_pending (o : Outcome) (others : list Pending)
    (fetches : list GarmentFetch) (k : Pending) :
  In k (inflight (commit o others fetches)) ->
  In k others \/ exists s c, o = Await s c k.
Proof.
  intros H. apply pendingAfter_In.
  destruct o; exact H.
Qed.

Lemma resume_dressed (k : Pending) (r : Settled) (s : AppState) :
  upperLayersDressed (outfitHistory s) ->
  pendingIndexOk k ->
  upperLayersDressed
    (outfitHistory (stateOf (resume getFriendlyErrorMessage k r s)))
  /\ forall s1 c k1,
       resume getFriendlyErrorMessage k r s = Await s1 c k1 ->
       pendingIndexOk k1.
Proof.
  intros Hd Hk.
  destruct k as [c g|i g b|i g|c p prev]; destruct r as [v|e];
    unfold resume, regenerateCaught; cbn [stateOf]; state_simpl;
    (split; [|try discriminate]); auto.
  - intros j l Hj Hl. apply layerAt_snoc in Hl as [Hl| ->]; [|discriminate].
    rewrite layerAt_spread in Hl.
    apply layerAt_slice0_Some in Hl as [_ Hl]. eapply Hd; eassumption.
  - intros s1 c k1 E. injection E as _ _ <-. exact Hk.
  - intros j l Hj Hl. destruct (Nat.eq_dec i j) as [->|Hn].
    + rewrite layerAt_arraySet_same in Hl. injection Hl as <-. discriminate.
    + rewrite layerAt_arraySet_other in Hl by assumption.
      apply layerAt_slice0_Some in Hl as [_ Hl]. eapply Hd; eassumption.
  - destruct (layerAt (outfitHistory s) c) as [l0|] eqn:Hl0;
      cbn [stateOf]; state_simpl; auto.
    intros j l Hj Hl. destruct (Nat.eq_dec c j) as [->|Hn].
    + rewrite layerAt_arraySet_same in Hl. injection Hl as <-.
      cbn [garment]. eapply Hd; eassumption.
    + rewrite layerAt_arraySet_other, layerAt_spread in Hl by assumption.
      eapply Hd; eassumption.
  - destruct (layerAt (outfitHistory s) c); discriminate.
Qed.

Lemma step_upperLayersDressed (y : Sys) (e : Event) :
  dressedRun y ->
  upperLayersDressed (outfitHistory (app (step getFriendlyErrorMessage y e))).
Proof.
  intros (Hd & Hk). unfold step, onScreen, settle.
  destruct (unmounted y).
  { destruct e; cbn [outcomeOf]; try exact Hd;
      match goal with |- context [nth_error ?l ?n] =>
        destruct (nth_error l n) end; exact Hd. }
  destruct e as [u| |m f g|i|i|i|n r|m g|n r]; cbn [outcomeOf mount app].
  - intros j l Hj Hl. state_simpl. unfold layerAt in Hl.
    destruct j as [|[|j]]; simpl in Hl; try discriminate. lia.
  - intros j l Hj Hl. destruct j; discriminate.
  - rewrite app_commit, handleGarmentSelect_history. exact Hd.
  - rewrite app_commit, handleRegenerateLayer_history. exact Hd.
  - destruct (handleRemoveLayer_history i (app y))
      as [->|[(_ & _ & ->)|(_ & _ & -> & _)]]; [exact Hd| |].
    + intros j l Hj Hl. destruct j; discriminate.
    + intros j l Hj Hl. apply layerAt_slice0_Some in Hl as [_ Hl].
      eapply Hd; eassumption.
  - rewrite app_commit, handlePoseSelect_history. exact Hd.
  - destruct (nth_error (inflight y) n) as [k|] eqn:Hn; [|exact Hd].
    rewrite app_commit. apply resume_dressed; [exact Hd|].
    apply Hk. eapply nth_error_In. exact Hn.
  - destruct (activeGarmentIds (app y)); [|exact Hd].
    destruct (handleGarmentClick _ _ _); exact Hd.
  - destruct (nth_error (fetching y) n) as [f|]; [|exact Hd].
    rewrite app_commit. unfold onGarmentSelectOf.
    destruct (garmentClickSettled (clicked f) r); try exact Hd.
    rewrite handleGarmentSelectOf_history. exact Hd.
Qed.

Lemma step_pendingIndexOk (y : Sys) (e : Event) :
  dressedRun y ->
  forall k, In k (inflight (step getFriendlyErrorMessage y e)) ->
            pendingIndexOk k.
Proof.
  intros (Hd & Hk).
  assert (Hsettle : forall n r k o,
            nth_error (inflight y) n = Some k ->
            o = resume getFriendlyErrorMessage k r (app y) ->
            forall k1, In k1 (pendingAfter o (removeNth n (inflight y))) ->
                       pendingIndexOk k1).
  { intros n r k o Hn -> k1 H.
    apply pendingAfter_In in H as [H|(s1 & c & E)].
    - apply Hk. eapply removeNth_In. exact H.
    - eapply (proj2 (resume_dressed k r (app y) Hd
                       (Hk k (nth_error_In _ _ Hn)))). exact E. }
  assert (Hfetched : forall f r k,
            In k (pendingAfter
                    (onGarmentSelectOf (rendered f) (renderedMobile f)
                       (garmentClickSettled (clicked f) r) (app y))
                    (inflight y)) ->
            pendingIndexOk k).
  { intros f r k H. apply pendingAfter_In in H as [H|(s1 & c & E)]; [auto|].
    unfold onGarmentSelectOf in E.
    destruct (garmentClickSettled (clicked f) r) as [|c0|msg|file item];
      try discriminate.
    destruct (handleGarmentSelectOf_cases (rendered f) (renderedMobile f)
                file item (app y)) as (_ & Hc).
    rewrite E in Hc. apply Hc. }
  unfold step, onScreen, settle. destruct (unmounted y).
  { destruct e as [u| |m f g|i|i|i|n r|m g|n r]; cbn [outcomeOf];
      try exact Hk.
    - destruct (nth_error (inflight y) n) as [k|] eqn:Hn; [|exact Hk].
      cbn [inflight]. eapply Hsettle; eauto.
    - destruct (nth_error (fetching y) n) as [f|]; [|exact Hk].
      cbn [inflight]. apply Hfetched. }
  destruct e as [u| |m f g|i|i|i|n r|m g|n r];
    cbn [outcomeOf mount inflight]; try exact Hk.
  - intros k H. apply commit_pending in H as [H|(s1 & c & E)]; [auto|].
    destruct (handleGarmentSelectOf_cases (app y) m f g (app y)) as (_ & Hc).
    change (handleGarmentSelectOf (app y) m f g (app y))
      with (handleGarmentSelect m f g (app y)) in Hc.
    rewrite E in Hc. apply Hc.
  - intros k H. apply commit_pending in H as [H|(s1 & c & E)]; [auto|].
    destruct (handleRegenerateLayer_cases getFriendlyErrorMessage i (app y))
      as (_ & Hc).
    rewrite E in Hc. apply Hc.
  - intros k H. apply commit_pending in H as [H|(s1 & c & E)]; [auto|].
    destruct (handlePoseSelect_cases i (app y)) as (_ & Hc).
    rewrite E in Hc. apply Hc.
  - destruct (nth_error (inflight y) n) as [k|] eqn:Hn; [|exact Hk].
    intros k1 H. apply commit_pending in H as [H|(s1 & c & E)].
    + apply Hk. eapply removeNth_In. exact H.
    + eapply (proj2 (resume_dressed k r (app y) Hd
                       (Hk k (nth_error_In _ _ Hn)))). exact E.
  - destruct (activeGarmentIds (app y)); [|exact Hk].
    destruct (handleGarmentClick _ _ _); exact Hk.
  - destruct (nth_error (fetching y) n) as [f|]; [|exact Hk].
    intros k H. apply commit_pending in H as [H|(s1 & c & E)]; [auto|].
    unfold onGarmentSelectOf in E.
    destruct (garmentClickSettled (clicked f) r) as [|c0|msg|file item];
      try discriminate.
    destruct (handleGarmentSelectOf_cases (rendered f) (renderedMobile f)
                file item (app y)) as (_ & Hc).
    rewrite E in Hc. apply Hc.
Qed.

Lemma run_dressed (es : list Event) :
  upperLayersDressed
    (outfitHistory (app (run getFriendlyErrorMessage initialSys es))).
Proof.
  assert (H : forall y, dressedRun y ->
            dressedRun (run getFriendlyErrorMessage y es)).
  { induction es as [|e es IH]; intros y Hy; [exact Hy|].
    apply IH. split;
      [apply step_upperLayersDressed, Hy|apply step_pendingIndexOk, Hy]. }
  apply H. split; [|intros k []].
  intros j l Hj Hl. destruct j; discriminate.
Qed.

(** X25.  In any state, every index the outfit stack can pass to
    [onRegenerateLayer] or [onRemoveLayer] names an existing layer at or
    below the current position, so the range guards of the controller
    never drop a request that comes from the stack. *)
Theorem stack_buttons_name_existing_layers (s : AppState) (i : nat) :
  (In i (regenerateButtons s) ->
   1 <= i < List.length (outfitHistory s)
   /\ i <= currentOutfitIndex s
   /\ exists l, layerAt (outfitHistory s) i = Some l)
  /\ (In i (removeButtons s) ->
      i < List.length (outfitHistory s)
      /\ i <= currentOutfitIndex s
      /\ exists l, layerAt (outfitHistory s) i = Some l).
Proof.
  split; [|apply stackRows_In].
  unfold regenerateButtons. rewrite filter_In.
  intros [H Hpos]. apply Nat.ltb_lt in Hpos.
  destruct (stackRows_In s i H) as (H1 & H2 & H3). split; [lia|auto].
Qed.

(** X26.  In every state the application reaches, whatever the interleaving,
    each layer above the root carries a garment. *)
Theorem upper_layers_carry_a_garment
    (es : list Event) (i : nat) (l : OutfitLayer) :
  1 <= i ->
  layerAt (outfitHistory (app (run getFriendlyErrorMessage initialSys es))) i
  = Some l ->
  exists g, garment l = Some g.
Proof.
  intros Hi Hl. pose proof (run_dressed es i l Hi Hl) as H.
  destruct (garment l) as [g|]; [eauto|contradiction].
Qed.


End Dressed.

Lemma stack_buttons_name_existing_layers_witness :
  regenerateButtons stateDressed = [1]
  /\ removeButtons stateDressed = [0; 1]
  /\ 1 <= 1 < List.length (outfitHistory stateDressed)
  /\ 1 <= currentOutfitIndex stateDressed.
Proof.
  split; [reflexivity|]. split; [reflexivity|].
  destruct (proj1 (stack_buttons_name_existing_layers stateDressed 1))
    as (H1 & H2 & _); [left; reflexivity|].
  split; assumption.
Defined.

Lemma upper_layers_carry_a_garment_witness :
  1 <= 1
  /\ layerAt (outfitHistory (app (run sampleFriendlyMessage initialSys traceDressed)))
       1
     = Some (mkOutfitLayer (Some shirt) [(poseInstructionAt 0, "img-worn")])
  /\ exists g,
       garment (mkOutfitLayer (Some shirt) [(poseInstructionAt 0, "img-worn")])
       = Some g.
Proof.
  split; [exact (le_n 1)|]. split; [reflexivity|].
  exact (upper_layers_carry_a_garment sampleFriendlyMessage traceDressed 1 _
           (le_n 1) eq_refl).
Defined.


(** * The start screen and the footer *)

Ltac start_simpl :=
  cbn [userImageFile userImageUrl generatedModelUrl isGenerating
       startLoadingMessage startError setStartGenerating setStartError
       setGeneratedModelUrl setUserImage resetStart] in *.

Section StartScreenProperties.

Variable getFriendlyErrorMessage : string -> string -> string.

(** X28.  On the start screen a file that is not an image is refused with a
    message and nothing is read or generated.  For an image, the file is
    read and the first generation starts; if that generation fails the
    screen is back at the uploader with the file and its preview dropped
    and the error set, busy is off, the continue button is not offered
    and there is nothing left to regenerate. *)
Theorem first_model_failure_returns_to_uploader
    (file : BrowserFile) (st : StartState) (dataUrl err : string) :
  (String.prefix "image/" (fileType file) = false ->
   handleFileSelect file st
   = StartReturn (setStartError (Some "Vui lòng chọn một tệp hình ảnh.") st))
  /\ (String.prefix "image/" (fileType file) = true ->
      exists st1 st2 st3,
        handleFileSelect file st
        = StartAwait st1 (readAsDataURL file) (FileLoadAwait file)
        /\ resumeStart getFriendlyErrorMessage (FileLoadAwait file)
             (Rejected err) st1
           = StartReturn st1
        /\ resumeStart getFriendlyErrorMessage (FileLoadAwait file)
             (Fulfilled dataUrl) st1
           = StartAwait st2 (generateModelImage file) FirstModelAwait
        /\ isGenerating st2 = true
        /\ userImageUrl st2 = Some dataUrl
        /\ generatedModelUrl st2 = None
        /\ startError st2 = None
        /\ finalizeOffered st2 = false
        /\ resumeStart getFriendlyErrorMessage FirstModelAwait (Rejected err)
             st2
           = StartReturn st3
        /\ userImageFile st3 = None
        /\ userImageUrl st3 = None
        /\ startError st3
           = Some (getFriendlyErrorMessage err "Không thể tạo người mẫu")
        /\ isGenerating st3 = false
        /\ finalizeOffered st3 = false
        /\ handleRegenerate st3 = StartReturn st3).
Proof.
  split; intros Hp; unfold handleFileSelect; rewrite Hp; [reflexivity|].
  cbn [negb]. do 3 eexists.
  split; [reflexivity|]. split; [reflexivity|]. split; [reflexivity|].
  start_simpl. do 4 (split; [reflexivity|]).
  split; [unfold finalizeOffered; start_simpl; rewrite andb_false_r;
          reflexivity|].
  split; [reflexivity|]. start_simpl. do 4 (split; [reflexivity|]).
  split; reflexivity.
Qed.

(** X29.  When the first generation succeeds with a non-empty image the
    continue button is offered, and clicking it starts the session on
    that image: it is the displayed image and the bare root of the
    history.  A regeneration hides the button while it runs; when it
    fails the earlier model is kept but the button stays hidden behind
    the (non-empty) error, and when it succeeds the new model replaces
    the old one. *)
Theorem model_is_handed_over_after_success
    (file : BrowserFile) (st : StartState)
    (dataUrl result result2 err : string) (s : AppState) :
  String.prefix "image/" (fileType file) = true ->
  dataUrl <> ""%string ->
  result <> ""%string ->
  exists st1 st2 st3 st4 st5 st6,
    handleFileSelect file st
    = StartAwait st1 (readAsDataURL file) (FileLoadAwait file)
    /\ resumeStart getFriendlyErrorMessage (FileLoadAwait file)
         (Fulfilled dataUrl) st1
       = StartAwait st2 (generateModelImage file) FirstModelAwait
    /\ resumeStart getFriendlyErrorMessage FirstModelAwait (Fulfilled result)
         st2
       = StartReturn st3
    /\ finalizeOffered st3 = true
    /\ generatedModelUrl st3 = Some result
    /\ finalizeClick st3 s = handleModelFinalized result s
    /\ displayImageUrl (finalizeClick st3 s) = Some result
    /\ rootIsBare (outfitHistory (finalizeClick st3 s))
    /\ handleRegenerate st3
       = StartAwait st4 (generateModelImage file) RegenerateModelAwait
    /\ finalizeOffered st4 = false
    /\ finalizeClick st4 s = s
    /\ resumeStart getFriendlyErrorMessage RegenerateModelAwait (Rejected err)
         st4
       = StartReturn st5
    /\ generatedModelUrl st5 = Some result
    /\ isGenerating st5 = false
    /\ (getFriendlyErrorMessage err "Không thể tạo lại người mẫu" <> ""%string ->
        finalizeOffered st5 = false)
    /\ resumeStart getFriendlyErrorMessage RegenerateModelAwait
         (Fulfilled result2) st4
       = StartReturn st6
    /\ generatedModelUrl st6 = Some result2
    /\ (result2 <> ""%string -> finalizeOffered st6 = true).
Proof.
  intros Hp Hd Hr. unfold handleFileSelect. rewrite Hp. cbn [negb].
  do 6 eexists.
  split; [reflexivity|]. split; [reflexivity|]. split; [reflexivity|].
  assert (Hoff : finalizeOffered
                   (setStartGenerating false ""
                      (setGeneratedModelUrl (Some result)
                         (setStartError None
                            (setGeneratedModelUrl None
                               (setStartGenerating true
                                  "Đang tạo người mẫu của bạn..."
                                  (setUserImage
                                     (userImageFile
                                        (setUserImage (Some file)
                                           (userImageUrl st) st))
                                     (Some dataUrl)
                                     (setUserImage (Some file)
                                        (userImageUrl st) st)))))))
                 = true).
  { unfold finalizeOffered. start_simpl.
    rewrite (truthy_of_nonempty _ Hd), (truthy_of_nonempty _ Hr). reflexivity. }
  split; [exact Hoff|]. split; [reflexivity|].
  assert (Hclick : forall s0,
            finalizeClick
              (setStartGenerating false ""
                 (setGeneratedModelUrl (Some result)
                    (setStartError None
                       (setGeneratedModelUrl None
                          (setStartGenerating true
                             "Đang tạo người mẫu của bạn..."
                             (setUserImage
                                (userImageFile
                                   (setUserImage (Some file)
                                      (userImageUrl st) st))
                                (Some dataUrl)
                                (setUserImage (Some file)
                                   (userImageUrl st) st)))))))
              s0
            = handleModelFinalized result s0).
  { intros s0. unfold finalizeClick. rewrite Hoff. reflexivity. }
  split; [apply Hclick|]. rewrite Hclick.
  split.
  { unfold displayImageUrl, handleModelFinalized. state_simpl.
    cbn [layerAt nth_error poseImages getProp firstPoseImage objectValues
         map snd hd_error].
    destruct (String.eqb _ _); reflexivity. }
  split; [cbn; eexists; split; reflexivity|].
  split; [reflexivity|].
  split; [unfold finalizeOffered; start_simpl; rewrite andb_false_r;
          reflexivity|].
  split; [unfold finalizeClick, finalizeOffered; start_simpl;
          rewrite andb_false_r; reflexivity|].
  split; [reflexivity|]. start_simpl. split; [reflexivity|].
  split; [reflexivity|].
  split.
  { intros He. unfold finalizeOffered. start_simpl.
    rewrite (truthy_of_nonempty _ He), andb_false_r. reflexivity. }
  split; [reflexivity|]. start_simpl. split; [reflexivity|].
  intros Hr2. unfold finalizeOffered. start_simpl.
  rewrite (truthy_of_nonempty _ Hd), (truthy_of_nonempty _ Hr2). reflexivity.
Qed.

End StartScreenProperties.

(** X30.  The footer's suggestion index after any number of ticks is that
    number modulo six, so it always names one of the six suggestions and
    the text repeats every six ticks. *)
Theorem suggestion_index_cycles (ticks : nat) :
  suggestionIndexAfter ticks = ticks mod 6
  /\ (exists text,
        nth_error REMIX_SUGGESTIONS (suggestionIndexAfter ticks) = Some text)
  /\ suggestionIndexAfter (ticks + 6) = suggestionIndexAfter ticks.
Proof.
  assert (H : forall n, suggestionIndexAfter n = n mod 6).
  { induction n as [|n IH]; [reflexivity|].
    cbn [suggestionIndexAfter]. unfold nextSuggestionIndex. rewrite IH.
    change (List.length REMIX_SUGGESTIONS) with 6.
    rewrite Nat.Div0.add_mod_idemp_l. f_equal. lia. }
  split; [apply H|]. split.
  - rewrite H.
    assert (Hlt : ticks mod 6 < List.length REMIX_SUGGESTIONS)
      by (apply Nat.mod_upper_bound; discriminate).
    destruct (nth_error REMIX_SUGGESTIONS (ticks mod 6)) as [text|] eqn:E;
      [eauto|].
    apply nth_error_None in E. lia.
  - rewrite !H. replace (ticks + 6) with (ticks + 1 * 6) by lia.
    apply Nat.Div0.mod_add.
Qed.

Lemma first_model_failure_returns_to_uploader_witness :
  String.prefix "image/" "image/jpeg" = true
  /\ handleFileSelect (mkBrowserFile "photo" "text/plain" "notes.txt")
       initialStart
     = StartReturn
         (setStartError (Some "Vui lòng chọn một tệp hình ảnh.") initialStart)
  /\ exists st1 st2 st3,
       handleFileSelect (mkBrowserFile "photo" "image/jpeg" "me.jpg")
         initialStart
       = StartAwait st1
           (readAsDataURL (mkBrowserFile "photo" "image/jpeg" "me.jpg"))
           (FileLoadAwait (mkBrowserFile "photo" "image/jpeg" "me.jpg"))
       /\ resumeStart sampleFriendlyMessage
            (FileLoadAwait (mkBrowserFile "photo" "image/jpeg" "me.jpg"))
            (Fulfilled "data:image/jpeg;base64,AA") st1
          = StartAwait st2
              (generateModelImage (mkBrowserFile "photo" "image/jpeg" "me.jpg"))
              FirstModelAwait
       /\ resumeStart sampleFriendlyMessage FirstModelAwait (Rejected "blocked")
            st2
          = StartReturn st3
       /\ userImageUrl st3 = None
       /\ finalizeOffered st3 = false.
Proof.
  split; [reflexivity|].
  split; [exact (proj1 (first_model_failure_returns_to_uploader
                          sampleFriendlyMessage
                          (mkBrowserFile "photo" "text/plain" "notes.txt")
                          initialStart "" "") eq_refl)|].
  destruct (proj2 (first_model_failure_returns_to_uploader
                     sampleFriendlyMessage
                     (mkBrowserFile "photo" "image/jpeg" "me.jpg")
                     initialStart "data:image/jpeg;base64,AA" "blocked")
              eq_refl)
    as (st1 & st2 & st3 & H1 & _ & H2 & _ & _ & _ & _ & _ & H3 & _ & H4 & _ & _
        & H5 & _).
  exists st1, st2, st3. repeat split; assumption.
Defined.

Lemma model_is_handed_over_after_success_witness :
  String.prefix "image/" "image/jpeg" = true
  /\ exists st3,
       startStateOf
         (resumeStart sampleFriendlyMessage FirstModelAwait
            (Fulfilled "data:image/png;base64,BB")
            (startStateOf
               (resumeStart sampleFriendlyMessage
                  (FileLoadAwait (mkBrowserFile "photo" "image/jpeg" "me.jpg"))
                  (Fulfilled "data:image/jpeg;base64,AA")
                  (startStateOf
                     (handleFileSelect
                        (mkBrowserFile "photo" "image/jpeg" "me.jpg")
                        initialStart)))))
       = st3
       /\ finalizeOffered st3 = true
       /\ displayImageUrl (finalizeClick st3 initialState)
          = Some "data:image/png;base64,BB"%string.
Proof.
  split; [reflexivity|].
  destruct (model_is_handed_over_after_success sampleFriendlyMessage
              (mkBrowserFile "photo" "image/jpeg" "me.jpg") initialStart
              "data:image/jpeg;base64,AA" "data:image/png;base64,BB" "" ""
              initialState eq_refl)
    as (st1 & st2 & st3 & st4 & st5 & st6 & H1 & H2 & H3 & H4 & _ & _ & H5 & _);
    try discriminate.
  exists st3. rewrite H1. cbn [startStateOf]. rewrite H2. cbn [startStateOf].
  rewrite H3. cbn [startStateOf]. repeat split; assumption.
Defined.
